(** * ETL scripts of the "Python Project for Data Engineering" course

    A shallow embedding of [banks_project.py] and [etl_project_gdp.py]:
    the two extract / transform / load / query pipelines, the pandas,
    BeautifulSoup and sqlite operations they call, and the properties of
    the pipelines stated in the specification.

    What is modelled and how:
    - a Python [float] or numpy [float64] is an IEEE binary64 number
      ([spec_float] at precision 53), a missing value is NaN;
    - a [str] is its UTF-8 bytes;
    - a frame is the list of its named, typed columns; the frames that
      [banks_project.py] assigns columns to live in a store behind
      references, so that the caller sees the assignment;
    - the log file, the CSV files and the database tables are the state
      of a run; a statement changes the state and returns or raises;
    - the calls into the libraries whose inside is not the scripts'
      business ([str.lower], the string-to-double conversion, [read_html],
      the rendering of frames and rows, the SQL engine on query text) are
      the fields of [Library]; the network, the exchange-rate file and
      the failures of storage are the fields of [Env].  The statements
      hold for every such library and environment.

    Layout: the definitions come first (floats, Python strings, the
    parsed document, pandas frames, the sinks, the two scripts, the
    vocabulary of the statements, the example inputs), the lemmas and
    theorems after them. *)

From Stdlib Require Import ZArith List String Ascii Bool Lia.
From Stdlib Require Import Floats.SpecFloat.
From stdpp Require Import base option list gmap strings pretty.

Set Warnings "-register-all".

(* ===================================================================== *)
(** * IEEE binary64 numbers (Python [float], numpy [float64])            *)
(* ===================================================================== *)

(** A double is a [spec_float] at precision 53 and maximal exponent 1024;
    a missing value of a numeric column is the NaN of that type, as in
    pandas. *)
Module Float64.

Definition prec : Z := 53%Z.
Definition emax : Z := 1024%Z.

Definition nan : spec_float := S754_nan.

Definition is_nan (x : spec_float) : bool :=
  match x with S754_nan => true | _ => false end.

Definition mul : spec_float -> spec_float -> spec_float := SFmul prec emax.
Definition div : spec_float -> spec_float -> spec_float := SFdiv prec emax.

(** The double nearest to an integer (ties to even). *)
Definition of_Z (n : Z) : spec_float := binary_normalize prec emax n 0%Z false.

(** C's [rint] in the default rounding mode: the nearest integer, ties to
    even, keeping the sign of the argument; infinities, zeros, NaN and
    the doubles with no fractional bit are returned as they are. *)
Definition rint (x : spec_float) : spec_float :=
  match x with
  | S754_finite s m (Zneg p) =>
      let mrs := SpecFloat.iter_pos shr_1 p (Build_shr_record (Zpos m) false false) in
      let n := round_nearest_even (shr_m mrs) (loc_of_shr_record mrs) in
      binary_normalize prec emax (cond_Zopp s n) 0%Z s
  | _ => x
  end.

(** numpy's [round(decimals)] for [decimals > 0] on a float64 array:
    multiply by the power of ten, [rint], divide by the power of ten.
    The power of ten is exact up to 10^22. *)
Definition power_of_ten (decimals : nat) : spec_float :=
  of_Z (10 ^ Z.of_nat decimals)%Z.

Definition round (x : spec_float) (decimals : nat) : spec_float :=
  div (rint (mul x (power_of_ten decimals))) (power_of_ten decimals).

End Float64.

Abbreviation float64 := spec_float.

(* ===================================================================== *)
(** * Python values: exceptions, results, strings                        *)
(* ===================================================================== *)

(** A raised exception: its class and the text [str(e)] gives. *)
Record exn := Exn { exn_class : string; exn_msg : string }.

Inductive result (A : Type) : Type :=
| Ok (a : A)
| Raise (e : exn).
Arguments Ok {A} a.
Arguments Raise {A} e.

Definition Exception (msg : string) : exn := Exn "Exception" msg.

Definition rbind {A B : Type} (r : result A) (k : A -> result B) : result B :=
  match r with
  | Ok a => k a
  | Raise e => Raise e
  end.

(** Python [str] values are kept as their UTF-8 bytes.  The patterns the
    scripts look for are ASCII characters or the em dash, and UTF-8 never
    shows the bytes of one character inside another, so matching on bytes
    and matching on code points agree. *)
Module PyStr.

Definition newline : ascii := ascii_of_nat 10.

(** U+2014, the em dash, as UTF-8: E2 80 94. *)
Definition em_dash : string :=
  String (ascii_of_nat 226) (String (ascii_of_nat 128)
    (String (ascii_of_nat 148) EmptyString)).

(** [strip_prefix p s]: what follows [p] when [s] starts with [p]. *)
Fixpoint strip_prefix (p s : string) : option string :=
  match p, s with
  | EmptyString, _ => Some s
  | String a p', String b s' =>
      if Ascii.eqb a b then strip_prefix p' s' else None
  | String _ _, EmptyString => None
  end.

(** [sub in s], Python's substring test (case-sensitive). *)
Fixpoint contains (sub s : string) : bool :=
  match strip_prefix sub s with
  | Some _ => true
  | None =>
      match s with
      | EmptyString => false
      | String _ s' => contains sub s'
      end
  end.

(** After an opening bracket: the text behind the first closing bracket,
    when no newline comes before it ([.] does not match a newline, and
    [.*?] stops at the first closing bracket). *)
Fixpoint after_bracket (s : string) : option string :=
  match s with
  | EmptyString => None
  | String c s' =>
      if Ascii.eqb c "]" then Some s'
      else if Ascii.eqb c newline then None
      else after_bracket s'
  end.

(** One match of the pattern [\[.*?\]|,|—] at the start of [s]:
    the text behind the match. *)
Definition match_noise (s : string) : option string :=
  match s with
  | EmptyString => None
  | String c s' =>
      if Ascii.eqb c "[" then after_bracket s'
      else if Ascii.eqb c "," then Some s'
      else strip_prefix em_dash s
  end.

(** [re.sub(r'\[.*?\]|,|—', '', s)]: scan from the left; where the
    pattern matches, drop the match and go on behind it, otherwise keep
    the character and go on one further.  Every match is at least one
    byte long, so [String.length s] steps are enough. *)
Fixpoint sub_noise_fuel (fuel : nat) (s : string) : string :=
  match fuel with
  | O => s
  | S fuel' =>
      match match_noise s with
      | Some rest => sub_noise_fuel fuel' rest
      | None =>
          match s with
          | EmptyString => EmptyString
          | String c s' => String c (sub_noise_fuel fuel' s')
          end
      end
  end.

Definition sub_noise (s : string) : string :=
  sub_noise_fuel (String.length s) s.

End PyStr.

(* ===================================================================== *)
(** * The parsed document (BeautifulSoup)                                *)
(* ===================================================================== *)

Module Soup.

(** An element with its tag name, its [id] attribute, the values of its
    [class] attribute and its children, or a piece of text. *)
Inductive node : Type :=
| Tag (name : string) (id : option string) (classes : list string)
      (children : list node)
| NavigableString (text : string).

(** Everything below [n], in document order. *)
Fixpoint descendants (n : node) : list node :=
  match n with
  | Tag _ _ _ children => flat_map (fun c => c :: descendants c) children
  | NavigableString _ => []
  end.

Definition has_name (nm : string) (n : node) : bool :=
  match n with
  | Tag name _ _ _ => String.eqb name nm
  | NavigableString _ => false
  end.

Definition has_id (i : string) (n : node) : bool :=
  match n with
  | Tag _ (Some j) _ _ => String.eqb j i
  | _ => false
  end.

Definition has_class (c : string) (n : node) : bool :=
  match n with
  | Tag _ _ classes _ => existsb (String.eqb c) classes
  | NavigableString _ => false
  end.

(** A found element, as a [Tag] object knows it: the element and what
    comes after its opening in document order ([next_elements]). *)
Record located := Located { element : node; next_elements : list node }.

Fixpoint find_in (p : node -> bool) (l : list node) : option located :=
  match l with
  | [] => None
  | x :: l' => if p x then Some (Located x l') else find_in p l'
  end.

(** [tag.find(...)]: the first match below [tag]. *)
Definition find (p : node -> bool) (n : node) : option located :=
  find_in p (descendants n).

(** [tag.find_next(...)]: the first match after [tag]. *)
Definition find_next (p : node -> bool) (t : located) : option located :=
  find_in p (next_elements t).

(** [tag.find_all(...)]: all matches below [tag], in document order. *)
Definition find_all (p : node -> bool) (n : node) : list node :=
  List.filter p (descendants n).

(** [tag.text]: the pieces of text below [tag], joined. *)
Fixpoint text (n : node) : string :=
  match n with
  | NavigableString s => s
  | Tag _ _ _ children =>
      fold_right (fun c acc => String.append (text c) acc) EmptyString children
  end.

End Soup.

(* ===================================================================== *)
(** * pandas values                                                       *)
(* ===================================================================== *)

(** An entry of an object column: a Python [str], or a float (NaN where
    the source cell was empty). *)
Inductive cell : Type :=
| Str (s : string)
| Num (x : float64).

(** A column with its dtype.  An [int64] column is kept as the float64
    values the arithmetic of the scripts converts it to. *)
Inductive Series : Type :=
| ObjectS (values : list cell)
| FloatS (values : list float64).

(** A frame: its named columns, in order.  The row labels are left out:
    both scripts write their frames with [index=False]. *)
Abbreviation DataFrame := (list (string * Series)).

(** What a sink holds: column names and rows. *)
Record Table := MkTable { t_columns : list string; t_rows : list (list cell) }.

(** The library calls whose results are taken as given: Python's
    [str.lower], the conversion of a string to a double that
    [pandas.to_numeric] applies ([None]: not a number), [pandas.read_html]
    on the markup of one table (the first frame it returns), the text
    [str(df.head())] and [str(row)] produce, and the SQL engine running
    the text of a query on the tables of a database. *)
Class Library := {
  str_lower : string -> string;
  str_to_float : string -> option float64;
  read_html : Soup.node -> result DataFrame;
  repr_head : DataFrame -> string;
  repr_row : list cell -> string;
  sql_query : string -> gmap string Table -> result (list (list cell));
}.

(** What is outside the process during one run: the answer to an HTTP GET,
    the frame [pandas.read_csv] builds from a path or URL, and whether a
    file can be written and a database file opened. *)
Record Response := MkResponse { status_code : nat; soup_of : Soup.node }.

Record Env := MkEnv {
  http_get : string -> result Response;
  read_csv : string -> result DataFrame;
  can_write : string -> bool;
  can_open : string -> bool;
}.

#[global] Instance result_ret : MRet result := fun _ a => Ok a.
#[global] Instance result_bind : MBind result := fun _ _ k r => rbind r k.

Module Pandas.

Definition KeyError (key : string) : exn :=
  Exn "KeyError" (String.append "'" (String.append key "'")).
Definition IndexError (msg : string) : exn := Exn "IndexError" msg.
Definition ValueError (msg : string) : exn := Exn "ValueError" msg.
Definition TypeError (msg : string) : exn := Exn "TypeError" msg.
Definition AttributeError (msg : string) : exn := Exn "AttributeError" msg.

Definition is_str (c : cell) : bool :=
  match c with Str _ => true | Num _ => false end.

(** [pandas.isna] on one entry. *)
Definition isna_cell (c : cell) : bool :=
  match c with Str _ => false | Num x => Float64.is_nan x end.

Definition cells (s : Series) : list cell :=
  match s with
  | ObjectS l => l
  | FloatS l => map Num l
  end.

Definition isna (s : Series) : list bool := map isna_cell (cells s).

Definition columns (df : DataFrame) : list string := map fst df.

(** Number of rows: the length of the columns (all of one length). *)
Definition nrows (df : DataFrame) : nat :=
  match df with
  | [] => O
  | (_, s) :: _ => length (cells s)
  end.

(** The rows of a frame, as the sinks receive them. *)
Definition row_at (df : DataFrame) (i : nat) : list cell :=
  map (fun c => nth i (cells (snd c)) (Num Float64.nan)) df.

Definition rows_of (df : DataFrame) : list (list cell) :=
  map (row_at df) (seq O (nrows df)).

Definition table_of (df : DataFrame) : Table :=
  MkTable (columns df) (rows_of df).

(** [df.iloc[:, idx]]: the columns at the given positions. *)
Fixpoint iloc_columns (idx : list nat) (df : DataFrame) : result DataFrame :=
  match idx with
  | [] => Ok []
  | i :: idx' =>
      match nth_error df i with
      | None => Raise (IndexError "positional indexers are out-of-bounds")
      | Some c => rest ← iloc_columns idx' df; Ok (c :: rest)
      end
  end.

(** [df.columns = names]. *)
Definition set_columns (names : list string) (df : DataFrame) : result DataFrame :=
  if Nat.eqb (length names) (length df)
  then Ok (combine names (map snd df))
  else Raise (ValueError "Length mismatch")%string.

(** [df[name]], for frames whose column names are distinct. *)
Fixpoint getitem (name : string) (df : DataFrame) : result Series :=
  match df with
  | [] => Raise (KeyError name)
  | (n, s) :: df' => if String.eqb n name then Ok s else getitem name df'
  end.

Definition has_column (name : string) (df : DataFrame) : bool :=
  existsb (String.eqb name) (columns df).

(** [df[name] = s]: the column of that name is replaced where it stands;
    a new name is added as the last column. *)
Definition setitem (name : string) (s : Series) (df : DataFrame) : DataFrame :=
  if has_column name df
  then map (fun c => if String.eqb (fst c) name then (fst c, s) else c) df
  else df ++ [(name, s)].

(** [df[[n1, n2, ...]]]. *)
Fixpoint select_columns (names : list string) (df : DataFrame) : result DataFrame :=
  match names with
  | [] => Ok []
  | n :: names' =>
      s ← getitem n df; rest ← select_columns names' df; Ok ((n, s) :: rest)
  end.

(** Boolean indexing: the entries whose mask is [True], in order. *)
Fixpoint select_mask {A : Type} (mask : list bool) (l : list A) : list A :=
  match mask, l with
  | b :: mask', x :: l' =>
      if b then x :: select_mask mask' l' else select_mask mask' l'
  | _, _ => []
  end.

Definition series_mask (mask : list bool) (s : Series) : Series :=
  match s with
  | ObjectS l => ObjectS (select_mask mask l)
  | FloatS l => FloatS (select_mask mask l)
  end.

(** [df[mask]]. *)
Definition frame_mask (mask : list bool) (df : DataFrame) : DataFrame :=
  map (fun c => (fst c, series_mask mask (snd c))) df.

(** [df.dropna(subset=[name])]. *)
Definition dropna (name : string) (df : DataFrame) : result DataFrame :=
  s ← getitem name df; Ok (frame_mask (map negb (isna s)) df).

(** [s.isin(values)] for a list of strings. *)
Definition isin (values : list string) (s : Series) : list bool :=
  map (fun c => match c with
                | Str t => existsb (String.eqb t) values
                | Num _ => false
                end) (cells s).

(** [s.replace(to_replace=r'\[.*?\]|,|—', value='', regex=True)]: the
    strings are rewritten, anything else is left as it is. *)
Definition replace_noise_cell (c : cell) : cell :=
  match c with
  | Str t => Str (PyStr.sub_noise t)
  | Num x => Num x
  end.

Definition replace_noise (s : Series) : Series :=
  match s with
  | ObjectS l => ObjectS (map replace_noise_cell l)
  | FloatS l => FloatS l
  end.

(** [s * r] and [s / d] for a float64 column and a float scalar.  An
    object column or a string scalar is a [TypeError]: the scripts only
    ever reach the arithmetic with the float64 column [to_numeric]
    returned. *)
Definition mul_scalar (s : Series) (r : cell) : result Series :=
  match s, r with
  | FloatS l, Num x => Ok (FloatS (map (fun v => Float64.mul v x) l))
  | _, _ => Raise (TypeError "unsupported operand type(s) for *")
  end.

Definition div_scalar (s : Series) (d : float64) : result Series :=
  match s with
  | FloatS l => Ok (FloatS (map (fun v => Float64.div v d) l))
  | ObjectS _ => Raise (TypeError "unsupported operand type(s) for /")
  end.

(** [s.round(decimals)]. *)
Definition round (s : Series) (decimals : nat) : result Series :=
  match s with
  | FloatS l => Ok (FloatS (map (fun v => Float64.round v decimals) l))
  | ObjectS _ => Raise (TypeError "Expected numeric dtype, got object instead.")
  end.

(** [dict(zip(keys, values))] read at string keys: a later pair
    overwrites an earlier one with the same key; a key that is not a
    string is never looked up by the scripts. *)
Definition dict_zip (keys values : list cell) : gmap string cell :=
  fold_left (fun d kv => match fst kv with
                         | Str k => <[k := snd kv]> d
                         | Num _ => d
                         end) (combine keys values) ∅.

Definition dict_get (d : gmap string cell) (key : string) : result cell :=
  match d !! key with
  | Some v => Ok v
  | None => Raise (KeyError key)
  end.

Inductive errors_mode := ErrorsRaise | ErrorsCoerce.

Section WithLibrary.
Context `{Library}.

(** [pandas.to_numeric] on one entry: a number is kept; the empty
    string is missing; any other string is converted, and where the
    conversion fails [errors='coerce'] gives NaN and [errors='raise']
    raises. *)
Definition to_numeric_cell (errors : errors_mode) (c : cell) : result float64 :=
  match c with
  | Num x => Ok x
  | Str t =>
      if String.eqb t "" then Ok Float64.nan
      else match str_to_float t, errors with
           | Some x, _ => Ok x
           | None, ErrorsCoerce => Ok Float64.nan
           | None, ErrorsRaise =>
               Raise (ValueError (String.append "Unable to parse string " t))
           end
  end.

Fixpoint to_numeric_cells (errors : errors_mode) (l : list cell)
  : result (list float64) :=
  match l with
  | [] => Ok []
  | c :: l' =>
      x ← to_numeric_cell errors c;
      rest ← to_numeric_cells errors l';
      Ok (x :: rest)
  end.

Definition to_numeric (errors : errors_mode) (s : Series) : result Series :=
  match s with
  | FloatS l => Ok (FloatS l)
  | ObjectS l => l' ← to_numeric_cells errors l; Ok (FloatS l')
  end.

(** [s.str.lower()]: the [.str] accessor is refused on a column that is
    not of object dtype, and on an object column that holds numbers
    and no string; below a string is lower-cased and anything else
    becomes NaN. *)
Definition str_accessor_ok (s : Series) : bool :=
  match s with
  | ObjectS l => existsb is_str l || forallb isna_cell l
  | FloatS _ => false
  end.

Definition lower_cell (c : cell) : cell :=
  match c with
  | Str t => Str (str_lower t)
  | Num _ => Num Float64.nan
  end.

Definition series_str_lower (s : Series) : result Series :=
  if str_accessor_ok s
  then Ok (ObjectS (map lower_cell (cells s)))
  else Raise (AttributeError "Can only use .str accessor with string values!").

End WithLibrary.

End Pandas.

(* ===================================================================== *)
(** * The state of a run and the sinks                                   *)
(* ===================================================================== *)

(** What a script can change: the lines of its log file (oldest first; a
    line is kept as its message, without the timestamp written in front
    of it), the CSV files it wrote, the tables of the database files, and
    the frames that live behind Python references. *)
Record World := MkWorld {
  log_file : list string;
  csv_files : gmap string Table;
  databases : gmap string (gmap string Table);
  frames : gmap nat DataFrame;
}.

Definition set_log (l : list string) (w : World) : World :=
  MkWorld l (csv_files w) (databases w) (frames w).
Definition set_csv_files (c : gmap string Table) (w : World) : World :=
  MkWorld (log_file w) c (databases w) (frames w).
Definition set_databases (d : gmap string (gmap string Table)) (w : World) : World :=
  MkWorld (log_file w) (csv_files w) d (frames w).
Definition set_frames (f : gmap nat DataFrame) (w : World) : World :=
  MkWorld (log_file w) (csv_files w) (databases w) f.

(** A statement: it changes the world and returns or raises.  What was
    changed before an exception stays changed. *)
Definition Run (A : Type) : Type := World -> World * result A.

Definition run_ret {A : Type} (a : A) : Run A := fun w => (w, Ok a).

Definition run_bind {A B : Type} (m : Run A) (k : A -> Run B) : Run B :=
  fun w =>
    match m w with
    | (w', Ok a) => k a w'
    | (w', Raise e) => (w', Raise e)
    end.

#[global] Instance Run_ret : MRet Run := @run_ret.
#[global] Instance Run_bind : MBind Run := fun _ _ k m => run_bind m k.

Definition raise {A : Type} (e : exn) : Run A := fun w => (w, Raise e).

Definition lift {A : Type} (r : result A) : Run A := fun w => (w, r).

(** [try: body except Exception as e: handler(e)]. *)
Definition try_except {A : Type} (body : Run A) (handler : exn -> Run A) : Run A :=
  fun w =>
    match body w with
    | (w', Ok a) => (w', Ok a)
    | (w', Raise e) => handler e w'
    end.

Definition append_log (line : string) : Run unit :=
  fun w => (set_log (log_file w ++ [line]) w, Ok tt).

(** A new frame object; its reference is returned. *)
Definition new_frame (df : DataFrame) : Run nat :=
  fun w =>
    let r := fresh (dom (frames w)) in
    (set_frames (<[r := df]> (frames w)) w, Ok r).

(** The frame behind a reference.  A reference the scripts hold is always
    live; the error is for a number that is no reference. *)
Definition read_frame (r : nat) : Run DataFrame :=
  fun w =>
    match frames w !! r with
    | Some df => (w, Ok df)
    | None => (w, Raise (Exn "ReferenceError" "no such frame"))
    end.

Definition write_frame (r : nat) (df : DataFrame) : Run unit :=
  fun w => (set_frames (<[r := df]> (frames w)) w, Ok tt).

Definition OSError (msg : string) : exn := Exn "OSError" msg.
Definition OperationalError (msg : string) : exn := Exn "OperationalError" msg.

(** [df.to_csv(path, index=False)]: the file is overwritten with the
    header and the rows of the frame. *)
Definition to_csv (env : Env) (df : DataFrame) (path : string) : Run unit :=
  fun w =>
    if can_write env path
    then (set_csv_files (<[path := Pandas.table_of df]> (csv_files w)) w, Ok tt)
    else (w, Raise (OSError "cannot write file")).

Module Sqlite.

(** A connection is the name of the database file it was opened on. *)
Abbreviation connection := string.

Definition connect (env : Env) (db_name : string) : Run connection :=
  fun w =>
    if can_open env db_name
    then (w, Ok db_name)
    else (w, Raise (OperationalError "unable to open database file")).

Definition tables (conn : connection) (w : World) : gmap string Table :=
  default ∅ (databases w !! conn).

Definition set_tables (conn : connection) (t : gmap string Table) : Run unit :=
  fun w => (set_databases (<[conn := t]> (databases w)) w, Ok tt).

(** [DROP TABLE IF EXISTS name]. *)
Definition drop_table_if_exists (conn : connection) (name : string) : Run unit :=
  fun w => set_tables conn (delete name (tables conn w)) w.

(** [CREATE TABLE name (columns)]; an existing table of that name is an
    error. *)
Definition create_table (conn : connection) (name : string)
           (cols : list string) : Run unit :=
  fun w =>
    match tables conn w !! name with
    | Some _ => (w, Raise (OperationalError "table already exists"))
    | None => set_tables conn (<[name := MkTable cols []]> (tables conn w)) w
    end.

Inductive if_exists := IfFail | IfReplace | IfAppend.

(** A row of the frame laid out along the columns of an existing table:
    a column the frame does not have is NULL, kept as NaN. *)
Definition align_row (cols : list string) (df : DataFrame) (i : nat) : list cell :=
  map (fun c => match Pandas.getitem c df with
                | Ok s => nth i (Pandas.cells s) (Num Float64.nan)
                | Raise _ => Num Float64.nan
                end) cols.

Definition insert_rows (old : Table) (df : DataFrame) : result Table :=
  if forallb (fun c => existsb (String.eqb c) (t_columns old)) (Pandas.columns df)
  then Ok (MkTable (t_columns old)
             (t_rows old ++ map (align_row (t_columns old) df)
                                (seq O (Pandas.nrows df))))
  else Raise (OperationalError "table has no such column").

(** [df.to_sql(name, conn, if_exists=mode, index=False)]: a table that
    is not there is created from the columns of the frame; one that is
    there is an error, is dropped and created anew, or gets the rows
    added, by [mode]. *)
Definition to_sql (df : DataFrame) (name : string) (conn : connection)
           (mode : if_exists) : Run unit :=
  fun w =>
    match tables conn w !! name, mode with
    | None, _ | Some _, IfReplace =>
        set_tables conn (<[name := Pandas.table_of df]> (tables conn w)) w
    | Some _, IfFail => (w, Raise (Pandas.ValueError "Table already exists."))
    | Some old, IfAppend =>
        match insert_rows old df with
        | Ok t => set_tables conn (<[name := t]> (tables conn w)) w
        | Raise e => (w, Raise e)
        end
    end.

(** Running the text of a query on the tables behind the connection. *)
Definition execute `{Library} (conn : connection) (query : string)
  : Run (list (list cell)) :=
  fun w => (w, sql_query query (tables conn w)).

End Sqlite.

(* ===================================================================== *)
(** * banks_project.py                                                    *)
(* ===================================================================== *)

Module Banks.
Section Script.
Context `{Library} (env : Env).

(** Frames are handled through their references here: [transform]
    assigns columns to the frame it is given. *)
Definition getitem_ref (df : nat) (name : string) : Run Series :=
  d ← read_frame df; lift (Pandas.getitem name d).

Definition setitem_ref (df : nat) (name : string) (s : Series) : Run unit :=
  d ← read_frame df; write_frame df (Pandas.setitem name s d).

Definition log_progress (message : string) : Run unit := append_log message.

Definition is_heading (n : Soup.node) : bool :=
  Soup.has_name "h2" n && Soup.has_id "By_market_capitalization" n.

Definition is_wikitable (n : Soup.node) : bool :=
  Soup.has_name "table" n && Soup.has_class "wikitable" n.

(** Lines 30 to 38: the heading, then the table after it. *)
Definition locate_table (soup : Soup.node) : result Soup.node :=
  match Soup.find is_heading soup with
  | None => Raise (Exception "Heading with ID 'By_market_capitalization' not found")
  | Some h2_tag =>
      match Soup.find_next is_wikitable h2_tag with
      | None => Raise (Exception "Target table not found after heading")
      | Some next_table => Ok (Soup.element next_table)
      end
  end.

Definition extract (url : string) (table_attribs : list string) : Run nat :=
  response ← lift (http_get env url);
  next_table ← lift (locate_table (soup_of response));
  df ← lift (read_html next_table);
  df ← lift (Pandas.iloc_columns [0%nat; 2%nat] df);
  df ← lift (Pandas.set_columns table_attribs df);
  df ← lift (Pandas.dropna "MC_USD_Billion" df);
  df ← new_frame df;
  col ← getitem_ref df "MC_USD_Billion";
  num ← lift (Pandas.to_numeric Pandas.ErrorsCoerce col);
  setitem_ref df "MC_USD_Billion" num;;
  log_progress "Data extraction complete. Initiating Transformation process";;
  mret df.

(** One line [df[name] = (df['MC_USD_Billion'] * rates[currency]).round(2)]. *)
Definition add_converted (df : nat) (rates : gmap string cell)
           (name currency : string) : Run unit :=
  usd ← getitem_ref df "MC_USD_Billion";
  rate ← lift (Pandas.dict_get rates currency);
  product ← lift (Pandas.mul_scalar usd rate);
  rounded ← lift (Pandas.round product 2);
  setitem_ref df name rounded.

Definition transform (df : nat) (csv_path : string) : Run nat :=
  rates_df ← lift (read_csv env csv_path);
  currency ← lift (Pandas.getitem "Currency" rates_df);
  rate ← lift (Pandas.getitem "Rate" rates_df);
  let rates := Pandas.dict_zip (Pandas.cells currency) (Pandas.cells rate) in
  add_converted df rates "MC_GBP_Billion" "GBP";;
  add_converted df rates "MC_EUR_Billion" "EUR";;
  add_converted df rates "MC_INR_Billion" "INR";;
  log_progress "Data transformation complete. Initiating Loading process";;
  mret df.

Definition load_to_csv (df : nat) (output_path : string) : Run unit :=
  d ← read_frame df;
  to_csv env d output_path;;
  log_progress "Data saved to CSV file".

Definition load_to_db (df : nat) (sql_connection : Sqlite.connection)
           (table_name : string) : Run unit :=
  d ← read_frame df;
  Sqlite.to_sql d table_name sql_connection Sqlite.IfReplace;;
  log_progress "Data loaded to Database as a table, Executing queries".

(** The printed query and result are not kept: standard output is not
    part of the state. *)
Definition run_query (query_statement : string)
           (sql_connection : Sqlite.connection) : Run unit :=
  Sqlite.execute sql_connection query_statement;;
  log_progress "Process Complete".

Definition URL : string := "https://en.wikipedia.org/wiki/List_of_largest_banks".
Definition EXCHANGE_CSV : string :=
  "https://cf-courses-data.s3.us.cloud-object-storage.appdomain.cloud/IBMSkillsNetwork-PY0221EN-Coursera/labs/v2/exchange_rate.csv".
Definition OUTPUT_CSV : string := "./Largest_banks_data.csv".
Definition DB_NAME : string := "Banks.db".
Definition TABLE_NAME : string := "Largest_banks".
Definition ATTRIBUTES : list string := ["Name"; "MC_USD_Billion"].

(** The statements at module level.  [conn.close()] changes nothing that
    is kept in the state. *)
Definition main : Run unit :=
  log_progress "Preliminaries complete. Initiating ETL process";;
  df_extracted ← extract URL ATTRIBUTES;
  col ← getitem_ref df_extracted "MC_USD_Billion";
  num ← lift (Pandas.to_numeric Pandas.ErrorsCoerce col);
  setitem_ref df_extracted "MC_USD_Billion" num;;
  df_transformed ← transform df_extracted EXCHANGE_CSV;
  load_to_csv df_transformed OUTPUT_CSV;;
  conn ← Sqlite.connect env DB_NAME;
  log_progress "SQL Connection initiated";;
  load_to_db df_transformed conn TABLE_NAME;;
  run_query (String.append "SELECT * FROM " TABLE_NAME) conn;;
  run_query (String.append "SELECT AVG(MC_GBP_Billion) FROM " TABLE_NAME) conn;;
  run_query (String.append "SELECT Name FROM " (String.append TABLE_NAME " LIMIT 5")) conn;;
  log_progress "Server Connection closed".

End Script.
End Banks.

(* ===================================================================== *)
(** * etl_project_gdp.py                                                  *)
(* ===================================================================== *)

Module GDP.
Section Script.
Context `{Library} (env : Env).

Definition log_step (message : string) : Run unit := append_log message.

Definition is_wikitable (n : Soup.node) : bool :=
  Soup.has_name "table" n && Soup.has_class "wikitable" n.

Definition caption_text : string := "GDP (USD million) by country".

(** [caption and caption_text in caption.text] *)
Definition caption_matches (table : Soup.node) : bool :=
  match Soup.find (Soup.has_name "caption") table with
  | Some caption => PyStr.contains caption_text (Soup.text (Soup.element caption))
  | None => false
  end.

(** The loop over [all_tables], with the [raise] behind it. *)
Fixpoint scan_tables (all_tables : list Soup.node) : Run DataFrame :=
  match all_tables with
  | [] => raise (Exception "Could not find the correct GDP table by caption.")
  | table :: rest =>
      if caption_matches table
      then log_step "Found the correct GDP table using caption.";;
           lift (read_html table)
      else scan_tables rest
  end.

Definition extract_data (url : string) : Run DataFrame :=
  log_step "Starting data extraction...";;
  response ← lift (http_get env url);
  if negb (Nat.eqb (status_code response) 200)
  then raise (Exception "Failed to fetch webpage.")
  else scan_tables (Soup.find_all is_wikitable (soup_of response)).

(** Lines 71 to 82: the rows to keep by country, the cleaned GDP
    column, and the rows to keep by GDP. *)
Definition drop_excluded (df : DataFrame) : result DataFrame :=
  country ← Pandas.getitem "Country" df;
  lowered ← Pandas.series_str_lower country;
  Ok (Pandas.frame_mask
        (map negb (Pandas.isin ["world"; PyStr.em_dash] lowered)) df).

Definition clean_gdp (df : DataFrame) : result DataFrame :=
  col ← Pandas.getitem "GDP_USD_million" df;
  let df := Pandas.setitem "GDP_USD_million" (Pandas.replace_noise col) df in
  col ← Pandas.getitem "GDP_USD_million" df;
  num ← Pandas.to_numeric Pandas.ErrorsCoerce col;
  Ok (Pandas.setitem "GDP_USD_million" num df).

Definition row_filter (df : DataFrame) : result DataFrame :=
  df ← drop_excluded df;
  df ← clean_gdp df;
  Pandas.dropna "GDP_USD_million" df.

(** Line 85. *)
Definition to_billions (df : DataFrame) : result DataFrame :=
  col ← Pandas.getitem "GDP_USD_million" df;
  quotient ← Pandas.div_scalar col (Float64.of_Z 1000);
  rounded ← Pandas.round quotient 2;
  Ok (Pandas.setitem "GDP_USD_billion" rounded df).

Definition transform_frame (df : DataFrame) : result DataFrame :=
  df ← Pandas.iloc_columns [0%nat; 2%nat] df;
  df ← Pandas.set_columns ["Country"; "GDP_USD_million"] df;
  df ← row_filter df;
  df ← to_billions df;
  Pandas.select_columns ["Country"; "GDP_USD_billion"] df.

Definition transform_data (df : DataFrame) : Run DataFrame :=
  log_step "Starting data transformation...";;
  df ← lift (transform_frame df);
  log_step (String.append "Transformation complete. Sample data:"
              (String PyStr.newline (repr_head df)));;
  mret df.

Definition load_to_csv (df : DataFrame) (filename : string) : Run unit :=
  log_step (String.append "Saving data to CSV file: " filename);;
  to_csv env df filename.

Definition load_to_database (df : DataFrame) (db_name : string)
  : Run Sqlite.connection :=
  log_step (String.append "Saving data to database: " db_name);;
  conn ← Sqlite.connect env db_name;
  Sqlite.drop_table_if_exists conn "Countries_by_GDP";;
  Sqlite.create_table conn "Countries_by_GDP" ["Country"; "GDP_USD_billion"];;
  Sqlite.to_sql df "Countries_by_GDP" conn Sqlite.IfAppend;;
  log_step "Data loaded into database.";;
  mret conn.

(** ["\n".join(lines)] *)
Fixpoint join_lines (lines : list string) : string :=
  match lines with
  | [] => EmptyString
  | [l] => l
  | l :: rest => String.append l (String PyStr.newline (join_lines rest))
  end.

Definition query_database (conn : Sqlite.connection) : Run unit :=
  log_step "Running query for countries with GDP > 100 billion USD...";;
  results ← Sqlite.execute conn
    "SELECT * FROM Countries_by_GDP WHERE GDP_USD_billion > 100";
  log_step (String.append "Query returned "
              (String.append (pretty (length results))
                 (String.append " countries:"
                    (String PyStr.newline (join_lines (map repr_row results)))))).

Definition url : string :=
  "https://web.archive.org/web/20230902185326/https://en.wikipedia.org/wiki/List_of_countries_by_GDP_%28nominal%29".

(** The body of the [try] in [main]; [conn.close()] changes nothing that
    is kept in the state. *)
Definition etl : Run unit :=
  df_raw ← extract_data url;
  df_transformed ← transform_data df_raw;
  load_to_csv df_transformed "Countries_by_GDP.csv";;
  conn ← load_to_database df_transformed "World_Economies.db";
  query_database conn;;
  log_step "ETL process completed successfully.".

Definition main : Run unit :=
  log_step "ETL process started.";;
  try_except etl
    (fun e => log_step (String.append "ETL process failed: " (exn_msg e))).

End Script.
End GDP.

(* ===================================================================== *)
(** * A small library instance for test runs                             *)
(* ===================================================================== *)

Module Plain.

(** Lower-casing of the ASCII letters; other bytes are kept. *)
Definition lower_ascii (c : ascii) : ascii :=
  let n := nat_of_ascii c in
  if Nat.leb 65 n && Nat.leb n 90 then ascii_of_nat (n + 32) else c.

Fixpoint lower (s : string) : string :=
  match s with
  | EmptyString => EmptyString
  | String c s' => String (lower_ascii c) (lower s')
  end.

Definition digit (c : ascii) : option Z :=
  let n := nat_of_ascii c in
  if Nat.leb 48 n && Nat.leb n 57 then Some (Z.of_nat (n - 48)) else None.

(** Digits read after the decimal point: value so far and number of
    fractional digits. *)
Fixpoint fraction (s : string) (acc : Z) (k : nat) : option (Z * nat) :=
  match s with
  | EmptyString => Some (acc, k)
  | String c s' =>
      match digit c with
      | Some d => fraction s' (10 * acc + d)%Z (S k)
      | None => None
      end
  end.

Fixpoint digits (s : string) (acc : Z) (seen : bool) : option (Z * nat) :=
  match s with
  | EmptyString => if seen then Some (acc, O) else None
  | String c s' =>
      match digit c with
      | Some d => digits s' (10 * acc + d)%Z true
      | None => if Ascii.eqb c "." && seen then fraction s' acc O else None
      end
  end.

(** Plain decimal literals: an optional minus sign, digits, and an
    optional fractional part; anything else is not a number. *)
Definition decimal (s : string) : option float64 :=
  let '(neg, body) :=
    match s with
    | String "-" s' => (true, s')
    | _ => (false, s)
    end in
  match digits body 0%Z false with
  | Some (n, k) =>
      let x := Float64.div (Float64.of_Z n) (Float64.power_of_ten k) in
      Some (if neg then SFopp x else x)
  | None => None
  end.

(** The instance: [tables] stands for [read_html]; nothing is rendered
    and every query returns no row. *)
Definition library (tables : Soup.node -> result DataFrame) : Library :=
  {| str_lower := lower;
     str_to_float := decimal;
     read_html := tables;
     repr_head := fun _ => EmptyString;
     repr_row := fun _ => EmptyString;
     sql_query := fun _ _ => Ok [] |}.

End Plain.

(** Python's [str.strip()] on ASCII white space, for the wording of the
    specification ("lower-cased trimmed value"); the scripts never call
    it. *)
Module SpecWords.

Definition is_space (c : ascii) : bool :=
  let n := nat_of_ascii c in
  Nat.eqb n 32 || (Nat.leb 9 n && Nat.leb n 13).

Fixpoint lstrip (s : string) : string :=
  match s with
  | String c s' => if is_space c then lstrip s' else s
  | EmptyString => EmptyString
  end.

Fixpoint rstrip (s : string) : string :=
  match s with
  | EmptyString => EmptyString
  | String c s' =>
      match rstrip s' with
      | EmptyString => if is_space c then EmptyString else String c EmptyString
      | r => String c r
      end
  end.

Definition strip (s : string) : string := rstrip (lstrip s).

End SpecWords.

(* ===================================================================== *)
(** * Vocabulary of the statements                                        *)
(* ===================================================================== *)

Module Props.
Section WithLibrary.
Context `{Library}.

(** What [errors='coerce'] makes of an entry. *)
Definition coerced (c : cell) : float64 :=
  match c with
  | Num x => x
  | Str t =>
      if String.eqb t "" then Float64.nan
      else default Float64.nan (str_to_float t)
  end.

(** The GDP value of a row after the cleaning of lines 74 to 79. *)
Definition cleaned (v : cell) : float64 :=
  coerced (Pandas.replace_noise_cell v).

(** A country the mask of line 71 excludes. *)
Definition excluded (k : cell) : bool :=
  match k with
  | Str t => existsb (String.eqb (str_lower t)) ["world"; PyStr.em_dash]
  | Num _ => false
  end.

(** A row (country, GDP) that lines 71 to 82 keep, and the row they
    make of it. *)
Definition kept (r : cell * cell) : bool :=
  negb (excluded (fst r)) && negb (Float64.is_nan (cleaned (snd r))).

Definition cleaned_row (r : cell * cell) : list cell :=
  [fst r; Num (cleaned (snd r))].

(** The exclusion in the words of the specification: the lower-cased
    trimmed value is in the exclusion set. *)
Definition spec_excluded (k : cell) : bool :=
  match k with
  | Str t =>
      existsb (String.eqb (str_lower (SpecWords.strip t)))
              ["world"; PyStr.em_dash]
  | Num _ => false
  end.

Definition spec_kept (r : cell * cell) : bool :=
  negb (spec_excluded (fst r)) && negb (Float64.is_nan (cleaned (snd r))).

End WithLibrary.

(** The frame [transform_data] has after line 68. *)
Definition gdp_frame (c g : Series) : DataFrame :=
  [("Country", c); ("GDP_USD_million", g)].

(** The rows of a frame of two columns. *)
Definition pairs (c g : Series) : list (cell * cell) :=
  combine (Pandas.cells c) (Pandas.cells g).

(** A sink row that carries a missing number. *)
Definition has_missing (row : list cell) : bool := existsb Pandas.isna_cell row.

(** The lines [banks_project.py] ever writes to its log. *)
Definition banks_messages : list string :=
  ["Preliminaries complete. Initiating ETL process";
   "Data extraction complete. Initiating Transformation process";
   "Data transformation complete. Initiating Loading process";
   "Data saved to CSV file";
   "SQL Connection initiated";
   "Data loaded to Database as a table, Executing queries";
   "Process Complete";
   "Server Connection closed"].

(** A statement that only adds lines of [msgs] to the log. *)
Definition logs_only {A : Type} (msgs : list string) (m : Run A) : Prop :=
  forall w, exists added,
    log_file (fst (m w)) = log_file w ++ added /\
    Forall (fun line => In line msgs) added.

(** A statement without side effects: the world is left as it was. *)
Definition pure {A : Type} (m : Run A) : Prop :=
  forall w, fst (m w) = w.

Definition derived_names : list string :=
  ["MC_GBP_Billion"; "MC_EUR_Billion"; "MC_INR_Billion"].

(** The column line 61, 62 or 63 computes from the dollar values and a
    rate: every value times the rate, rounded to two decimals. *)
Definition converted (usd : list float64) (rate : float64) : Series :=
  FloatS (map (fun x => Float64.round (Float64.mul x rate) 2) usd).

(** The frame after the three assignments of [transform]. *)
Definition with_converted (d : DataFrame) (usd : list float64)
           (gbp eur inr : float64) : DataFrame :=
  Pandas.setitem "MC_INR_Billion" (converted usd inr)
    (Pandas.setitem "MC_EUR_Billion" (converted usd eur)
       (Pandas.setitem "MC_GBP_Billion" (converted usd gbp) d)).

(** The rates [transform] reads: lines 58 and 59. *)
Definition rates_of (env : Env) (csv_path : string) : result (gmap string cell) :=
  rates_df ← read_csv env csv_path;
  currency ← Pandas.getitem "Currency" rates_df;
  rate ← Pandas.getitem "Rate" rates_df;
  Ok (Pandas.dict_zip (Pandas.cells currency) (Pandas.cells rate)).

(** The world after a [transform] that returned: one more log line, and
    the frame behind the reference replaced. *)
Definition after_transform (w : World) (df : nat) (d : DataFrame) : World :=
  MkWorld
    (log_file w ++ ["Data transformation complete. Initiating Loading process"])
    (csv_files w) (databases w) (<[df := d]> (frames w)).

(** The column line 85 of the GDP script computes. *)
Definition in_billions (millions : list float64) : Series :=
  FloatS (map (fun x => Float64.round (Float64.div x (Float64.of_Z 1000)) 2)
              millions).


(** The messages of the exceptions and of the log lines the statements
    speak of. *)
Definition no_heading_msg : string :=
  "Heading with ID 'By_market_capitalization' not found".
Definition no_table_msg : string := "Target table not found after heading".
Definition no_caption_msg : string :=
  "Could not find the correct GDP table by caption.".
Definition found_msg : string := "Found the correct GDP table using caption.".
Definition started_msg : string := "ETL process started.".
Definition completed_msg : string := "ETL process completed successfully.".
Definition failed_msg (e : exn) : string :=
  String.append "ETL process failed: " (exn_msg e).

(** The frame [transform_data] returns. *)
Definition final_frame (c g : Series) : DataFrame :=
  [("Country", c); ("GDP_USD_billion", g)].

(** Every column of that name holds that series. *)
Definition column_is (n : string) (s : Series) (df : DataFrame) : Prop :=
  Forall (fun c => fst c = n -> snd c = s) df.

End Props.

(* ===================================================================== *)
(** * Example inputs                                                      *)
(* ===================================================================== *)

(** The frame and the library of the examples. *)
Module Demo.

Definition library : Library :=
  Plain.library (fun _ => Raise (Exception "no table")).

Definition countries : Series :=
  ObjectS [Str "World"; Str "Chile"; Str " World"; Str "Tuvalu"].

Definition gdp_millions : Series :=
  ObjectS [Str "105,568,776"; Str "358,557[n 1]"; Str "1000"; Str PyStr.em_dash].

End Demo.

Module DemoBanks.

Definition hundred : float64 := Float64.of_Z 100.
Definition eighty : float64 := Float64.of_Z 80.
(** The double nearest to 0.8, 0.93 and 82.95. *)
Definition rate_gbp : float64 := Float64.div (Float64.of_Z 8) (Float64.of_Z 10).
Definition rate_eur : float64 := Float64.div (Float64.of_Z 93) (Float64.of_Z 100).
Definition rate_inr : float64 := Float64.div (Float64.of_Z 8295) (Float64.of_Z 100).

Definition rates_frame : DataFrame :=
  [("Currency", ObjectS [Str "EUR"; Str "GBP"; Str "INR"]);
   ("Rate", FloatS [rate_eur; rate_gbp; rate_inr])].

(** One bank with a market capitalisation of 100.0. *)
Definition frame : DataFrame :=
  [("Name", ObjectS [Str "Bank A"]); ("MC_USD_Billion", FloatS [hundred])].

Definition env : Env :=
  MkEnv (fun _ => Raise (Exception "offline")) (fun _ => Ok rates_frame)
        (fun _ => true) (fun _ => true).

Definition world : World := MkWorld [] ∅ ∅ {[ 0%nat := frame ]}.

End DemoBanks.

(** A page for the banks script: the heading, then a wikitable whose rows
    are ("Bank A", "—", "12.3") and ("Bank B", "x", "—"), and the frame
    [read_html] makes of that table: no column is all numbers, so the
    three columns are object columns of strings. *)
Module BankPage.
Import Soup.

Definition table_frame : DataFrame :=
  [("Bank name", ObjectS [Str "Bank A"; Str "Bank B"]);
   ("Rank", ObjectS [Str PyStr.em_dash; Str "x"]);
   ("Market cap", ObjectS [Str "12.3"; Str PyStr.em_dash])].

Definition cell_of (tag text : string) : node :=
  Tag tag None [] [NavigableString text].

Definition table : node :=
  Tag "table" None ["wikitable"; "sortable"]
    [Tag "tr" None [] [cell_of "th" "Bank name"; cell_of "th" "Rank";
                       cell_of "th" "Market cap"];
     Tag "tr" None [] [cell_of "td" "Bank A"; cell_of "td" PyStr.em_dash;
                       cell_of "td" "12.3"];
     Tag "tr" None [] [cell_of "td" "Bank B"; cell_of "td" "x";
                       cell_of "td" PyStr.em_dash]].

Definition page : node :=
  Tag "html" None []
    [Tag "h2" (Some "By_market_capitalization") []
       [NavigableString "By market capitalization"];
     Tag "p" None [] [NavigableString "Ranking by market capitalisation."];
     table].

(** The same page without the heading. *)
Definition page_without_heading : node :=
  Tag "html" None [] [table].

Definition library : Library :=
  Plain.library (fun t => if has_name "table" t && has_class "wikitable" t
                          then Ok table_frame
                          else Raise (Exception "No tables found")).

Definition env (doc : node) : Env :=
  MkEnv (fun _ => Ok (MkResponse 200 doc))
        (fun _ => Ok DemoBanks.rates_frame)
        (fun _ => true) (fun _ => true).

Definition empty_world : World := MkWorld [] ∅ ∅ ∅.

End BankPage.

(* ===================================================================== *)
(** * Vocabulary of the further statements                               *)
(* ===================================================================== *)

Module Further.

(** The byte [c] occurs in [s]. *)
Fixpoint has_byte (c : ascii) (s : string) : bool :=
  match s with
  | EmptyString => false
  | String b s' => Ascii.eqb b c || has_byte c s'
  end.

(** The first byte of the em dash in UTF-8. *)
Definition dash_lead : ascii := ascii_of_nat 226.

(** A double that is neither NaN, nor an infinity, nor a zero. *)
Definition finite_nonzero (x : float64) : bool :=
  match x with
  | S754_finite _ _ _ => true
  | _ => false
  end.

(** The row [transform_data] makes of a kept row (country, GDP in
    millions as read): the country, and the cleaned GDP divided by 1000
    and rounded to two decimals. *)
Definition billions_row `{Library} (r : cell * cell) : list cell :=
  [fst r;
   Num (Float64.round (Float64.div (Props.cleaned (snd r)) (Float64.of_Z 1000)) 2)].

Definition index_error : exn :=
  Pandas.IndexError "positional indexers are out-of-bounds".
Definition accessor_error : exn :=
  Pandas.AttributeError "Can only use .str accessor with string values!".
Definition transform_started_msg : string := "Starting data transformation...".
Definition transform_done_msg `{Library} (out : DataFrame) : string :=
  String.append "Transformation complete. Sample data:"
                (String PyStr.newline (repr_head out)).

(** A raw frame of three columns for the examples: country, region, GDP. *)
Definition raw_gdp : DataFrame :=
  [("Country/Territory", Demo.countries);
   ("UN region", ObjectS [Str "x"; Str "Americas"; Str "x"; Str "Oceania"]);
   ("IMF estimate", Demo.gdp_millions)].

(** Names and lines of the GDP script. *)
Definition gdp_csv : string := "Countries_by_GDP.csv".
Definition gdp_db : string := "World_Economies.db".
Definition gdp_table : string := "Countries_by_GDP".
Definition extraction_started_msg : string := "Starting data extraction...".
Definition fetch_failed : exn := Exception "Failed to fetch webpage.".
Definition cannot_open : exn := OperationalError "unable to open database file".
Definition saving_csv_msg : string :=
  String.append "Saving data to CSV file: " gdp_csv.
Definition saving_db_msg : string :=
  String.append "Saving data to database: " gdp_db.

(** What a statement leaves alone: the CSV files and the databases. *)
Definition keeps_sinks {A : Type} (m : Run A) : Prop :=
  forall w, csv_files (fst (m w)) = csv_files w /\
            databases (fst (m w)) = databases w.

(** The tables of one database replaced. *)
Definition with_tables (db : string) (t : gmap string Table) (w : World) : World :=
  set_databases (<[db := t]> (databases w)) w.

(** The world after the DROP and the CREATE of [load_to_database]. *)
Definition recreated (db : string) (w : World) : World :=
  with_tables db
    (<[gdp_table := MkTable ["Country"; "GDP_USD_billion"]%string []]>
       (delete gdp_table (Sqlite.tables db w))) w.

(** A page for the GDP script: a wikitable with another caption, then
    the wikitable with the GDP caption; [read_html] gives [raw_gdp] for a
    wikitable. *)
Definition gdp_page : Soup.node :=
  Soup.Tag "html" None []
    [Soup.Tag "table" None ["wikitable"]
       [Soup.Tag "caption" None [] [Soup.NavigableString "Population"]];
     Soup.Tag "table" None ["wikitable"; "sortable"]
       [Soup.Tag "caption" None []
          [Soup.NavigableString "GDP (USD million) by country";
           Soup.Tag "sup" None [] [Soup.NavigableString "[1]"]]]].

Definition gdp_library : Library :=
  Plain.library (fun t => if GDP.is_wikitable t
                          then Ok raw_gdp
                          else Raise (Exception "No tables found")).

(** The page is served with the given status; the database file can be
    opened or not. *)
Definition gdp_env (status : nat) (db_opens : bool) : Env :=
  MkEnv (fun _ => Ok (MkResponse status gdp_page))
        (fun _ => Raise (Exception "no such file"))
        (fun _ => true) (fun _ => db_opens).

(** The row [extract] of the banks script makes of a row (name, market
    capitalisation as read): the market capitalisation converted with
    [errors='coerce']. *)
Definition extracted_row `{Library} (r : cell * cell) : list cell :=
  [fst r; Num (Props.coerced (snd r))].

(** The frame [extract] builds from the first and third column of the
    table: the rows whose third cell is missing are dropped, then the
    third column is converted. *)
Definition extracted_frame `{Library} (c0 c2 : Series) : DataFrame :=
  let keep := map negb (Pandas.isna c2) in
  [("Name"%string, Pandas.series_mask keep c0);
   ("MC_USD_Billion"%string,
    FloatS (map Props.coerced (Pandas.cells (Pandas.series_mask keep c2))))].

Definition extraction_done_msg : string :=
  "Data extraction complete. Initiating Transformation process".

(** The lines a complete run of the banks script adds to its log. *)
Definition banks_complete_log : list string :=
  ["Preliminaries complete. Initiating ETL process";
   "Data extraction complete. Initiating Transformation process";
   "Data transformation complete. Initiating Loading process";
   "Data saved to CSV file";
   "SQL Connection initiated";
   "Data loaded to Database as a table, Executing queries";
   "Process Complete"; "Process Complete"; "Process Complete";
   "Server Connection closed"].

Definition banks_columns : list string :=
  ["Name"; "MC_USD_Billion"; "MC_GBP_Billion"; "MC_EUR_Billion";
   "MC_INR_Billion"].

(** An exchange-rate file that lists the pound only, and an environment
    that serves it. *)
Definition gbp_only_rates : DataFrame :=
  [("Currency"%string, ObjectS [Str "GBP"]);
   ("Rate"%string, FloatS [DemoBanks.rate_gbp])].

Definition gbp_only_env : Env :=
  MkEnv (fun _ => Raise (Exception "offline")) (fun _ => Ok gbp_only_rates)
        (fun _ => true) (fun _ => true).

(** An environment without the exchange-rate file. *)
Definition no_rates_file : exn := Exn "FileNotFoundError" "exchange_rate.csv".

Definition no_rates_env : Env :=
  MkEnv (fun _ => Raise (Exception "offline")) (fun _ => Raise no_rates_file)
        (fun _ => true) (fun _ => true).

(** Line 109 of banks_project.py: the dollar column of the extracted
    frame is converted once more. *)
Definition convert_again `{Library} (df : nat) : Run unit :=
  col ← Banks.getitem_ref df "MC_USD_Billion";
  num ← lift (Pandas.to_numeric Pandas.ErrorsCoerce col);
  Banks.setitem_ref df "MC_USD_Billion" num.

End Further.

Import Props.

(* ===================================================================== *)
(** * Facts: doubles                                                      *)
(* ===================================================================== *)

Module Float64Facts.
Import Float64.

Lemma shr_1_nonneg mrs : (0 <= shr_m mrs)%Z -> (0 <= shr_m (shr_1 mrs))%Z.
Proof. destruct mrs as [[|[p|p|]|p] r s]; simpl; lia. Qed.

Lemma iter_shr_1_nonneg p :
  forall mrs, (0 <= shr_m mrs)%Z ->
              (0 <= shr_m (SpecFloat.iter_pos shr_1 p mrs))%Z.
Proof.
  induction p as [p IH|p IH|]; simpl; intros mrs Hm.
  - apply IH, IH, shr_1_nonneg, Hm.
  - apply IH, IH, Hm.
  - apply shr_1_nonneg, Hm.
Qed.

Lemma shr_record_of_loc_m m l : shr_m (shr_record_of_loc m l) = m.
Proof. destruct l as [|[]]; reflexivity. Qed.

Lemma shr_nonneg mrs e n :
  (0 <= shr_m mrs)%Z -> (0 <= shr_m (fst (shr mrs e n)))%Z.
Proof.
  intros Hm. destruct n; simpl; auto. apply iter_shr_1_nonneg, Hm.
Qed.

Lemma shr_fexp_nonneg m e l :
  (0 <= m)%Z -> (0 <= shr_m (fst (shr_fexp prec emax m e l)))%Z.
Proof.
  intros Hm. unfold shr_fexp. apply shr_nonneg.
  rewrite shr_record_of_loc_m. exact Hm.
Qed.

Lemma round_nearest_even_nonneg m l :
  (0 <= m)%Z -> (0 <= round_nearest_even m l)%Z.
Proof.
  intros Hm. destruct l as [|[]]; simpl; try lia.
  destruct (Z.even m); lia.
Qed.

(** Rounding a non-negative mantissa never gives NaN. *)
Lemma binary_round_aux_not_nan s m e l :
  (0 <= m)%Z -> is_nan (binary_round_aux prec emax s m e l) = false.
Proof.
  intros Hm. unfold binary_round_aux.
  pose proof (shr_fexp_nonneg m e l Hm) as H1.
  destruct (shr_fexp prec emax m e l) as [mrs' e']. simpl in H1.
  pose proof (shr_fexp_nonneg
                (round_nearest_even (shr_m mrs') (loc_of_shr_record mrs'))
                e' loc_Exact (round_nearest_even_nonneg _ _ H1)) as H2.
  destruct (shr_fexp prec emax _ e' loc_Exact) as [mrs'' e'']. simpl in H2.
  destruct (shr_m mrs'') as [|q|q]; try reflexivity; try lia.
  destruct (Z.leb e'' (emax - prec)); reflexivity.
Qed.

Lemma binary_normalize_not_nan n e s :
  is_nan (binary_normalize prec emax n e s) = false.
Proof.
  destruct n as [|m|m]; simpl; try reflexivity;
    unfold binary_round; destruct (shl_align _ _ _) as [mz ez];
    apply binary_round_aux_not_nan; lia.
Qed.

Lemma of_Z_not_nan n : is_nan (of_Z n) = false.
Proof. apply binary_normalize_not_nan. Qed.

(** A number times a finite non-zero double is a number. *)
Lemma mul_finite_not_nan x s m e :
  is_nan x = false -> is_nan (mul x (S754_finite s m e)) = false.
Proof.
  destruct x as [sx|sx| |sx mx ex]; intros Hx; try discriminate;
    try reflexivity.
  unfold mul, SFmul. apply binary_round_aux_not_nan. lia.
Qed.

(** A number divided by a finite non-zero double is a number. *)
Lemma div_finite_not_nan x s m e :
  is_nan x = false -> is_nan (div x (S754_finite s m e)) = false.
Proof.
  destruct x as [sx|sx| |sx mx ex]; intros Hx; try discriminate;
    try reflexivity.
  unfold div, SFdiv, SFdiv_core_binary.
  set (sh := (ex - e - _)%Z).
  set (m' := match sh with
             | Z0 => Zpos mx
             | Zpos _ => Z.shiftl (Zpos mx) sh
             | Zneg _ => Z0
             end).
  assert (Hm' : (0 <= m')%Z).
  { subst m'. destruct sh; try lia. apply Z.shiftl_nonneg. lia. }
  pose proof (Z.div_pos m' (Zpos m) Hm' ltac:(lia)) as Hq.
  unfold Z.div in Hq.
  destruct (Z.div_eucl m' (Zpos m)) as [q r]. simpl in Hq.
  apply binary_round_aux_not_nan, Hq.
Qed.

Lemma rint_not_nan x : is_nan x = false -> is_nan (rint x) = false.
Proof.
  destruct x as [sx|sx| |sx mx [|p|p]]; intros Hx; try discriminate;
    try reflexivity.
  unfold rint. apply binary_normalize_not_nan.
Qed.

Lemma power_of_ten_2 :
  power_of_ten 2 = S754_finite false 7036874417766400 (-46).
Proof. vm_compute. reflexivity. Qed.

Lemma of_Z_1000 : of_Z 1000 = S754_finite false 8796093022208000 (-43).
Proof. vm_compute. reflexivity. Qed.

(** Rounding a number to two decimals gives a number. *)
Lemma round_2_not_nan x : is_nan x = false -> is_nan (round x 2) = false.
Proof.
  intros Hx. unfold round. rewrite power_of_ten_2.
  apply div_finite_not_nan, rint_not_nan, mul_finite_not_nan, Hx.
Qed.

(** NaN stays NaN through the arithmetic of the scripts. *)
Lemma mul_nan_l y : mul nan y = nan.
Proof. destruct y; reflexivity. Qed.

Lemma round_nan d : round nan d = nan.
Proof. unfold round. rewrite mul_nan_l. reflexivity. Qed.

End Float64Facts.

(* ===================================================================== *)
(** * Facts: strings                                                      *)
(* ===================================================================== *)

Module PyStrFacts.
Import PyStr.

Lemma strip_prefix_spec p : forall s r,
  strip_prefix p s = Some r <-> s = String.append p r.
Proof.
  induction p as [|a p IH]; intros s r; simpl.
  - split; [intros [= ->]; reflexivity | intros ->; reflexivity].
  - destruct s as [|b s]; [split; discriminate|].
    destruct (Ascii.eqb_spec a b) as [->|Hab].
    + rewrite IH. split; [intros ->; reflexivity | intros [= ->]; reflexivity].
    + split; [discriminate | intros [= -> _]; contradiction].
Qed.

Lemma append_empty_l s : String.append "" s = s.
Proof. reflexivity. Qed.

Lemma append_cons c a s :
  String.append (String c a) s = String c (String.append a s).
Proof. reflexivity. Qed.

(** [contains] is the substring test: [sub] occurs in [s] byte for byte. *)
Lemma contains_spec sub : forall s,
  contains sub s = true <->
  exists a b, s = String.append a (String.append sub b).
Proof.
  induction s as [|c s IH].
  - cbn [contains]. destruct (strip_prefix sub "") as [r|] eqn:E.
    + apply strip_prefix_spec in E. split; [|reflexivity].
      intros _. exists ""%string, r. exact E.
    + split; [discriminate|]. intros (a & b & Hs).
      destruct a; [|discriminate].
      rewrite append_empty_l in Hs.
      apply strip_prefix_spec in Hs. congruence.
  - cbn [contains]. destruct (strip_prefix sub (String c s)) as [r|] eqn:E.
    + apply strip_prefix_spec in E. split; [|reflexivity].
      intros _. exists ""%string, r. exact E.
    + rewrite IH. split.
      * intros (a & b & ->). exists (String c a), b. reflexivity.
      * intros (a & b & Hs). destruct a as [|c' a].
        -- rewrite append_empty_l in Hs.
           apply strip_prefix_spec in Hs. congruence.
        -- rewrite append_cons in Hs. injection Hs as -> ->.
           exists a, b. reflexivity.
Qed.

Lemma after_bracket_shorter : forall s r,
  after_bracket s = Some r -> (String.length r < String.length s)%nat.
Proof.
  induction s as [|c s IH]; intros r; simpl; [discriminate|].
  destruct (Ascii.eqb c "]"); [intros [= ->]; lia|].
  destruct (Ascii.eqb c newline); [discriminate|].
  intros Hr. apply IH in Hr. lia.
Qed.

Lemma strip_prefix_length p : forall s r,
  strip_prefix p s = Some r ->
  String.length s = (String.length p + String.length r)%nat.
Proof.
  induction p as [|a p IH]; intros [|b s] r; simpl; try discriminate.
  - intros [= <-]. reflexivity.
  - intros [= <-]. reflexivity.
  - destruct (Ascii.eqb a b); [|discriminate]. intros Hr.
    apply IH in Hr. lia.
Qed.

(** A match of the noise pattern takes at least one byte. *)
Lemma match_noise_shorter s r :
  match_noise s = Some r -> (String.length r < String.length s)%nat.
Proof.
  destruct s as [|c s]; unfold match_noise; [discriminate|].
  destruct (Ascii.eqb c "[").
  { intros Hr. apply after_bracket_shorter in Hr.
    cbn [String.length]. lia. }
  destruct (Ascii.eqb c ","); [intros [= ->]; cbn [String.length]; lia|].
  intros Hr. apply strip_prefix_length in Hr.
  change (String.length em_dash) with 3%nat in Hr. lia.
Qed.

Lemma sub_noise_fuel_stable : forall fuel1 fuel2 s,
  (String.length s <= fuel1)%nat -> (String.length s <= fuel2)%nat ->
  sub_noise_fuel fuel1 s = sub_noise_fuel fuel2 s.
Proof.
  induction fuel1 as [|fuel1 IH]; intros fuel2 s H1 H2.
  - destruct s; [|simpl in H1; lia]. destruct fuel2; reflexivity.
  - destruct fuel2 as [|fuel2].
    { destruct s; [reflexivity | simpl in H2; lia]. }
    cbn [sub_noise_fuel].
    destruct (match_noise s) as [r|] eqn:E.
    + apply match_noise_shorter in E. apply IH; lia.
    + destruct s as [|c s]; [reflexivity|].
      cbn [String.length] in H1, H2. f_equal. apply IH; lia.
Qed.

(** The steps [sub_noise] allows are enough: more change nothing. *)
Lemma sub_noise_fuel_enough fuel s :
  (String.length s <= fuel)%nat ->
  sub_noise_fuel fuel s = sub_noise s.
Proof. intros Hlen. apply sub_noise_fuel_stable; [exact Hlen | lia]. Qed.

(** The unfolding of [re.sub]: drop a match, or keep a character. *)
Lemma sub_noise_matched s r :
  match_noise s = Some r -> sub_noise s = sub_noise r.
Proof.
  intros E. unfold sub_noise at 1.
  destruct s as [|c s]; [discriminate|].
  cbn [String.length sub_noise_fuel]. rewrite E.
  apply match_noise_shorter in E. simpl in E.
  apply sub_noise_fuel_enough. lia.
Qed.

Lemma sub_noise_kept c s :
  match_noise (String c s) = None ->
  sub_noise (String c s) = String c (sub_noise s).
Proof.
  intros E. unfold sub_noise at 1.
  cbn [String.length sub_noise_fuel]. rewrite E. reflexivity.
Qed.

End PyStrFacts.


(* ===================================================================== *)
(** * Facts: frames                                                       *)
(* ===================================================================== *)

(** Unfolding of the binds of [result]. *)
Ltac result_simpl :=
  repeat (unfold mbind, mret, result_bind, result_ret; cbn [rbind]).

Module PandasFacts.
Import Pandas Props.

Lemma select_mask_map {A B : Type} (f : A -> B) : forall bs l,
  select_mask bs (map f l) = map f (select_mask bs l).
Proof.
  induction bs as [|b bs IH]; intros [|x l]; simpl; try reflexivity.
  destruct b; simpl; rewrite IH; reflexivity.
Qed.

(** Indexing by the mask a test gives is filtering by the test. *)
Lemma select_mask_filter {A : Type} (p : A -> bool) : forall l,
  select_mask (map p l) l = List.filter p l.
Proof.
  induction l as [|x l IH]; simpl; [reflexivity|].
  rewrite IH. reflexivity.
Qed.

Lemma filter_filter {A : Type} (p q : A -> bool) : forall l,
  List.filter q (List.filter p l) = List.filter (fun x => p x && q x) l.
Proof.
  induction l as [|x l IH]; simpl; [reflexivity|].
  destruct (p x); simpl; [destruct (q x)|]; rewrite IH; reflexivity.
Qed.

Lemma filter_sublist {A : Type} (p : A -> bool) : forall l,
  sublist (List.filter p l) l.
Proof.
  induction l as [|x l IH]; simpl; [constructor|].
  destruct (p x); [apply sublist_skip | apply sublist_cons]; exact IH.
Qed.

Lemma cells_series_mask bs s :
  cells (series_mask bs s) = select_mask bs (cells s).
Proof.
  destruct s; simpl; [reflexivity|]. symmetry. apply select_mask_map.
Qed.

Lemma map_fst_combine {A B : Type} : forall (l : list A) (l' : list B),
  length l = length l' -> map fst (combine l l') = l.
Proof.
  induction l as [|x l IH]; intros [|y l'] Hlen; simpl in *;
    try reflexivity; try discriminate.
  f_equal. apply IH. lia.
Qed.

Lemma map_snd_combine {A B : Type} : forall (l : list A) (l' : list B),
  length l = length l' -> map snd (combine l l') = l'.
Proof.
  induction l as [|x l IH]; intros [|y l'] Hlen; simpl in *;
    try reflexivity; try discriminate.
  f_equal. apply IH. lia.
Qed.

Lemma nth_map_lookup {A B : Type} (f : A -> B) (l : list A) i x d :
  l !! i = Some x -> nth i (map f l) d = f x.
Proof.
  intros Hx. rewrite nth_lookup.
  change (map f l) with (f <$> l). rewrite list_lookup_fmap, Hx.
  reflexivity.
Qed.

(** The rows of a frame of two columns are the pairs of their entries. *)
Lemma rows_of_two n1 n2 (rows : list (cell * cell)) s1 s2 :
  cells s1 = map fst rows -> cells s2 = map snd rows ->
  rows_of [(n1, s1); (n2, s2)] = map (fun r => [fst r; snd r]) rows.
Proof.
  intros H1 H2. unfold rows_of, row_at, nrows. simpl. rewrite H1, H2.
  rewrite length_map. clear H1 H2.
  apply list_eq. intros i.
  change (map ?f ?l) with (f <$> l) at 1.
  change (map (fun r : cell * cell => [fst r; snd r]) rows)
    with ((fun r : cell * cell => [fst r; snd r]) <$> rows).
  rewrite !list_lookup_fmap.
  destruct (rows !! i) as [r|] eqn:Hr.
  - assert (Hi : (i < length rows)%nat) by (eapply lookup_lt_Some; eauto).
    rewrite lookup_seq_lt by exact Hi. simpl.
    rewrite (nth_map_lookup fst rows i r), (nth_map_lookup snd rows i r)
      by exact Hr.
    reflexivity.
  - apply lookup_ge_None in Hr. rewrite lookup_seq_ge by exact Hr.
    reflexivity.
Qed.

Section WithLibrary.
Context `{Library}.

Lemma to_numeric_cell_coerce c :
  to_numeric_cell ErrorsCoerce c = Ok (coerced c).
Proof.
  destruct c as [t|x]; simpl; [|reflexivity].
  destruct (String.eqb t ""); [reflexivity|].
  destruct (str_to_float t); reflexivity.
Qed.

Lemma to_numeric_cells_coerce l :
  to_numeric_cells ErrorsCoerce l = Ok (map coerced l).
Proof.
  induction l as [|c l IH]; [reflexivity|].
  cbn [to_numeric_cells]. rewrite to_numeric_cell_coerce, IH. reflexivity.
Qed.

(** With [errors='coerce'], [to_numeric] returns a float64 column. *)
Lemma to_numeric_coerce s :
  to_numeric ErrorsCoerce s = Ok (FloatS (map coerced (cells s))).
Proof.
  destruct s as [l|l]; simpl.
  - rewrite to_numeric_cells_coerce. reflexivity.
  - rewrite map_map. simpl. rewrite map_id. reflexivity.
Qed.

End WithLibrary.

End PandasFacts.

(* ===================================================================== *)
(** * Facts: the row filter and the cleaning of the GDP script           *)
(* ===================================================================== *)

Module GDPFacts.
Import Pandas Props PandasFacts.

Section WithLibrary.
Context `{Library}.

Lemma isin_lowered l :
  map negb (isin ["world"; PyStr.em_dash] (ObjectS (map lower_cell l)))
  = map (fun k => negb (excluded k)) l.
Proof.
  unfold isin. cbn [cells]. rewrite !map_map.
  apply map_ext. intros [t|x]; reflexivity.
Qed.

Lemma drop_excluded_two c g :
  GDP.drop_excluded (gdp_frame c g) =
  if str_accessor_ok c
  then Ok (gdp_frame
             (series_mask (map (fun k => negb (excluded k)) (cells c)) c)
             (series_mask (map (fun k => negb (excluded k)) (cells c)) g))
  else Raise (AttributeError "Can only use .str accessor with string values!").
Proof.
  unfold GDP.drop_excluded, gdp_frame.
  cbn [getitem String.eqb Ascii.eqb Bool.eqb]. result_simpl.
  unfold series_str_lower.
  destruct (str_accessor_ok c); [|reflexivity].
  result_simpl. rewrite isin_lowered. reflexivity.
Qed.

Lemma cells_replace_noise s :
  cells (replace_noise s) = map replace_noise_cell (cells s).
Proof.
  destruct s as [l|l]; simpl; [reflexivity|].
  rewrite map_map. reflexivity.
Qed.

Lemma clean_gdp_two c g :
  GDP.clean_gdp (gdp_frame c g) =
  Ok (gdp_frame c (FloatS (map cleaned (cells g)))).
Proof.
  unfold GDP.clean_gdp, gdp_frame.
  cbn -[to_numeric replace_noise].
  rewrite to_numeric_coerce, cells_replace_noise, map_map. reflexivity.
Qed.

Lemma dropna_two c l :
  dropna "GDP_USD_million" (gdp_frame c (FloatS l)) =
  Ok (gdp_frame
        (series_mask (map (fun x => negb (Float64.is_nan x)) l) c)
        (FloatS (select_mask (map (fun x => negb (Float64.is_nan x)) l) l))).
Proof.
  unfold dropna, gdp_frame. cbn -[series_mask isna].
  unfold isna. cbn [cells]. rewrite !map_map. reflexivity.
Qed.

Lemma row_filter_two c g :
  GDP.row_filter (gdp_frame c g) =
  if str_accessor_ok c
  then
    let m1 := map (fun k => negb (excluded k)) (cells c) in
    let l := map cleaned (cells (series_mask m1 g)) in
    let m2 := map (fun x => negb (Float64.is_nan x)) l in
    Ok (gdp_frame (series_mask m2 (series_mask m1 c))
                  (FloatS (select_mask m2 l)))
  else Raise (AttributeError "Can only use .str accessor with string values!").
Proof.
  unfold GDP.row_filter. rewrite drop_excluded_two.
  destruct (str_accessor_ok c); [|reflexivity].
  result_simpl. rewrite clean_gdp_two. result_simpl.
  rewrite dropna_two. reflexivity.
Qed.

(** The two masks of the row filter, read on the rows. *)
Lemma row_filter_rows c g :
  length (cells c) = length (cells g) ->
  let m1 := map (fun k => negb (excluded k)) (cells c) in
  let l := map cleaned (cells (series_mask m1 g)) in
  let m2 := map (fun x => negb (Float64.is_nan x)) l in
  cells (series_mask m2 (series_mask m1 c))
    = map fst (List.filter kept (pairs c g)) /\
  select_mask m2 l
    = map (fun r => cleaned (snd r)) (List.filter kept (pairs c g)).
Proof.
  intros Hlen m1 l m2. unfold pairs.
  set (P := combine (cells c) (cells g)).
  set (p1 := fun r : cell * cell => negb (excluded (fst r))).
  set (p2 := fun r : cell * cell => negb (Float64.is_nan (cleaned (snd r)))).
  assert (HC : cells c = map fst P) by (symmetry; apply map_fst_combine, Hlen).
  assert (HG : cells g = map snd P) by (symmetry; apply map_snd_combine, Hlen).
  assert (Hm1 : m1 = map p1 P).
  { subst m1. rewrite HC, map_map. reflexivity. }
  assert (Hl : l = map (fun r => cleaned (snd r)) (List.filter p1 P)).
  { subst l. rewrite cells_series_mask, Hm1, HG, select_mask_map,
      select_mask_filter, map_map. reflexivity. }
  assert (Hm2 : m2 = map p2 (List.filter p1 P)).
  { subst m2. rewrite Hl, map_map. reflexivity. }
  assert (HK : List.filter kept P = List.filter p2 (List.filter p1 P)).
  { rewrite filter_filter. reflexivity. }
  rewrite HK. split.
  - rewrite !cells_series_mask, Hm1, HC, select_mask_map,
      select_mask_filter, Hm2, select_mask_map, select_mask_filter.
    reflexivity.
  - rewrite Hl, Hm2, select_mask_map, select_mask_filter. reflexivity.
Qed.

End WithLibrary.
End GDPFacts.

(* ===================================================================== *)
(** * Facts: columns of a frame                                           *)
(* ===================================================================== *)

Module FrameFacts.
Import Pandas.


Lemma has_column_cons n c df :
  has_column n (c :: df) = String.eqb n (fst c) || has_column n df.
Proof. reflexivity. Qed.

Lemma has_column_app n df df' :
  has_column n (df ++ df') = has_column n df || has_column n df'.
Proof.
  unfold has_column, columns. rewrite map_app, existsb_app. reflexivity.
Qed.

Lemma getitem_missing n : forall df,
  has_column n df = false -> getitem n df = Raise (KeyError n).
Proof.
  induction df as [|[m s] df IH]; [reflexivity|].
  rewrite has_column_cons. cbn [fst getitem].
  rewrite String.eqb_sym. destruct (String.eqb m n); [discriminate|].
  exact IH.
Qed.

Lemma getitem_has_column n s : forall df,
  getitem n df = Ok s -> has_column n df = true.
Proof.
  intros df Hs. destruct (has_column n df) eqn:E; [reflexivity|].
  rewrite (getitem_missing _ _ E) in Hs. discriminate.
Qed.

Lemma has_column_getitem n : forall df,
  has_column n df = true -> exists s, getitem n df = Ok s.
Proof.
  induction df as [|[m t] df IH]; [discriminate|].
  rewrite has_column_cons. cbn [fst getitem].
  rewrite String.eqb_sym. destruct (String.eqb m n); eauto.
Qed.

Lemma getitem_app_l n s df df' :
  getitem n df = Ok s -> getitem n (df ++ df') = Ok s.
Proof.
  induction df as [|[m t] df IH]; [discriminate|].
  cbn [getitem app]. destruct (String.eqb m n); auto.
Qed.

Lemma getitem_app_r n df df' :
  has_column n df = false -> getitem n (df ++ df') = getitem n df'.
Proof.
  induction df as [|[m t] df IH]; [reflexivity|].
  rewrite has_column_cons. cbn [fst getitem app].
  rewrite String.eqb_sym. destruct (String.eqb m n); [discriminate|].
  exact IH.
Qed.

Lemma getitem_replace_eq n s : forall df,
  has_column n df = true ->
  getitem n (map (fun c => if String.eqb (fst c) n then (fst c, s) else c) df)
  = Ok s.
Proof.
  induction df as [|[m t] df IH]; [discriminate|].
  rewrite has_column_cons. cbn [fst map].
  rewrite String.eqb_sym. destruct (String.eqb m n) eqn:E.
  - intros _. cbn [getitem]. rewrite E. reflexivity.
  - intros Hin. cbn [getitem]. rewrite E. apply IH, Hin.
Qed.

Lemma getitem_replace_ne n m s : forall df,
  n <> m ->
  getitem n (map (fun c => if String.eqb (fst c) m then (fst c, s) else c) df)
  = getitem n df.
Proof.
  intros df Hne. induction df as [|[k t] df IH]; [reflexivity|].
  cbn [fst map]. destruct (String.eqb_spec k m) as [->|Hkm].
  - cbn [getitem]. destruct (String.eqb_spec m n); [congruence|]. exact IH.
  - cbn [getitem]. rewrite IH. reflexivity.
Qed.

(** Reading the column that was just assigned. *)
Lemma getitem_setitem_eq n s df : getitem n (setitem n s df) = Ok s.
Proof.
  unfold setitem. destruct (has_column n df) eqn:E.
  - apply getitem_replace_eq, E.
  - rewrite getitem_app_r by exact E. cbn [getitem].
    rewrite String.eqb_refl. reflexivity.
Qed.

(** Assigning one column does not change what another name reads. *)
Lemma getitem_setitem_ne n m s df :
  n <> m -> getitem n (setitem m s df) = getitem n df.
Proof.
  intros Hne. unfold setitem. destruct (has_column m df) eqn:E.
  - apply getitem_replace_ne, Hne.
  - destruct (has_column n df) eqn:En.
    + destruct (has_column_getitem _ _ En) as [t Ht].
      rewrite Ht. apply getitem_app_l, Ht.
    + rewrite getitem_app_r by exact En. cbn [getitem].
      destruct (String.eqb_spec m n); [congruence|].
      rewrite getitem_missing by exact En. reflexivity.
Qed.

Lemma columns_replace n s df :
  columns (map (fun c => if String.eqb (fst c) n then (fst c, s) else c) df)
  = columns df.
Proof.
  unfold columns. rewrite map_map. apply map_ext.
  intros c. destruct (String.eqb (fst c) n); reflexivity.
Qed.

(** Assigning a column keeps the names in place; a new name goes last. *)
Lemma columns_setitem n s df :
  columns (setitem n s df) =
  if has_column n df then columns df else columns df ++ [n].
Proof.
  unfold setitem. destruct (has_column n df).
  - apply columns_replace.
  - unfold columns. rewrite map_app. reflexivity.
Qed.

Lemma has_column_setitem_eq n s df : has_column n (setitem n s df) = true.
Proof. eapply getitem_has_column, getitem_setitem_eq. Qed.

Lemma has_column_setitem n m s df :
  has_column n df = true -> has_column n (setitem m s df) = true.
Proof.
  intros Hn. unfold has_column at 1. rewrite columns_setitem.
  destruct (has_column m df); [exact Hn|].
  rewrite existsb_app. unfold has_column in Hn. rewrite Hn. reflexivity.
Qed.

Lemma column_is_setitem_eq n s df : column_is n s (setitem n s df).
Proof.
  unfold column_is, setitem. destruct (has_column n df) eqn:E.
  - apply List.Forall_forall. intros c Hc. apply in_map_iff in Hc.
    destruct Hc as ([k t] & <- & _). cbn [fst].
    destruct (String.eqb_spec k n); cbn [fst snd]; congruence.
  - apply Forall_app. split.
    + apply List.Forall_forall. intros [k t] Hc Hk. cbn [fst] in Hk. subst k.
      exfalso. unfold has_column, columns in E.
      assert (Hex : existsb (String.eqb n) (map fst df) = true).
      { apply existsb_exists. exists n. split; [|apply String.eqb_refl].
        apply in_map_iff. exists (n, t). split; [reflexivity | exact Hc]. }
      congruence.
    + constructor; [reflexivity | constructor].
Qed.

Lemma column_is_setitem_ne n m s t df :
  n <> m -> column_is n s df -> column_is n s (setitem m t df).
Proof.
  intros Hne Hall. unfold column_is, setitem in *.
  destruct (has_column m df).
  - apply List.Forall_forall. intros c Hc. apply in_map_iff in Hc.
    destruct Hc as ([k u] & <- & Hin). cbn [fst].
    rewrite List.Forall_forall in Hall. specialize (Hall _ Hin).
    destruct (String.eqb_spec k m); cbn [fst snd] in *; [congruence | exact Hall].
  - apply Forall_app. split; [exact Hall|].
    constructor; [cbn [fst]; congruence | constructor].
Qed.

(** Assigning to a column the series it already holds changes nothing. *)
Lemma setitem_same n s df :
  has_column n df = true -> column_is n s df -> setitem n s df = df.
Proof.
  intros Hn Hall. unfold setitem. rewrite Hn. clear Hn.
  induction Hall as [|[k t] df Hc Hall IH]; [reflexivity|].
  cbn [map fst]. rewrite IH. cbn [fst snd] in Hc.
  destruct (String.eqb_spec k n) as [Hk|Hk]; [|reflexivity].
  rewrite (Hc Hk). reflexivity.
Qed.

(** The column at a position keeps its name, and its series unless it is
    the one assigned. *)
Lemma setitem_lookup (n : string) (s : Series) (df : list (string * Series))
      (i : nat) (k : string) (t : Series) :
  df !! i = Some (k, t) ->
  setitem n s df !! i = Some (k, if String.eqb k n then s else t).
Proof.
  intros Hi. unfold setitem. destruct (has_column n df) eqn:E.
  - etrans;
      [apply (list_lookup_fmap
                (fun c : string * Series =>
                   if String.eqb (fst c) n then (fst c, s) else c) df i)|].
    rewrite Hi. cbn [fmap option_fmap option_map fst].
    destruct (String.eqb k n); reflexivity.
  - rewrite lookup_app_l by (eapply lookup_lt_Some; eauto).
    rewrite Hi. destruct (String.eqb_spec k n) as [->|]; [|reflexivity].
    exfalso. assert (Hex : has_column n df = true); [|congruence].
    apply existsb_exists. exists n. split; [|apply String.eqb_refl].
    apply in_map_iff. exists (n, t). split; [reflexivity|].
    apply list_elem_of_In. eapply list_elem_of_lookup_2; eauto.
Qed.

End FrameFacts.

(* ===================================================================== *)
(** * Facts: statements                                                   *)
(* ===================================================================== *)

Module RunFacts.

Lemma bind_run {A B : Type} (m : Run A) (k : A -> Run B) w :
  (m ≫= k) w =
  match m w with
  | (w', Ok a) => k a w'
  | (w', Raise e) => (w', Raise e)
  end.
Proof. reflexivity. Qed.

Lemma bind_ok {A B : Type} (m : Run A) (k : A -> Run B) w w' a :
  m w = (w', Ok a) -> (m ≫= k) w = k a w'.
Proof. intros Hm. rewrite bind_run, Hm. reflexivity. Qed.

Lemma bind_raise {A B : Type} (m : Run A) (k : A -> Run B) w w' e :
  m w = (w', Raise e) -> (m ≫= k) w = (w', Raise e).
Proof. intros Hm. rewrite bind_run, Hm. reflexivity. Qed.

Lemma bind_ok_inv {A B : Type} (m : Run A) (k : A -> Run B) w w' b :
  (m ≫= k) w = (w', Ok b) ->
  exists w1 a, m w = (w1, Ok a) /\ k a w1 = (w', Ok b).
Proof.
  rewrite bind_run. destruct (m w) as [w1 [a|e]]; [eauto | discriminate].
Qed.

Lemma lift_ok_inv {A : Type} (r : result A) w w' a :
  lift r w = (w', Ok a) -> w' = w /\ r = Ok a.
Proof. unfold lift. intros [= -> ->]. auto. Qed.

Lemma read_frame_ok_inv r w w' d :
  read_frame r w = (w', Ok d) -> w' = w /\ frames w !! r = Some d.
Proof.
  unfold read_frame. destruct (frames w !! r); [|discriminate].
  intros [= -> ->]. auto.
Qed.

Lemma read_frame_run r w d :
  frames w !! r = Some d -> read_frame r w = (w, Ok d).
Proof. unfold read_frame. intros ->. reflexivity. Qed.

End RunFacts.

(** Unfolding of the binds of [Run] and of the primitive statements. *)
Ltac run_unfold :=
  unfold mbind, mret, Run_bind, Run_ret, run_bind, run_ret, lift, raise,
    read_frame, write_frame, append_log, result_bind, result_ret in *.

(* ===================================================================== *)
(** * Facts: the transform of the banks script                           *)
(* ===================================================================== *)

Module BanksFacts.
Import Pandas Props FrameFacts RunFacts.

Section WithLibrary.
Context `{Library} (env : Env).

Lemma add_converted_ok_inv df rates name cur w w' u :
  Banks.add_converted df rates name cur w = (w', Ok u) ->
  exists d usd r,
    frames w !! df = Some d /\
    getitem "MC_USD_Billion" d = Ok (FloatS usd) /\
    rates !! cur = Some (Num r) /\
    w' = set_frames (<[df := setitem name (converted usd r) d]> (frames w)) w.
Proof.
  unfold Banks.add_converted, Banks.getitem_ref, Banks.setitem_ref,
    dict_get, mul_scalar, Pandas.round.
  run_unfold.
  destruct (frames w !! df) as [d|] eqn:Hd; [|discriminate].
  destruct (getitem "MC_USD_Billion" d) as [[l|usd]|e] eqn:Hu;
    try discriminate.
  - destruct (rates !! cur); discriminate.
  - destruct (rates !! cur) as [[t|r]|] eqn:Hr; try discriminate.
    cbn [rbind]. rewrite Hd, map_map. intros Hrun. exists d, usd, r.
    repeat split; auto. unfold converted. congruence.
Qed.

Lemma add_converted_run df rates name cur w d usd r :
  frames w !! df = Some d ->
  getitem "MC_USD_Billion" d = Ok (FloatS usd) ->
  rates !! cur = Some (Num r) ->
  Banks.add_converted df rates name cur w =
  (set_frames (<[df := setitem name (converted usd r) d]> (frames w)) w, Ok tt).
Proof.
  intros Hd Hu Hr.
  unfold Banks.add_converted, Banks.getitem_ref, Banks.setitem_ref,
    dict_get, mul_scalar, Pandas.round.
  run_unfold. rewrite Hd, Hu, Hr. cbn [rbind]. rewrite Hd, map_map.
  reflexivity.
Qed.

Lemma usd_after_assignments d usd n1 s1 :
  In n1 derived_names ->
  getitem "MC_USD_Billion" d = Ok (FloatS usd) ->
  getitem "MC_USD_Billion" (setitem n1 s1 d) = Ok (FloatS usd).
Proof.
  intros Hn Hu. rewrite getitem_setitem_ne; [exact Hu|].
  intros <-. cbn in Hn. intuition discriminate.
Qed.

(** A [transform] that returns has read the three rates and the dollar
    column, and leaves the frame with the three columns assigned. *)
Lemma transform_ok_inv df path w w' r :
  Banks.transform env df path w = (w', Ok r) ->
  exists rates d usd g e i,
    rates_of env path = Ok rates /\
    rates !! "GBP" = Some (Num g) /\
    rates !! "EUR" = Some (Num e) /\
    rates !! "INR" = Some (Num i) /\
    frames w !! df = Some d /\
    getitem "MC_USD_Billion" d = Ok (FloatS usd) /\
    r = df /\
    w' = after_transform w df (with_converted d usd g e i).
Proof.
  unfold Banks.transform, rates_of. intros Hrun.
  apply bind_ok_inv in Hrun as (w1 & rates_df & Hcsv & Hrun).
  apply lift_ok_inv in Hcsv as [-> Hcsv]. rewrite Hcsv.
  apply bind_ok_inv in Hrun as (w1 & cur & Hcur & Hrun).
  apply lift_ok_inv in Hcur as [-> Hcur].
  apply bind_ok_inv in Hrun as (w1 & rate & Hrate & Hrun).
  apply lift_ok_inv in Hrate as [-> Hrate].
  result_simpl. rewrite Hcur. cbn [rbind]. rewrite Hrate. cbn [rbind].
  set (rates := dict_zip (cells cur) (cells rate)) in *.
  apply bind_ok_inv in Hrun as (w1 & [] & Hg & Hrun).
  apply add_converted_ok_inv in Hg as (d & usd & g & Hd & Hu & Hg & ->).
  apply bind_ok_inv in Hrun as (w2 & [] & He & Hrun).
  apply add_converted_ok_inv in He as (d1 & usd1 & e & Hd1 & Hu1 & He & ->).
  cbn [frames set_frames] in Hd1. rewrite lookup_insert_eq in Hd1.
  injection Hd1 as <-.
  rewrite getitem_setitem_ne, Hu in Hu1 by discriminate.
  injection Hu1 as <-.
  apply bind_ok_inv in Hrun as (w3 & [] & Hi & Hrun).
  apply add_converted_ok_inv in Hi as (d2 & usd2 & i & Hd2 & Hu2 & Hi & ->).
  cbn [frames set_frames] in Hd2. rewrite lookup_insert_eq in Hd2.
  injection Hd2 as <-.
  rewrite !getitem_setitem_ne, Hu in Hu2 by discriminate.
  injection Hu2 as <-.
  exists rates, d, usd, g, e, i. repeat split; auto.
  - unfold Banks.log_progress in Hrun. run_unfold.
    cbv beta iota in Hrun. congruence.
  - unfold Banks.log_progress in Hrun. run_unfold.
    cbv beta iota in Hrun.
    injection Hrun as <- _. unfold after_transform, set_log, set_frames.
    cbn [log_file csv_files databases frames].
    rewrite !insert_insert_eq. reflexivity.
Qed.

Lemma transform_run df path w rates d usd g e i :
  rates_of env path = Ok rates ->
  rates !! "GBP" = Some (Num g) ->
  rates !! "EUR" = Some (Num e) ->
  rates !! "INR" = Some (Num i) ->
  frames w !! df = Some d ->
  getitem "MC_USD_Billion" d = Ok (FloatS usd) ->
  Banks.transform env df path w =
  (after_transform w df (with_converted d usd g e i), Ok df).
Proof.
  unfold rates_of, Banks.transform. intros Hrates Hg He Hi Hd Hu.
  revert Hrates. result_simpl.
  destruct (read_csv env path) as [rates_df|] eqn:Hcsv; [|discriminate].
  cbn [rbind].
  destruct (getitem "Currency" rates_df) as [cur|] eqn:Hcur; [|discriminate].
  cbn [rbind].
  destruct (getitem "Rate" rates_df) as [rate|] eqn:Hrate; [|discriminate].
  cbn [rbind]. intros [= Hrates].
  unfold Banks.log_progress. run_unfold.
  rewrite Hcur, Hrate, Hrates.
  rewrite (add_converted_run df rates _ _ w d usd g Hd Hu Hg).
  erewrite (add_converted_run df rates _ _ _ _ usd e);
    [| cbn [frames set_frames]; apply lookup_insert_eq
     | apply usd_after_assignments; [cbn; auto | exact Hu]
     | exact He].
  erewrite (add_converted_run df rates _ _ _ _ usd i);
    [| cbn [frames set_frames]; apply lookup_insert_eq
     | repeat (apply usd_after_assignments; [cbn; auto |]); exact Hu
     | exact Hi].
  unfold after_transform, set_log, set_frames.
  cbn [log_file csv_files databases frames].
  rewrite !insert_insert_eq. reflexivity.
Qed.

End WithLibrary.
End BanksFacts.

(* ===================================================================== *)
(** * Facts: searching the document                                      *)
(* ===================================================================== *)

Module SoupFacts.
Import Soup.

(** [find_in] returns the first match and what follows it. *)
Lemma find_in_first p x rest : forall pre,
  Forall (fun y => p y = false) pre -> p x = true ->
  find_in p (pre ++ x :: rest) = Some (Located x rest).
Proof.
  induction pre as [|y pre IH]; intros Hpre Hx; cbn [app find_in].
  - rewrite Hx. reflexivity.
  - inversion Hpre as [|? ? Hy Hpre']; subst. rewrite Hy. auto.
Qed.

Lemma find_in_Some_inv p : forall l t,
  find_in p l = Some t ->
  exists pre, l = pre ++ element t :: next_elements t /\
              Forall (fun y => p y = false) pre /\ p (element t) = true.
Proof.
  induction l as [|y l IH]; intros t; cbn [find_in]; [discriminate|].
  destruct (p y) eqn:Hy.
  - intros [= <-]. exists []. cbn. auto.
  - intros Ht. destruct (IH t Ht) as (pre & -> & Hpre & Hx).
    exists (y :: pre). cbn [app]. auto.
Qed.

Lemma find_in_None p : forall l,
  find_in p l = None <-> Forall (fun y => p y = false) l.
Proof.
  induction l as [|y l IH]; cbn [find_in].
  - split; auto.
  - destruct (p y) eqn:Hy.
    + split; [discriminate|]. intros Hall.
      inversion Hall; subst. congruence.
    + rewrite IH. split; [auto|]. intros Hall. inversion Hall; auto.
Qed.

(** The first match of a list is determined by the list. *)
Lemma first_match_unique p (pre pre' : list node) x x' rest rest' :
  pre ++ x :: rest = pre' ++ x' :: rest' ->
  Forall (fun y => p y = false) pre -> p x = true ->
  Forall (fun y => p y = false) pre' -> p x' = true ->
  pre = pre' /\ x = x' /\ rest = rest'.
Proof.
  intros Heq Hpre Hx Hpre' Hx'.
  pose proof (find_in_first p x rest pre Hpre Hx) as H1.
  pose proof (find_in_first p x' rest' pre' Hpre' Hx') as H2.
  rewrite Heq, H2 in H1. injection H1 as -> ->.
  split; [|auto]. apply app_inv_tail in Heq. exact Heq.
Qed.

End SoupFacts.

(* ===================================================================== *)
(** * Theorems: the table locators                                        *)
(* ===================================================================== *)

Section Locators.
Import Soup SoupFacts.


(** C5. The anchor-then-next locator of [banks_project.py] returns the
    first wikitable that comes after the first [h2] with the given id,
    in document order, and raises in exactly two cases: no such heading
    in the document, or no wikitable after it. *)
Theorem locate_table_nearest_after_heading (soup : node) :
  (forall t,
      Banks.locate_table soup = Ok t <->
      exists pre h mid post,
        descendants soup = pre ++ h :: mid ++ t :: post /\
        Forall (fun x => Banks.is_heading x = false) pre /\
        Banks.is_heading h = true /\
        Forall (fun x => Banks.is_wikitable x = false) mid /\
        Banks.is_wikitable t = true) /\
  (Banks.locate_table soup = Raise (Exception no_heading_msg) <->
   Forall (fun x => Banks.is_heading x = false) (descendants soup)) /\
  (Banks.locate_table soup = Raise (Exception no_table_msg) <->
   exists pre h post,
     descendants soup = pre ++ h :: post /\
     Forall (fun x => Banks.is_heading x = false) pre /\
     Banks.is_heading h = true /\
     Forall (fun x => Banks.is_wikitable x = false) post) /\
  (forall e,
      Banks.locate_table soup = Raise e ->
      e = Exception no_heading_msg \/ e = Exception no_table_msg).
Proof.
  unfold Banks.locate_table, find, find_next.
  destruct (find_in Banks.is_heading (descendants soup)) as [h2_tag|] eqn:Hh.
  - apply find_in_Some_inv in Hh as (pre & Hdoc & Hpre & Hh).
    assert (Hno : ~ Forall (fun x => Banks.is_heading x = false)
                           (descendants soup)).
    { intros Hall. rewrite Hdoc in Hall.
      apply Forall_app in Hall as [_ Hall].
      inversion Hall; subst. congruence. }
    destruct (find_in Banks.is_wikitable (next_elements h2_tag))
      as [next_table|] eqn:Ht.
    + apply find_in_Some_inv in Ht as (mid & Hnext & Hmid & Ht).
      refine (conj _ (conj _ (conj _ _))).
      * intros t. split.
        -- intros [= <-]. exists pre, (element h2_tag), mid,
             (next_elements next_table). rewrite <- Hnext. auto.
        -- intros (pre' & h' & mid' & post' & Hdoc' & Hpre' & Hh' & Hmid' & Ht').
           rewrite Hdoc in Hdoc'.
           destruct (first_match_unique _ _ _ _ _ _ _ Hdoc' Hpre Hh Hpre' Hh')
             as (_ & _ & Hrest).
           rewrite Hnext in Hrest.
           destruct (first_match_unique _ _ _ _ _ _ _ Hrest Hmid Ht Hmid' Ht')
             as (_ & -> & _).
           reflexivity.
      * split; [discriminate | intros Hall; contradiction].
      * split; [discriminate|].
        intros (pre' & h' & post' & Hdoc' & Hpre' & Hh' & Hpost').
        rewrite Hdoc in Hdoc'.
        destruct (first_match_unique _ _ _ _ _ _ _ Hdoc' Hpre Hh Hpre' Hh')
          as (_ & _ & Hrest).
        rewrite Hnext in Hrest. rewrite <- Hrest in Hpost'.
        apply Forall_app in Hpost' as [_ Hpost'].
        inversion Hpost'; subst. congruence.
      * discriminate.
    + apply find_in_None in Ht.
      refine (conj _ (conj _ (conj _ _))).
      * intros t. split; [discriminate|].
        intros (pre' & h' & mid' & post' & Hdoc' & Hpre' & Hh' & Hmid' & Ht').
        rewrite Hdoc in Hdoc'.
        destruct (first_match_unique _ _ _ _ _ _ _ Hdoc' Hpre Hh Hpre' Hh')
          as (_ & _ & Hrest).
        rewrite Hrest in Ht. apply Forall_app in Ht as [_ Ht].
        inversion Ht; subst. congruence.
      * split; [discriminate | intros Hall; contradiction].
      * split; [|reflexivity].
        intros _. exists pre, (element h2_tag), (next_elements h2_tag). auto.
      * intros e [= <-]. auto.
  - apply find_in_None in Hh.
    refine (conj _ (conj _ (conj _ _))).
    + intros t. split; [discriminate|].
      intros (pre' & h' & mid' & post' & Hdoc' & Hpre' & Hh' & _).
      rewrite Hdoc' in Hh. apply Forall_app in Hh as [_ Hh].
      inversion Hh; subst. congruence.
    + split; [intros _; exact Hh | reflexivity].
    + split; [discriminate|].
      intros (pre' & h' & post' & Hdoc' & Hpre' & Hh' & _).
      rewrite Hdoc' in Hh. apply Forall_app in Hh as [_ Hh].
      inversion Hh; subst. congruence.
    + intros e [= <-]. auto.
Qed.

Context `{Library} (env : Env).


Lemma scan_tables_first pre t post w :
  Forall (fun x => GDP.caption_matches x = false) pre ->
  GDP.caption_matches t = true ->
  GDP.scan_tables (pre ++ t :: post) w =
  (set_log (log_file w ++ [found_msg]) w, read_html t).
Proof.
  induction pre as [|x pre IH]; intros Hpre Ht; cbn [app GDP.scan_tables].
  - rewrite Ht. reflexivity.
  - inversion Hpre as [|? ? Hx Hpre']; subst. rewrite Hx. auto.
Qed.

Lemma scan_tables_none all_tables w :
  Forall (fun x => GDP.caption_matches x = false) all_tables ->
  GDP.scan_tables all_tables w = (w, Raise (Exception no_caption_msg)).
Proof.
  induction 1 as [|x l Hx Hl IH]; cbn [GDP.scan_tables]; [reflexivity|].
  rewrite Hx. exact IH.
Qed.

(** C6. The caption-match locator of [etl_project_gdp.py] goes through
    the wikitables of the document in document order and hands the
    first one whose caption text contains the given text, byte for byte,
    to [read_html]; when no wikitable has such a caption it raises. *)
Theorem scan_tables_first_caption_match (soup : node) (w : World) :
  let all_tables := find_all GDP.is_wikitable soup in
  all_tables = List.filter GDP.is_wikitable (descendants soup) /\
  ((exists pre t post,
       all_tables = pre ++ t :: post /\
       Forall (fun x => GDP.caption_matches x = false) pre /\
       GDP.caption_matches t = true /\
       GDP.scan_tables all_tables w =
       (set_log (log_file w ++ [found_msg]) w, read_html t))
   \/
   (Forall (fun x => GDP.caption_matches x = false) all_tables /\
    GDP.scan_tables all_tables w = (w, Raise (Exception no_caption_msg)))) /\
  (forall t,
      GDP.caption_matches t = true <->
      exists caption,
        find (has_name "caption") t = Some caption /\
        exists a b,
          text (element caption) =
          String.append a (String.append GDP.caption_text b)).
Proof.
  intros all_tables. split; [reflexivity|]. split.
  - destruct (find_in GDP.caption_matches all_tables) as [t|] eqn:Hfind.
    + left. apply find_in_Some_inv in Hfind as (pre & Hl & Hpre & Ht).
      exists pre, (element t), (next_elements t).
      repeat split; auto. rewrite Hl. apply scan_tables_first; auto.
    + right. apply find_in_None in Hfind. split; [exact Hfind|].
      apply scan_tables_none, Hfind.
  - intros t. unfold GDP.caption_matches.
    destruct (find (has_name "caption") t) as [caption|].
    + rewrite PyStrFacts.contains_spec. split.
      * intros Hsub. exists caption. auto.
      * intros (c & [= <-] & Hsub). exact Hsub.
    + split; [discriminate|]. intros (c & Hc & _). discriminate.
Qed.

End Locators.

(* ===================================================================== *)
(** * Theorems: cleaning and filtering in the GDP script                 *)
(* ===================================================================== *)


Section Cleaning.
Import Pandas Props PandasFacts GDPFacts.
Context `{Library}.

(** C4. Cleaning a column (lines 74 to 79) never raises.  Whatever the
    column holds, the pattern is stripped from its strings and
    [to_numeric] returns a float64 column of the same length; a string
    that is empty after the stripping, or that does not convert, gives
    NaN (missing) in its row. *)
Theorem numeric_cleaning_never_raises (g : Series) :
  to_numeric ErrorsCoerce (replace_noise g)
    = Ok (FloatS (map cleaned (cells g))) /\
  (forall c, GDP.clean_gdp (gdp_frame c g)
             = Ok (gdp_frame c (FloatS (map cleaned (cells g))))) /\
  length (map cleaned (cells g)) = length (cells g) /\
  (forall t,
      PyStr.sub_noise t = ""%string \/ str_to_float (PyStr.sub_noise t) = None ->
      cleaned (Str t) = Float64.nan).
Proof.
  split; [|split; [|split]].
  - rewrite to_numeric_coerce, cells_replace_noise, map_map. reflexivity.
  - intros c. apply clean_gdp_two.
  - apply length_map.
  - intros t Ht. unfold cleaned, coerced. cbn [replace_noise_cell].
    destruct Ht as [-> | ->]; [reflexivity|].
    destruct (String.eqb _ ""); reflexivity.
Qed.

(** C3, as the code has it.  On the frame of line 68, with a country
    column the [.str] accessor takes, the row filter (lines 71 to 82)
    returns, and its rows are those of the input, GDP value cleaned,
    for which [kept] holds: the lower-cased country (not trimmed) is
    neither 'world' nor the em dash, and the cleaned GDP value is not
    missing.  No row is invented and the order is that of the input. *)
Theorem row_filter_keeps_exactly (c g : Series) :
  length (cells c) = length (cells g) ->
  str_accessor_ok c = true ->
  exists out,
    GDP.row_filter (gdp_frame c g) = Ok out /\
    columns out = ["Country"; "GDP_USD_million"]%string /\
    rows_of out = map cleaned_row (List.filter kept (pairs c g)) /\
    sublist (rows_of out) (map cleaned_row (pairs c g)).
Proof.
  intros Hlen Hok. rewrite row_filter_two, Hok.
  cbv zeta. eexists. split; [reflexivity|]. split; [reflexivity|].
  destruct (row_filter_rows c g Hlen) as [Hc Hg]. cbv zeta in Hc, Hg.
  assert (Hrows :
    rows_of
      (gdp_frame
         (series_mask
            (map (fun x => negb (Float64.is_nan x))
               (map cleaned
                  (cells (series_mask
                            (map (fun k => negb (excluded k)) (cells c)) g))))
            (series_mask (map (fun k => negb (excluded k)) (cells c)) c))
         (FloatS
            (select_mask
               (map (fun x => negb (Float64.is_nan x))
                  (map cleaned
                     (cells (series_mask
                               (map (fun k => negb (excluded k)) (cells c)) g))))
               (map cleaned
                  (cells (series_mask
                            (map (fun k => negb (excluded k)) (cells c)) g))))))
    = map cleaned_row (List.filter kept (pairs c g))).
  { unfold gdp_frame.
    erewrite (rows_of_two _ _
                (map (fun r => (fst r, Num (cleaned (snd r))))
                     (List.filter kept (pairs c g)))).
    - rewrite map_map. reflexivity.
    - rewrite Hc, map_map. reflexivity.
    - cbn [cells]. rewrite Hg, !map_map. reflexivity. }
  split; [exact Hrows|]. rewrite Hrows.
  apply (fmap_sublist cleaned_row _ _ (filter_sublist kept (pairs c g))).
Qed.

End Cleaning.

(** With [errors='raise'] the same call would raise on a cell that does
    not convert: the error path is there, [errors='coerce'] does not take
    it. *)
Example to_numeric_raise_would_raise :
  exists e,
    @Pandas.to_numeric Demo.library Pandas.ErrorsRaise (ObjectS [Str "n/a"])
    = Raise e.
Proof. eexists. reflexivity. Qed.

Lemma numeric_cleaning_never_raises_witness :
  (PyStr.sub_noise PyStr.em_dash = ""%string \/
   @str_to_float Demo.library (PyStr.sub_noise PyStr.em_dash) = None) /\
  @Props.cleaned Demo.library (Str PyStr.em_dash) = Float64.nan.
Proof.
  assert (Hpre : PyStr.sub_noise PyStr.em_dash = ""%string \/
                 @str_to_float Demo.library (PyStr.sub_noise PyStr.em_dash) = None)
    by (left; reflexivity).
  split; [exact Hpre|].
  exact (proj2 (proj2 (proj2
           (@numeric_cleaning_never_raises Demo.library Demo.gdp_millions)))
           PyStr.em_dash Hpre).
Defined.

Lemma row_filter_keeps_exactly_witness :
  exists out,
    @GDP.row_filter Demo.library (Props.gdp_frame Demo.countries Demo.gdp_millions)
      = Ok out /\
    Pandas.columns out = ["Country"; "GDP_USD_million"]%string /\
    Pandas.rows_of out =
      map (@Props.cleaned_row Demo.library)
          (List.filter (@Props.kept Demo.library)
                       (Props.pairs Demo.countries Demo.gdp_millions)) /\
    sublist (Pandas.rows_of out)
            (map (@Props.cleaned_row Demo.library)
                 (Props.pairs Demo.countries Demo.gdp_millions)).
Proof.
  apply (@row_filter_keeps_exactly Demo.library Demo.countries Demo.gdp_millions);
    reflexivity.
Defined.

(** The rows the filter keeps in the example: Chile, and the country
    written with a leading blank. *)
Example row_filter_example :
  List.filter (@Props.kept Demo.library)
              (Props.pairs Demo.countries Demo.gdp_millions)
  = [(Str "Chile", Str "358,557[n 1]"); (Str " World", Str "1000")].
Proof. vm_compute. reflexivity. Qed.

(** C3, as the specification words it, fails: with the exclusion test on
    the trimmed lower-cased country, the row of the country " World" (a
    leading blank) would be dropped; the row filter keeps it. *)
Lemma row_filter_does_not_trim :
  ~ (forall (L : Library) (c g : Series) (out : DataFrame),
        length (Pandas.cells c) = length (Pandas.cells g) ->
        @GDP.row_filter L (Props.gdp_frame c g) = Ok out ->
        Pandas.rows_of out =
        map (@Props.cleaned_row L)
            (List.filter (@Props.spec_kept L) (Props.pairs c g))).
Proof.
  intros Hspec.
  specialize (Hspec Demo.library (ObjectS [Str " World"]) (ObjectS [Str "1000"])
                    _ eq_refl eq_refl).
  vm_compute in Hspec. discriminate Hspec.
Qed.

(* ===================================================================== *)
(** * Theorems: the derived columns                                       *)
(* ===================================================================== *)


Section Derive.
Import Pandas Props FrameFacts BanksFacts.
Context `{Library}.

Lemma getitem_with_converted d usd g e i :
  getitem "MC_GBP_Billion" (with_converted d usd g e i) = Ok (converted usd g) /\
  getitem "MC_EUR_Billion" (with_converted d usd g e i) = Ok (converted usd e) /\
  getitem "MC_INR_Billion" (with_converted d usd g e i) = Ok (converted usd i).
Proof.
  unfold with_converted. repeat split.
  - rewrite !getitem_setitem_ne by discriminate. apply getitem_setitem_eq.
  - rewrite getitem_setitem_ne by discriminate. apply getitem_setitem_eq.
  - apply getitem_setitem_eq.
Qed.

Lemma to_billions_run df l :
  getitem "GDP_USD_million" df = Ok (FloatS l) ->
  GDP.to_billions df = Ok (setitem "GDP_USD_billion" (in_billions l) df).
Proof.
  intros Hl. unfold GDP.to_billions. rewrite Hl. result_simpl.
  cbn [div_scalar Pandas.round rbind]. rewrite map_map. reflexivity.
Qed.

(** The rate of the scenario is the double the literal [0.8] denotes, and
    a missing dollar value stays missing in a derived column. *)
Example rate_gbp_is_0_8 :
  DemoBanks.rate_gbp = S754_finite false 7205759403792794 (-53).
Proof. vm_compute. reflexivity. Qed.

Lemma converted_nan (rate : float64) :
  converted [Float64.nan] rate = FloatS [Float64.nan].
Proof.
  unfold converted. cbn [map].
  rewrite Float64Facts.mul_nan_l, Float64Facts.round_nan. reflexivity.
Qed.

(** C7. Every derived column is computed from the base column row by
    row: in the banks script each of the three new columns holds
    [round(usd * rate, 2)] for every dollar value, in the GDP script the
    new column holds [round(millions / 1000, 2)] for every value; the
    column has one value per row of the base column.  On the base
    column [100.0] with the rate 0.8 the derived value is 80.0. *)
Theorem derive_rounds_every_row :
  (forall env df path w w' r,
      Banks.transform env df path w = (w', Ok r) ->
      exists rates d d' usd gbp eur inr,
        rates_of env path = Ok rates /\
        rates !! "GBP"%string = Some (Num gbp) /\
        rates !! "EUR"%string = Some (Num eur) /\
        rates !! "INR"%string = Some (Num inr) /\
        frames w !! df = Some d /\
        getitem "MC_USD_Billion" d = Ok (FloatS usd) /\
        frames w' !! df = Some d' /\
        getitem "MC_GBP_Billion" d'
          = Ok (FloatS (map (fun x => Float64.round (Float64.mul x gbp) 2) usd)) /\
        getitem "MC_EUR_Billion" d'
          = Ok (FloatS (map (fun x => Float64.round (Float64.mul x eur) 2) usd)) /\
        getitem "MC_INR_Billion" d'
          = Ok (FloatS (map (fun x => Float64.round (Float64.mul x inr) 2) usd))) /\
  (forall df millions,
      getitem "GDP_USD_million" df = Ok (FloatS millions) ->
      GDP.to_billions df =
      Ok (setitem "GDP_USD_billion"
            (FloatS (map (fun x => Float64.round
                                     (Float64.div x (Float64.of_Z 1000)) 2)
                         millions)) df)) /\
  Banks.transform DemoBanks.env 0 Banks.EXCHANGE_CSV DemoBanks.world
  = (after_transform DemoBanks.world 0
       (DemoBanks.frame ++
          [("MC_GBP_Billion", FloatS [DemoBanks.eighty]);
           ("MC_EUR_Billion", FloatS [Float64.of_Z 93]);
           ("MC_INR_Billion", FloatS [Float64.of_Z 8295])]),
     Ok 0%nat).
Proof.
  split; [|split].
  - intros env df path w w' r Hrun.
    apply transform_ok_inv in Hrun
      as (rates & d & usd & g & e & i & Hrates & Hg & He & Hi & Hd & Hu & -> & ->).
    destruct (getitem_with_converted d usd g e i) as (Hcg & Hce & Hci).
    exists rates, d, (with_converted d usd g e i), usd, g, e, i.
    repeat split; auto.
    unfold after_transform. cbn [frames]. apply lookup_insert_eq.
  - intros df millions Hl. apply to_billions_run, Hl.
  - erewrite (transform_run DemoBanks.env 0 _ DemoBanks.world
                _ DemoBanks.frame [DemoBanks.hundred]
                DemoBanks.rate_gbp DemoBanks.rate_eur DemoBanks.rate_inr);
      vm_compute; reflexivity.
Qed.

End Derive.

Section TransformInPlace.
Import Pandas Props FrameFacts BanksFacts.
Context `{Library}.

Lemma has_column_setitem_ne n m s d :
  n <> m -> has_column n (setitem m s d) = has_column n d.
Proof.
  intros Hne. unfold has_column at 1. rewrite columns_setitem.
  destruct (has_column m d); [reflexivity|].
  rewrite existsb_app. cbn [existsb].
  destruct (String.eqb_spec n m); [contradiction|].
  unfold has_column. rewrite !orb_false_r. reflexivity.
Qed.

Lemma columns_with_converted d usd g e i :
  columns (with_converted d usd g e i) =
  columns d ++ List.filter (fun n => negb (has_column n d)) derived_names.
Proof.
  unfold with_converted. rewrite !columns_setitem.
  rewrite !has_column_setitem_ne by discriminate.
  unfold derived_names. cbn [List.filter].
  destruct (has_column "MC_GBP_Billion" d),
           (has_column "MC_EUR_Billion" d),
           (has_column "MC_INR_Billion" d);
    cbn [negb]; rewrite <- ?app_assoc; cbn [app];
    rewrite ?app_nil_r; reflexivity.
Qed.

Lemma lookup_with_converted (d : DataFrame) usd g e i k n s :
  d !! k = Some (n, s) ->
  exists s', with_converted d usd g e i !! k = Some (n, s') /\
             (~ In n derived_names -> s' = s).
Proof.
  intros Hk. unfold with_converted.
  pose proof (setitem_lookup "MC_GBP_Billion" (converted usd g) _ _ _ _ Hk) as H1.
  pose proof (setitem_lookup "MC_EUR_Billion" (converted usd e) _ _ _ _ H1) as H2.
  pose proof (setitem_lookup "MC_INR_Billion" (converted usd i) _ _ _ _ H2) as H3.
  eexists. split; [exact H3|].
  intros Hn. cbn [In derived_names] in Hn.
  destruct (String.eqb_spec n "MC_INR_Billion");
    [subst n; exfalso; apply Hn; do 2 right; left; reflexivity|].
  destruct (String.eqb_spec n "MC_EUR_Billion");
    [subst n; exfalso; apply Hn; right; left; reflexivity|].
  destruct (String.eqb_spec n "MC_GBP_Billion");
    [subst n; exfalso; apply Hn; left; reflexivity|].
  reflexivity.
Qed.

Lemma has_derived_with_converted d usd g e i :
  Forall (fun n => has_column n (with_converted d usd g e i) = true)
         derived_names.
Proof.
  destruct (getitem_with_converted d usd g e i) as (Hg & He & Hi).
  repeat constructor; eapply getitem_has_column; eassumption.
Qed.

(** Assigning the three columns a second time changes nothing. *)
Lemma with_converted_again d usd g e i :
  with_converted (with_converted d usd g e i) usd g e i
  = with_converted d usd g e i.
Proof.
  set (d1 := with_converted d usd g e i).
  assert (Hg : setitem "MC_GBP_Billion" (converted usd g) d1 = d1).
  { apply setitem_same; unfold d1, with_converted.
    - do 2 apply has_column_setitem. apply has_column_setitem_eq.
    - do 2 (apply column_is_setitem_ne; [discriminate|]).
      apply column_is_setitem_eq. }
  assert (He : setitem "MC_EUR_Billion" (converted usd e) d1 = d1).
  { apply setitem_same; unfold d1, with_converted.
    - apply has_column_setitem, has_column_setitem_eq.
    - apply column_is_setitem_ne; [discriminate|].
      apply column_is_setitem_eq. }
  assert (Hi : setitem "MC_INR_Billion" (converted usd i) d1 = d1).
  { apply setitem_same; unfold d1, with_converted.
    - apply has_column_setitem_eq.
    - apply column_is_setitem_eq. }
  unfold with_converted at 1. rewrite Hg, He, Hi. reflexivity.
Qed.

(** C10. [transform] of the banks script works on the frame it is
    given: it returns the reference it received, and after the call the
    frame behind that reference has the three derived columns; every
    column the frame had is still at its position under its name, and
    holds the series it held unless it is one of the three derived
    names; new names are added behind the old ones; no other frame is
    touched. *)
Theorem transform_mutates_in_place env df path w w' r :
  Banks.transform env df path w = (w', Ok r) ->
  r = df /\
  exists d d' : DataFrame,
    frames w !! df = Some d /\
    frames w' = <[df := d']> (frames w) /\
    Forall (fun n => has_column n d' = true) derived_names /\
    columns d' =
      columns d ++ List.filter (fun n => negb (has_column n d)) derived_names /\
    (forall k n s,
        d !! k = Some (n, s) ->
        exists s', d' !! k = Some (n, s') /\
                   (~ In n derived_names -> s' = s)).
Proof.
  intros Hrun.
  apply transform_ok_inv in Hrun
    as (rates & d & usd & g & e & i & _ & _ & _ & _ & Hd & Hu & -> & ->).
  split; [reflexivity|].
  exists d, (with_converted d usd g e i).
  split; [exact Hd|]. split; [reflexivity|].
  split; [apply has_derived_with_converted|].
  split; [apply columns_with_converted|].
  intros k n s Hk. apply lookup_with_converted, Hk.
Qed.

(** C9, as the code has it.  A second [transform] on the same frame
    with the same rates leaves the frame as the first one left it: the
    derived columns are computed from the dollar column, which no call
    changes.  The call is not without effect: the frame of the caller
    is assigned to, and each call adds one line to the log. *)
Theorem transform_idempotent_on_frame env df path w w1 r1 :
  Banks.transform env df path w = (w1, Ok r1) ->
  exists w2,
    Banks.transform env df path w1 = (w2, Ok r1) /\
    frames w2 = frames w1 /\
    csv_files w2 = csv_files w1 /\
    databases w2 = databases w1 /\
    log_file w1 = log_file w
      ++ ["Data transformation complete. Initiating Loading process"%string] /\
    log_file w2 = log_file w1
      ++ ["Data transformation complete. Initiating Loading process"%string].
Proof.
  intros Hrun.
  apply transform_ok_inv in Hrun
    as (rates & d & usd & g & e & i & Hrates & Hg & He & Hi & Hd & Hu & -> & ->).
  set (d1 := with_converted d usd g e i).
  assert (Hd1 : frames (after_transform w df d1) !! df = Some d1)
    by (unfold after_transform; cbn [frames]; apply lookup_insert_eq).
  assert (Hu1 : getitem "MC_USD_Billion" d1 = Ok (FloatS usd)).
  { unfold d1, with_converted.
    rewrite !getitem_setitem_ne by discriminate. exact Hu. }
  eexists. split.
  - apply (transform_run env df path _ rates d1 usd g e i); assumption.
  - unfold d1. rewrite with_converted_again. unfold after_transform.
    cbn [frames csv_files databases log_file].
    rewrite insert_insert_eq. auto.
Qed.

End TransformInPlace.

Lemma transform_mutates_in_place_witness :
  Banks.transform DemoBanks.env 0 Banks.EXCHANGE_CSV DemoBanks.world
  = (fst (Banks.transform DemoBanks.env 0 Banks.EXCHANGE_CSV DemoBanks.world),
     Ok 0%nat) /\
  exists d d' : DataFrame,
    frames DemoBanks.world !! 0%nat = Some d /\
    frames (fst (Banks.transform DemoBanks.env 0 Banks.EXCHANGE_CSV
                   DemoBanks.world))
      = <[0%nat := d']> (frames DemoBanks.world) /\
    Pandas.columns d' =
      Pandas.columns d
      ++ List.filter (fun n => negb (Pandas.has_column n d)) derived_names.
Proof.
  assert (Hrun :
    Banks.transform DemoBanks.env 0 Banks.EXCHANGE_CSV DemoBanks.world
    = (fst (Banks.transform DemoBanks.env 0 Banks.EXCHANGE_CSV DemoBanks.world),
       Ok 0%nat))
    by (vm_compute; reflexivity).
  split; [exact Hrun|].
  destruct (transform_mutates_in_place DemoBanks.env 0
              Banks.EXCHANGE_CSV DemoBanks.world _ 0%nat Hrun)
    as (_ & d & d' & Hd & Hd' & _ & Hcols & _).
  exists d, d'. auto.
Defined.

Lemma transform_idempotent_on_frame_witness :
  exists w2,
    Banks.transform DemoBanks.env 0 Banks.EXCHANGE_CSV
      (fst (Banks.transform DemoBanks.env 0 Banks.EXCHANGE_CSV
              DemoBanks.world))
    = (w2, Ok 0%nat) /\
    frames w2 = frames (fst (Banks.transform DemoBanks.env 0
                               Banks.EXCHANGE_CSV DemoBanks.world)).
Proof.
  assert (Hrun :
    Banks.transform DemoBanks.env 0 Banks.EXCHANGE_CSV DemoBanks.world
    = (fst (Banks.transform DemoBanks.env 0 Banks.EXCHANGE_CSV
              DemoBanks.world), Ok 0%nat))
    by (vm_compute; reflexivity).
  destruct (transform_idempotent_on_frame DemoBanks.env 0
              Banks.EXCHANGE_CSV DemoBanks.world _ 0%nat Hrun)
    as (w2 & Hrun2 & Hframes & _).
  exists w2. split; [exact Hrun2 | exact Hframes].
Defined.

(** C9 as stated fails on its second half: [transform] has side effects.
    On the example world it writes to the log and to the frame. *)
Lemma transform_not_pure :
  ~ Props.pure (Banks.transform DemoBanks.env 0 Banks.EXCHANGE_CSV).
Proof.
  intros Hpure. specialize (Hpure DemoBanks.world).
  apply (f_equal log_file) in Hpure. vm_compute in Hpure. discriminate Hpure.
Qed.

(* ===================================================================== *)
(** * Theorems: loading a table twice                                     *)
(* ===================================================================== *)

Section Reload.
Import Pandas Props RunFacts.

(** [to_sql] with [if_exists='replace'] leaves exactly the frame. *)
Lemma to_sql_replace d name conn w :
  exists w',
    Sqlite.to_sql d name conn Sqlite.IfReplace w = (w', Ok tt) /\
    Sqlite.tables conn w' !! name = Some (table_of d) /\
    frames w' = frames w /\ log_file w' = log_file w.
Proof.
  unfold Sqlite.to_sql.
  assert (Hset : exists w',
    Sqlite.set_tables conn (<[name := table_of d]> (Sqlite.tables conn w)) w
      = (w', Ok tt) /\
    Sqlite.tables conn w' !! name = Some (table_of d) /\
    frames w' = frames w /\ log_file w' = log_file w).
  { eexists. split; [reflexivity|].
    unfold Sqlite.tables at 1. cbn [databases set_databases].
    rewrite lookup_insert_eq. cbn [from_option id].
    rewrite lookup_insert_eq. auto. }
  destruct (Sqlite.tables conn w !! name); exact Hset.
Qed.

Lemma load_to_db_run r conn name w d :
  frames w !! r = Some d ->
  exists w',
    Banks.load_to_db r conn name w = (w', Ok tt) /\
    Sqlite.tables conn w' !! name = Some (table_of d) /\
    frames w' = frames w.
Proof.
  intros Hd. unfold Banks.load_to_db.
  destruct (to_sql_replace d name conn w) as (w1 & Hsql & Ht & Hf & _).
  eexists. split.
  - rewrite (bind_ok _ _ w w d) by (apply read_frame_run, Hd).
    rewrite (bind_ok _ _ w w1 tt) by exact Hsql.
    reflexivity.
  - unfold Sqlite.tables in *. cbn [databases set_log frames]. auto.
Qed.


Lemma load_to_database_run env c g db w :
  can_open env db = true ->
  exists w',
    GDP.load_to_database env (final_frame c g) db w = (w', Ok db) /\
    Sqlite.tables db w' !! "Countries_by_GDP"%string
      = Some (table_of (final_frame c g)).
Proof.
  intros Hopen. unfold GDP.load_to_database, GDP.log_step, Sqlite.connect,
    Sqlite.drop_table_if_exists, Sqlite.create_table, Sqlite.to_sql,
    Sqlite.insert_rows.
  run_unfold. cbn [databases set_log]. rewrite Hopen.
  unfold Sqlite.set_tables at 1. unfold Sqlite.tables at 1 2.
  cbn [databases set_databases set_log fst snd].
  rewrite lookup_insert_eq. cbn [from_option id]. rewrite lookup_delete_eq.
  unfold Sqlite.set_tables at 1. unfold Sqlite.tables at 1 2 3.
  cbn [databases set_databases set_log fst snd].
  rewrite !lookup_insert_eq. cbn [from_option id]. rewrite lookup_insert_eq.
  eexists. split; [reflexivity|].
  unfold Sqlite.tables. cbn [databases set_databases set_log fst snd].
  rewrite lookup_insert_eq. cbn [from_option id]. rewrite lookup_insert_eq.
  reflexivity.
Qed.

(** C8. Two loads in a row into the same table leave the rows of the
    second frame only, whatever the two frames hold: in the banks script
    through [to_sql(if_exists='replace')], in the GDP script through
    DROP TABLE IF EXISTS, CREATE TABLE and [to_sql(if_exists='append')]. *)
Theorem reload_keeps_only_second_table :
  (forall r1 r2 conn name w d1 d2,
      frames w !! r1 = Some d1 ->
      frames w !! r2 = Some d2 ->
      exists w1 w2,
        Banks.load_to_db r1 conn name w = (w1, Ok tt) /\
        Banks.load_to_db r2 conn name w1 = (w2, Ok tt) /\
        Sqlite.tables conn w1 !! name = Some (table_of d1) /\
        Sqlite.tables conn w2 !! name = Some (table_of d2)) /\
  (forall env c1 g1 c2 g2 db w,
      can_open env db = true ->
      exists w1 w2,
        GDP.load_to_database env (final_frame c1 g1) db w = (w1, Ok db) /\
        GDP.load_to_database env (final_frame c2 g2) db w1 = (w2, Ok db) /\
        Sqlite.tables db w2 !! "Countries_by_GDP"%string
          = Some (MkTable ["Country"; "GDP_USD_billion"]%string
                          (rows_of (final_frame c2 g2)))).
Proof.
  split.
  - intros r1 r2 conn name w d1 d2 H1 H2.
    destruct (load_to_db_run r1 conn name w d1 H1) as (w1 & Hrun1 & Ht1 & Hf1).
    rewrite <- Hf1 in H2.
    destruct (load_to_db_run r2 conn name w1 d2 H2) as (w2 & Hrun2 & Ht2 & _).
    exists w1, w2. auto.
  - intros env c1 g1 c2 g2 db w Hopen.
    destruct (load_to_database_run env c1 g1 db w Hopen) as (w1 & Hrun1 & _).
    destruct (load_to_database_run env c2 g2 db w1 Hopen) as (w2 & Hrun2 & Ht2).
    exists w1, w2. auto.
Qed.

End Reload.

(* ===================================================================== *)
(** * Theorems: errors and the log                                        *)
(* ===================================================================== *)

Module LogFacts.
Import Props RunFacts.

Lemma logs_only_silent {A : Type} msgs (m : Run A) :
  (forall w, log_file (fst (m w)) = log_file w) -> logs_only msgs m.
Proof.
  intros Hm w. exists []. rewrite Hm, app_nil_r. auto.
Qed.

Lemma logs_only_bind {A B : Type} msgs (m : Run A) (k : A -> Run B) :
  logs_only msgs m -> (forall a, logs_only msgs (k a)) ->
  logs_only msgs (m ≫= k).
Proof.
  intros Hm Hk w. rewrite bind_run.
  destruct (Hm w) as (added1 & Hlog1 & Hall1).
  destruct (m w) as [w1 [a|e]]; cbn [fst] in *.
  - destruct (Hk a w1) as (added2 & Hlog2 & Hall2).
    exists (added1 ++ added2). rewrite Hlog2, Hlog1, app_assoc.
    split; [reflexivity|]. apply Forall_app. auto.
  - exists added1. auto.
Qed.

Lemma logs_only_append_log msgs line :
  In line msgs -> logs_only msgs (append_log line).
Proof.
  intros Hin w. exists [line]. split; [reflexivity|].
  constructor; [exact Hin | constructor].
Qed.

Lemma logs_only_lift {A : Type} msgs (r : result A) : logs_only msgs (lift r).
Proof. apply logs_only_silent. reflexivity. Qed.

Lemma logs_only_ret {A : Type} msgs (a : A) : logs_only msgs (mret a).
Proof. apply logs_only_silent. reflexivity. Qed.

Lemma logs_only_read_frame msgs r : logs_only msgs (read_frame r).
Proof.
  apply logs_only_silent. intros w. unfold read_frame.
  destruct (frames w !! r); reflexivity.
Qed.

Lemma logs_only_write_frame msgs r d : logs_only msgs (write_frame r d).
Proof. apply logs_only_silent. reflexivity. Qed.

Lemma logs_only_new_frame msgs d : logs_only msgs (new_frame d).
Proof. apply logs_only_silent. reflexivity. Qed.

Lemma logs_only_to_csv msgs env d path : logs_only msgs (to_csv env d path).
Proof.
  apply logs_only_silent. intros w. unfold to_csv.
  destruct (can_write env path); reflexivity.
Qed.

Lemma logs_only_connect msgs env db : logs_only msgs (Sqlite.connect env db).
Proof.
  apply logs_only_silent. intros w. unfold Sqlite.connect.
  destruct (can_open env db); reflexivity.
Qed.

Lemma logs_only_to_sql msgs d name conn mode :
  logs_only msgs (Sqlite.to_sql d name conn mode).
Proof.
  apply logs_only_silent. intros w. unfold Sqlite.to_sql.
  destruct (Sqlite.tables conn w !! name), mode; try reflexivity.
  destruct (Sqlite.insert_rows _ _); reflexivity.
Qed.

Lemma logs_only_execute `{Library} msgs conn query :
  logs_only msgs (Sqlite.execute conn query).
Proof. apply logs_only_silent. reflexivity. Qed.

End LogFacts.

Create HintDb logs.

#[export] Hint Resolve LogFacts.logs_only_lift LogFacts.logs_only_ret
  LogFacts.logs_only_read_frame LogFacts.logs_only_write_frame
  LogFacts.logs_only_new_frame LogFacts.logs_only_to_csv
  LogFacts.logs_only_connect LogFacts.logs_only_to_sql
  LogFacts.logs_only_execute : logs.

(** Going through the statements of a script, one bind at a time. *)
Ltac logs_steps :=
  repeat first
    [ apply LogFacts.logs_only_bind; [|intros ?]
    | apply LogFacts.logs_only_append_log; cbn; tauto
    | solve [eauto with logs] ].

Section ErrorsAndLog.
Import Pandas Props RunFacts LogFacts.
Context `{Library} (env : Env).

Lemma banks_extract_logs url attrs :
  logs_only banks_messages (Banks.extract env url attrs).
Proof.
  unfold Banks.extract, Banks.getitem_ref, Banks.setitem_ref,
    Banks.log_progress. logs_steps.
Qed.

Lemma banks_transform_logs df path :
  logs_only banks_messages (Banks.transform env df path).
Proof.
  unfold Banks.transform, Banks.add_converted, Banks.getitem_ref,
    Banks.setitem_ref, Banks.log_progress. logs_steps.
Qed.

(** The log of the banks script only ever receives its eight progress
    messages. *)
Lemma banks_main_logs : logs_only banks_messages (Banks.main env).
Proof.
  unfold Banks.main.
  apply logs_only_bind; [unfold Banks.log_progress; logs_steps | intros ?].
  apply logs_only_bind; [apply banks_extract_logs | intros ?].
  apply logs_only_bind;
    [unfold Banks.getitem_ref; logs_steps | intros ?].
  apply logs_only_bind; [logs_steps | intros ?].
  apply logs_only_bind;
    [unfold Banks.setitem_ref; logs_steps | intros ?].
  apply logs_only_bind; [apply banks_transform_logs | intros ?].
  unfold Banks.load_to_csv, Banks.load_to_db, Banks.run_query,
    Banks.log_progress.
  logs_steps.
Qed.


Lemma log_step_run message w :
  GDP.log_step message w = (set_log (log_file w ++ [message]) w, Ok tt).
Proof. reflexivity. Qed.

(** An [etl] that returns has written the completion line last. *)
Lemma etl_ok_last_line w w1 u :
  GDP.etl env w = (w1, Ok u) -> last (log_file w1) = Some completed_msg.
Proof.
  unfold GDP.etl. intros Hrun.
  apply bind_ok_inv in Hrun as (wa & df_raw & _ & Hrun).
  apply bind_ok_inv in Hrun as (wb & df_transformed & _ & Hrun).
  apply bind_ok_inv in Hrun as (wc & [] & _ & Hrun).
  apply bind_ok_inv in Hrun as (wd & conn & _ & Hrun).
  apply bind_ok_inv in Hrun as (we & [] & _ & Hrun).
  rewrite log_step_run in Hrun. injection Hrun as <- _.
  cbn [log_file set_log]. apply last_snoc.
Qed.

Lemma gdp_main_run w :
  GDP.main env w =
  match GDP.etl env (set_log (log_file w ++ [started_msg]) w) with
  | (w1, Ok _) => (w1, Ok tt)
  | (w1, Raise e) => (set_log (log_file w1 ++ [failed_msg e]) w1, Ok tt)
  end.
Proof.
  unfold GDP.main. rewrite (bind_ok _ _ w _ tt) by apply log_step_run.
  unfold try_except.
  destruct (GDP.etl env _) as [w1 [[]|e]]; reflexivity.
Qed.

(** C2, as the code has it.  The GDP script never ends on an exception
    of its stages: [main] returns, and when a stage of [etl] raised, the
    last line of the log is "ETL process failed: " followed by the
    message of the exception (otherwise it is the completion line).
    The banks script has no handler: its log only ever receives its
    progress messages, and an exception of a stage ends the run with
    none of them describing it. *)
Theorem gdp_logs_errors_banks_does_not (w : World) :
  (exists w',
      GDP.main env w = (w', Ok tt) /\
      forall w1 res,
        GDP.etl env (set_log (log_file w ++ [started_msg]) w) = (w1, res) ->
        match res with
        | Raise e =>
            log_file w' = log_file w1 ++ [failed_msg e] /\
            last (log_file w') = Some (failed_msg e)
        | Ok _ => w' = w1 /\ last (log_file w') = Some completed_msg
        end) /\
  logs_only banks_messages (Banks.main env).
Proof.
  split; [|apply banks_main_logs].
  rewrite gdp_main_run.
  destruct (GDP.etl env _) as [w1 [u|e]] eqn:Hetl.
  - exists w1. split; [reflexivity|].
    intros w2 res [= <- <-]. split; [reflexivity|].
    eapply etl_ok_last_line, Hetl.
  - eexists. split; [reflexivity|].
    intros w2 res [= <- <-]. cbn [log_file set_log].
    split; [reflexivity | apply last_snoc].
Qed.

(** The fatal errors of the extraction, in the GDP script: a failed
    request, a status other than 200 and a page without the table all
    end in the failure line. *)
Lemma gdp_network_failure_logged w e :
  http_get env GDP.url = Raise e ->
  exists w', GDP.main env w = (w', Ok tt) /\
             last (log_file w') = Some (failed_msg e).
Proof.
  intros Hget. rewrite gdp_main_run.
  unfold GDP.etl, GDP.extract_data, GDP.log_step. run_unfold.
  cbn [fst snd]. rewrite Hget.
  eexists. split; [reflexivity|]. cbn [log_file set_log]. apply last_snoc.
Qed.

Lemma gdp_table_not_found_logged w response :
  http_get env GDP.url = Ok response ->
  status_code response = 200%nat ->
  Forall (fun t => GDP.caption_matches t = false)
         (Soup.find_all GDP.is_wikitable (soup_of response)) ->
  exists w', GDP.main env w = (w', Ok tt) /\
             last (log_file w') = Some (failed_msg (Exception no_caption_msg)).
Proof.
  intros Hget Hstatus Hnone. rewrite gdp_main_run.
  unfold GDP.etl, GDP.extract_data, GDP.log_step. run_unfold.
  cbn [fst snd]. rewrite Hget, Hstatus. cbn [Nat.eqb negb].
  rewrite (scan_tables_none _ _ Hnone).
  eexists. split; [reflexivity|]. cbn [log_file set_log]. apply last_snoc.
Qed.

End ErrorsAndLog.


(** C1 on the banks script: a missing value reaches both sinks.  [extract]
    drops the rows whose market capitalisation is missing (line 46)
    before the column is converted with [errors='coerce'] (line 47), so
    the row of Bank B, whose cell holds an em dash, is kept and then
    carries NaN; the run ends normally and the row is written to the CSV
    file and to the table. *)
Theorem banks_missing_value_reaches_sinks :
  let run := @Banks.main BankPage.library (BankPage.env BankPage.page)
               BankPage.empty_world in
  let bank_b := [Str "Bank B"; Num Float64.nan; Num Float64.nan;
                 Num Float64.nan; Num Float64.nan] in
  snd run = Ok tt /\
  Banks.locate_table BankPage.page = Ok BankPage.table /\
  (exists t, csv_files (fst run) !! Banks.OUTPUT_CSV = Some t /\
             In bank_b (t_rows t) /\ Props.has_missing bank_b = true) /\
  (exists t, Sqlite.tables Banks.DB_NAME (fst run) !! Banks.TABLE_NAME = Some t /\
             In bank_b (t_rows t)).
Proof.
  cbv zeta. split; [vm_compute; reflexivity|].
  split; [vm_compute; reflexivity|]. split.
  - eexists. split; [vm_compute; reflexivity|].
    split; [right; left; reflexivity | reflexivity].
  - eexists. split; [vm_compute; reflexivity|]. right; left; reflexivity.
Qed.

(** C2 as stated fails on the banks script: on a page without the heading
    the run ends on the exception of [extract], and no line of the log
    holds its message. *)
Lemma banks_error_not_logged :
  ~ (forall (L : Library) (env : Env) (w w' : World) (e : exn),
        @Banks.main L env w = (w', Raise e) ->
        exists line, In line (log_file w') /\
                     PyStr.contains (exn_msg e) line = true).
Proof.
  intros Hclaim.
  destruct (Hclaim BankPage.library (BankPage.env BankPage.page_without_heading)
                   BankPage.empty_world
                   (MkWorld ["Preliminaries complete. Initiating ETL process"%string]
                            ∅ ∅ ∅)
                   (Exception no_heading_msg))
    as (line & Hin & Hsub).
  - vm_compute. reflexivity.
  - cbn [log_file In] in Hin. destruct Hin as [<- | []].
    vm_compute in Hsub. discriminate Hsub.
Qed.

(** The GDP script, for comparison, converts first and drops afterwards
    (lines 79 and 82): the frame [transform_data] hands to the sinks has
    no missing value. *)
Section GdpOutput.
Import Pandas Props PandasFacts GDPFacts Float64Facts.
Context `{Library}.

Lemma select_mask_not_nan (l : list float64) :
  Forall (fun x => Float64.is_nan x = false)
         (select_mask (map (fun x => negb (Float64.is_nan x)) l) l).
Proof.
  rewrite select_mask_filter.
  induction l as [|x l IH]; cbn [List.filter]; [constructor|].
  destruct (Float64.is_nan x) eqn:Hx; cbn [negb]; [exact IH|].
  constructor; [exact Hx | exact IH].
Qed.

Lemma in_billions_not_nan (l : list float64) :
  Forall (fun x => Float64.is_nan x = false) l ->
  Forall (fun x => Float64.is_nan x = false)
         (map (fun x => Float64.round (Float64.div x (Float64.of_Z 1000)) 2) l).
Proof.
  induction 1 as [|x l Hx Hl IH]; cbn [map]; constructor; [|exact IH].
  apply round_2_not_nan. rewrite of_Z_1000.
  apply div_finite_not_nan, Hx.
Qed.

Lemma gdp_output_has_no_missing_value (df out : DataFrame) :
  GDP.transform_frame df = Ok out ->
  exists c l,
    out = final_frame c (FloatS l) /\
    Forall (fun x => Float64.is_nan x = false) l.
Proof.
  unfold GDP.transform_frame. cbn [iloc_columns].
  destruct (nth_error df 0) as [[n0 c0]|]; [|discriminate].
  destruct (nth_error df 2) as [[n2 g]|]; [|discriminate].
  result_simpl. unfold set_columns. cbn [length Nat.eqb map snd combine rbind].
  change [("Country"%string, c0); ("GDP_USD_million"%string, g)]
    with (gdp_frame c0 g).
  rewrite row_filter_two.
  destruct (str_accessor_ok c0); [|discriminate].
  cbv zeta. cbn [rbind].
  set (m1 := map (fun k => negb (excluded k)) (cells c0)).
  set (l := map cleaned (cells (series_mask m1 g))).
  set (m2 := map (fun x => negb (Float64.is_nan x)) l).
  unfold GDP.to_billions, gdp_frame.
  cbn [getitem String.eqb Ascii.eqb Bool.eqb]. result_simpl.
  cbn [div_scalar Pandas.round rbind].
  unfold setitem. cbn [has_column columns map fst existsb String.eqb
                       Ascii.eqb Bool.eqb orb app].
  cbn [select_columns getitem String.eqb Ascii.eqb Bool.eqb].
  result_simpl. intros [= <-].
  eexists _, _. split; [reflexivity|].
  rewrite map_map. apply in_billions_not_nan, select_mask_not_nan.
Qed.

End GdpOutput.

(* ===================================================================== *)
(** * The theorems on the example inputs                                  *)
(* ===================================================================== *)

Lemma locate_table_nearest_after_heading_witness :
  Banks.locate_table BankPage.page = Ok BankPage.table /\
  exists pre h mid post,
    Soup.descendants BankPage.page = pre ++ h :: mid ++ BankPage.table :: post /\
    Forall (fun x => Banks.is_heading x = false) pre /\
    Banks.is_heading h = true /\
    Forall (fun x => Banks.is_wikitable x = false) mid /\
    Banks.is_wikitable BankPage.table = true.
Proof.
  assert (Hrun : Banks.locate_table BankPage.page = Ok BankPage.table)
    by (vm_compute; reflexivity).
  split; [exact Hrun|].
  exact (proj1 (proj1 (locate_table_nearest_after_heading BankPage.page)
                  BankPage.table) Hrun).
Defined.

Lemma scan_tables_first_caption_match_witness :
  let caption :=
    Soup.Tag "caption" None []
      [Soup.NavigableString "GDP (USD million) by country"; Soup.Tag "sup" None [] []] in
  let t := Soup.Tag "table" None ["wikitable"] [caption] in
  (exists c,
      Soup.find (Soup.has_name "caption") t = Some c /\
      exists a b, Soup.text (Soup.element c)
                  = String.append a (String.append GDP.caption_text b)) /\
  GDP.caption_matches t = true.
Proof.
  cbv zeta.
  assert (Hcap : exists c,
    Soup.find (Soup.has_name "caption")
      (Soup.Tag "table" None ["wikitable"]
         [Soup.Tag "caption" None []
            [Soup.NavigableString "GDP (USD million) by country";
             Soup.Tag "sup" None [] []]]) = Some c /\
    exists a b, Soup.text (Soup.element c)
                = String.append a (String.append GDP.caption_text b)).
  { eexists. split; [reflexivity|]. exists ""%string, ""%string. reflexivity. }
  split; [exact Hcap|].
  exact (proj2 (proj2 (proj2
           (@scan_tables_first_caption_match Demo.library BankPage.page
              BankPage.empty_world)) _) Hcap).
Defined.

Lemma derive_rounds_every_row_witness :
  exists d',
    frames (fst (Banks.transform DemoBanks.env 0 Banks.EXCHANGE_CSV DemoBanks.world))
      !! 0%nat = Some d' /\
    exists usd gbp,
      Pandas.getitem "MC_GBP_Billion" d'
      = Ok (FloatS (map (fun x => Float64.round (Float64.mul x gbp) 2) usd)).
Proof.
  assert (Hrun :
    Banks.transform DemoBanks.env 0 Banks.EXCHANGE_CSV DemoBanks.world
    = (fst (Banks.transform DemoBanks.env 0 Banks.EXCHANGE_CSV DemoBanks.world),
       Ok 0%nat))
    by (vm_compute; reflexivity).
  destruct (proj1 derive_rounds_every_row DemoBanks.env 0%nat Banks.EXCHANGE_CSV
              DemoBanks.world _ 0%nat Hrun)
    as (rates & d & d' & usd & gbp & eur & inr & _ & _ & _ & _ & _ & _
        & Hd' & Hgbp & _).
  exists d'. split; [exact Hd'|]. exists usd, gbp. exact Hgbp.
Defined.

Lemma reload_keeps_only_second_table_witness :
  let w := MkWorld [] ∅ ∅ {[ 0%nat := DemoBanks.frame; 1%nat := BankPage.table_frame ]} in
  exists w1 w2,
    Banks.load_to_db 0 Banks.DB_NAME Banks.TABLE_NAME w = (w1, Ok tt) /\
    Banks.load_to_db 1 Banks.DB_NAME Banks.TABLE_NAME w1 = (w2, Ok tt) /\
    Sqlite.tables Banks.DB_NAME w1 !! Banks.TABLE_NAME
      = Some (Pandas.table_of DemoBanks.frame) /\
    Sqlite.tables Banks.DB_NAME w2 !! Banks.TABLE_NAME
      = Some (Pandas.table_of BankPage.table_frame).
Proof.
  cbv zeta.
  apply (proj1 reload_keeps_only_second_table 0%nat 1%nat Banks.DB_NAME
           Banks.TABLE_NAME _ DemoBanks.frame BankPage.table_frame);
    vm_compute; reflexivity.
Defined.

Lemma gdp_logs_errors_banks_does_not_witness :
  exists w',
    @GDP.main Demo.library DemoBanks.env BankPage.empty_world = (w', Ok tt) /\
    last (log_file w') = Some (failed_msg (Exception "offline")).
Proof.
  destruct (@gdp_logs_errors_banks_does_not Demo.library DemoBanks.env
              BankPage.empty_world) as [(w' & Hmain & Hetl) _].
  exists w'. split; [exact Hmain|].
  exact (proj2 (Hetl
           (fst (@GDP.etl Demo.library DemoBanks.env
                   (set_log (log_file BankPage.empty_world ++ [started_msg])
                            BankPage.empty_world)))
           (Raise (Exception "offline"))
           ltac:(vm_compute; reflexivity))).
Defined.

(* ===================================================================== *)
(** * Further properties: the noise pattern                              *)
(* ===================================================================== *)

Section NoisePattern.
Import PyStr PyStrFacts Further.

Lemma sub_noise_empty : sub_noise "" = ""%string.
Proof. reflexivity. Qed.

Lemma match_noise_none_head c s :
  match_noise (String c s) = None -> Ascii.eqb c "," = false.
Proof.
  unfold match_noise. destruct (Ascii.eqb c "[") eqn:Hb.
  - apply Ascii.eqb_eq in Hb. subst c. reflexivity.
  - destruct (Ascii.eqb c ","); [discriminate | reflexivity].
Qed.

Lemma sub_noise_no_comma_upto : forall n s,
  (String.length s <= n)%nat -> has_byte "," (sub_noise s) = false.
Proof.
  induction n as [|n IH]; intros s Hlen.
  - destruct s; [reflexivity | simpl in Hlen; lia].
  - destruct s as [|c s]; [reflexivity|].
    destruct (match_noise (String c s)) as [r|] eqn:E.
    + rewrite (sub_noise_matched _ _ E). apply IH.
      apply match_noise_shorter in E. cbn [String.length] in *. lia.
    + rewrite (sub_noise_kept _ _ E). cbn [has_byte].
      rewrite (match_noise_none_head _ _ E). cbn [orb].
      apply IH. cbn [String.length] in Hlen. lia.
Qed.

(** X1. After the substitution of line 74 no comma is left in a cell,
    whatever the cell held: every thousands separator is removed, inside
    or outside a bracketed footnote. *)
Theorem sub_noise_leaves_no_comma (s : string) :
  has_byte "," (sub_noise s) = false.
Proof. apply (sub_noise_no_comma_upto (String.length s)). lia. Qed.

Lemma match_noise_clean c s :
  Ascii.eqb c "[" = false -> Ascii.eqb c "," = false ->
  Ascii.eqb c dash_lead = false ->
  match_noise (String c s) = None.
Proof.
  intros Hb Hc Hd. unfold match_noise. rewrite Hb, Hc.
  unfold em_dash. cbn [strip_prefix].
  change (ascii_of_nat 226) with dash_lead.
  rewrite Ascii.eqb_sym, Hd. reflexivity.
Qed.

(** X2. A cell that holds no opening bracket, no comma and no em dash
    goes through the substitution of line 74 unchanged. *)
Theorem sub_noise_keeps_clean_text : forall s,
  has_byte "[" s = false ->
  has_byte "," s = false ->
  has_byte dash_lead s = false ->
  sub_noise s = s.
Proof.
  induction s as [|c s IH]; intros Hb Hc Hd; [reflexivity|].
  cbn [has_byte] in Hb, Hc, Hd.
  apply orb_false_iff in Hb as [Hb Hb'].
  apply orb_false_iff in Hc as [Hc Hc'].
  apply orb_false_iff in Hd as [Hd Hd'].
  rewrite sub_noise_kept by (apply match_noise_clean; assumption).
  rewrite IH by assumption. reflexivity.
Qed.

End NoisePattern.

Lemma sub_noise_keeps_clean_text_witness :
  PyStr.sub_noise "26854.599" = "26854.599"%string.
Proof.
  apply (sub_noise_keeps_clean_text "26854.599"); reflexivity.
Defined.

(* ===================================================================== *)
(** * Further properties: the exchange rates                             *)
(* ===================================================================== *)

Section Rates.
Import Pandas.

Lemma dict_step_other (k : string) (l : list (cell * cell)) :
  Forall (fun kv => fst kv <> Str k) l ->
  forall d : gmap string cell,
    fold_left (fun d kv => match fst kv with
                           | Str k' => <[k' := snd kv]> d
                           | Num _ => d
                           end) l d !! k = d !! k.
Proof.
  induction 1 as [|[key v] l Hkey Hl IH]; intros d; cbn [fold_left]; [reflexivity|].
  rewrite IH. cbn [fst snd] in *. destruct key as [k'|x]; [|reflexivity].
  apply lookup_insert_ne. congruence.
Qed.

Lemma Forall_combine_fst {A B : Type} (P : A -> Prop) :
  forall (l : list A) (l' : list B),
    Forall P l -> Forall (fun kv => P (fst kv)) (combine l l').
Proof.
  induction l as [|x l IH]; intros [|y l'] Hall; cbn [combine]; try constructor.
  - inversion Hall; assumption.
  - apply IH. inversion Hall; assumption.
Qed.

Lemma combine_app_same {A B : Type} : forall (l1 l2 : list A) (l1' l2' : list B),
  length l1 = length l1' ->
  combine (l1 ++ l2) (l1' ++ l2') = combine l1 l1' ++ combine l2 l2'.
Proof.
  induction l1 as [|x l1 IH]; intros l2 [|y l1'] l2' Hlen;
    cbn [length] in Hlen; try discriminate; [reflexivity|].
  cbn [app combine]. f_equal. apply IH. lia.
Qed.

(** X3. The rates are read as [dict(zip(Currency, Rate))] (line 59): where
    a currency stands on several rows of the file, the rate of the last
    such row is the one [rates[currency]] gives; a currency that stands on
    no row is a [KeyError] naming it. *)
Theorem rates_last_row_wins (k : string) :
  (forall ks1 ks2 vs1 vs2 v,
      length ks1 = length vs1 ->
      Forall (fun key => key <> Str k) ks2 ->
      dict_get (dict_zip (ks1 ++ Str k :: ks2) (vs1 ++ v :: vs2)) k = Ok v) /\
  (forall ks vs,
      Forall (fun key => key <> Str k) ks ->
      dict_get (dict_zip ks vs) k = Raise (KeyError k)).
Proof.
  split.
  - intros ks1 ks2 vs1 vs2 v Hlen Hrest. unfold dict_get, dict_zip.
    rewrite combine_app_same by exact Hlen. cbn [combine].
    rewrite fold_left_app. cbn [fold_left fst snd].
    rewrite dict_step_other
      by (apply (Forall_combine_fst (fun key => key <> Str k)), Hrest).
    rewrite lookup_insert_eq. reflexivity.
  - intros ks vs Hall. unfold dict_get, dict_zip.
    rewrite dict_step_other
      by (apply (Forall_combine_fst (fun key => key <> Str k)), Hall).
    rewrite lookup_empty. reflexivity.
Qed.

End Rates.

Lemma rates_last_row_wins_witness :
  Pandas.dict_get
    (Pandas.dict_zip ([Str "GBP"] ++ Str "GBP" :: [Str "EUR"])
                     ([Num DemoBanks.rate_eur] ++ Num DemoBanks.rate_gbp
                        :: [Num DemoBanks.rate_eur])) "GBP"
  = Ok (Num DemoBanks.rate_gbp) /\
  Pandas.dict_get (Pandas.dict_zip [Str "EUR"] [Num DemoBanks.rate_eur]) "GBP"
  = Raise (Pandas.KeyError "GBP").
Proof.
  split.
  - apply (proj1 (rates_last_row_wins "GBP")); [reflexivity|].
    repeat constructor. discriminate.
  - apply (proj2 (rates_last_row_wins "GBP")).
    repeat constructor. discriminate.
Defined.

(* ===================================================================== *)
(** * Further properties: missing values through the derived columns     *)
(* ===================================================================== *)

Section MissingThrough.
Import Pandas Float64Facts Further.

Lemma round_2_is_nan x : Float64.is_nan (Float64.round x 2) = Float64.is_nan x.
Proof.
  destruct (Float64.is_nan x) eqn:Hx.
  - destruct x; try discriminate. apply (f_equal Float64.is_nan (round_nan 2)).
  - apply round_2_not_nan, Hx.
Qed.

Lemma div_1000_is_nan x :
  Float64.is_nan (Float64.div x (Float64.of_Z 1000)) = Float64.is_nan x.
Proof.
  rewrite of_Z_1000. destruct (Float64.is_nan x) eqn:Hx.
  - destruct x; try discriminate. reflexivity.
  - apply div_finite_not_nan, Hx.
Qed.

Lemma mul_finite_is_nan x r :
  finite_nonzero r = true ->
  Float64.is_nan (Float64.mul x r) = Float64.is_nan x.
Proof.
  destruct r as [| | |s m e]; try discriminate. intros _.
  destruct (Float64.is_nan x) eqn:Hx.
  - destruct x; try discriminate. reflexivity.
  - apply mul_finite_not_nan, Hx.
Qed.

(** X4. The derived columns neither make nor lose a missing value.  In
    the GDP script (line 85) the billions column is missing exactly on the
    rows where the millions column is; in the banks script (lines 61 to
    63) a column computed with a rate that is finite and not zero is
    missing exactly on the rows where the dollar column is. *)
Theorem derived_missing_where_base_missing :
  (forall df millions,
      getitem "GDP_USD_million" df = Ok (FloatS millions) ->
      exists out col,
        GDP.to_billions df = Ok out /\
        getitem "GDP_USD_billion" out = Ok col /\
        isna col = map Float64.is_nan millions) /\
  (forall df rates name cur w d usd r,
      frames w !! df = Some d ->
      getitem "MC_USD_Billion" d = Ok (FloatS usd) ->
      rates !! cur = Some (Num r) ->
      finite_nonzero r = true ->
      exists w' d' col,
        Banks.add_converted df rates name cur w = (w', Ok tt) /\
        frames w' !! df = Some d' /\
        getitem name d' = Ok col /\
        isna col = map Float64.is_nan usd).
Proof.
  split.
  - intros df millions Hm. eexists _, _. split; [apply to_billions_run, Hm|].
    split; [apply FrameFacts.getitem_setitem_eq|].
    unfold isna, in_billions. cbn [cells]. rewrite !map_map.
    apply map_ext. intros x. cbn [isna_cell].
    rewrite round_2_is_nan, div_1000_is_nan. reflexivity.
  - intros df rates name cur w d usd r Hd Hu Hr Hfin. eexists _, _, _.
    split; [apply (BanksFacts.add_converted_run df rates name cur w d usd r);
            assumption|].
    split; [cbn [frames set_frames]; apply lookup_insert_eq|].
    split; [apply FrameFacts.getitem_setitem_eq|].
    unfold isna, converted. cbn [cells]. rewrite !map_map.
    apply map_ext. intros x. cbn [isna_cell].
    rewrite round_2_is_nan, mul_finite_is_nan by exact Hfin. reflexivity.
Qed.

End MissingThrough.

Lemma derived_missing_where_base_missing_witness :
  exists w' d' col,
    Banks.add_converted 0 (Pandas.dict_zip [Str "GBP"] [Num DemoBanks.rate_gbp])
      "MC_GBP_Billion" "GBP" DemoBanks.world = (w', Ok tt) /\
    frames w' !! 0%nat = Some d' /\
    Pandas.getitem "MC_GBP_Billion" d' = Ok col /\
    Pandas.isna col = map Float64.is_nan [DemoBanks.hundred].
Proof.
  apply (proj2 derived_missing_where_base_missing 0%nat _ "MC_GBP_Billion"%string
           "GBP"%string DemoBanks.world DemoBanks.frame [DemoBanks.hundred]
           DemoBanks.rate_gbp); vm_compute; reflexivity.
Defined.

(* ===================================================================== *)
(** * Further properties: [transform_data] of the GDP script             *)
(* ===================================================================== *)

Section GdpTransform.
Import Pandas PandasFacts GDPFacts Further.
Context `{Library}.

Lemma nth_error_short {A : Type} (l : list A) :
  (length l < 3)%nat -> nth_error l 0 = None \/ nth_error l 2 = None.
Proof. intros Hlen. right. apply nth_error_None. lia. Qed.

(** The frame [transform_data] computes, from the first and the third
    column of its argument. *)
Lemma transform_frame_run (df : DataFrame) n0 c0 n2 g :
  nth_error df 0 = Some (n0, c0) ->
  nth_error df 2 = Some (n2, g) ->
  GDP.transform_frame df =
  if str_accessor_ok c0
  then
    let m1 := map (fun k => negb (excluded k)) (cells c0) in
    let l := map cleaned (cells (series_mask m1 g)) in
    let m2 := map (fun x => negb (Float64.is_nan x)) l in
    Ok (final_frame (series_mask m2 (series_mask m1 c0))
                    (in_billions (select_mask m2 l)))
  else Raise accessor_error.
Proof.
  intros H0 H2. unfold GDP.transform_frame. cbn [iloc_columns].
  rewrite H0, H2. result_simpl.
  unfold set_columns. cbn [length Nat.eqb map snd combine rbind].
  change [("Country"%string, c0); ("GDP_USD_million"%string, g)]
    with (gdp_frame c0 g).
  rewrite row_filter_two.
  destruct (str_accessor_ok c0); [|reflexivity].
  cbv zeta. cbn [rbind].
  unfold GDP.to_billions, gdp_frame.
  cbn [getitem String.eqb Ascii.eqb Bool.eqb]. result_simpl.
  cbn [div_scalar Pandas.round rbind].
  unfold setitem. cbn [has_column columns map fst existsb String.eqb
                       Ascii.eqb Bool.eqb orb app].
  cbn [select_columns getitem String.eqb Ascii.eqb Bool.eqb].
  result_simpl. unfold final_frame, in_billions.
  rewrite (map_map (fun v : float64 => Float64.div v (Float64.of_Z 1000))).
  reflexivity.
Qed.

Lemma transform_frame_short (df : DataFrame) :
  (length df < 3)%nat -> GDP.transform_frame df = Raise index_error.
Proof.
  intros Hlen. unfold GDP.transform_frame. cbn [iloc_columns].
  destruct (nth_error df 0) as [c|]; [|reflexivity].
  assert (H2 : nth_error df 2 = None) by (apply nth_error_None; lia).
  rewrite H2. reflexivity.
Qed.

Lemma transform_data_run (df : DataFrame) w :
  GDP.transform_data df w =
  match GDP.transform_frame df with
  | Ok out =>
      (set_log (log_file w ++ [transform_started_msg; transform_done_msg out]) w,
       Ok out)
  | Raise e => (set_log (log_file w ++ [transform_started_msg]) w, Raise e)
  end.
Proof.
  unfold GDP.transform_data, GDP.log_step. run_unfold.
  destruct (GDP.transform_frame df) as [out|e]; [|reflexivity].
  unfold set_log. cbn [log_file csv_files databases frames].
  rewrite <- app_assoc. reflexivity.
Qed.

(** X5. [transform_data] end to end.  On a frame with at least three
    columns, the first one a text column, [transform_data] returns a
    frame with the columns Country and GDP_USD_billion whose rows are, in
    the order of the input, the rows kept by the filter, each with its
    country and with its cleaned GDP divided by 1000 and rounded to two
    decimals; the log gets the start line and the completion line. *)
Theorem transform_data_rows (df : DataFrame) n0 c0 n2 g (w : World) :
  nth_error df 0 = Some (n0, c0) ->
  nth_error df 2 = Some (n2, g) ->
  length (cells c0) = length (cells g) ->
  str_accessor_ok c0 = true ->
  exists out,
    GDP.transform_data df w =
      (set_log (log_file w ++ [transform_started_msg; transform_done_msg out]) w,
       Ok out) /\
    columns out = ["Country"; "GDP_USD_billion"]%string /\
    rows_of out = map billions_row (List.filter kept (pairs c0 g)).
Proof.
  intros H0 H2 Hlen Hok. rewrite transform_data_run.
  rewrite (transform_frame_run df n0 c0 n2 g H0 H2), Hok. cbv zeta.
  eexists. split; [reflexivity|]. split; [reflexivity|].
  destruct (row_filter_rows c0 g Hlen) as [Hc Hg]. cbv zeta in Hc, Hg.
  unfold final_frame, in_billions.
  erewrite (rows_of_two _ _
              (map (fun r => (fst r,
                              Num (Float64.round
                                     (Float64.div (cleaned (snd r))
                                                  (Float64.of_Z 1000)) 2)))
                   (List.filter kept (pairs c0 g)))).
  - rewrite map_map. reflexivity.
  - rewrite Hc, map_map. reflexivity.
  - cbn [cells]. rewrite Hg, !map_map. reflexivity.
Qed.

(** X6. [transform_data] raises in two cases only, both about the shape
    of the frame: an [IndexError] when the frame has fewer than three
    columns, an [AttributeError] when its first column is not a text
    column; in both the log has got the start line and nothing else.
    Otherwise it returns, whatever the cells of the GDP column hold. *)
Theorem transform_data_raises_on_shape_only (df : DataFrame) (w : World) :
  ((length df < 3)%nat ->
   GDP.transform_data df w
   = (set_log (log_file w ++ [transform_started_msg]) w, Raise index_error)) /\
  (forall n0 c0,
      (3 <= length df)%nat ->
      nth_error df 0 = Some (n0, c0) ->
      str_accessor_ok c0 = false ->
      GDP.transform_data df w
      = (set_log (log_file w ++ [transform_started_msg]) w,
         Raise accessor_error)) /\
  (forall n0 c0,
      (3 <= length df)%nat ->
      nth_error df 0 = Some (n0, c0) ->
      str_accessor_ok c0 = true ->
      exists out,
        GDP.transform_data df w
        = (set_log (log_file w ++ [transform_started_msg; transform_done_msg out]) w,
           Ok out)).
Proof.
  split; [|split].
  - intros Hlen. rewrite transform_data_run, transform_frame_short by exact Hlen.
    reflexivity.
  - intros n0 c0 Hlen H0 Hok.
    destruct (nth_error df 2) as [[n2 g]|] eqn:H2;
      [|apply nth_error_None in H2; lia].
    rewrite transform_data_run, (transform_frame_run df n0 c0 n2 g H0 H2), Hok.
    reflexivity.
  - intros n0 c0 Hlen H0 Hok.
    destruct (nth_error df 2) as [[n2 g]|] eqn:H2;
      [|apply nth_error_None in H2; lia].
    rewrite transform_data_run, (transform_frame_run df n0 c0 n2 g H0 H2), Hok.
    cbv zeta. eexists. reflexivity.
Qed.

(** X7. What [transform_data] returns never carries a missing number:
    the frame has the columns Country and GDP_USD_billion, the second a
    float64 column without NaN. *)
Theorem transform_data_output_not_missing (df out : DataFrame) (w w' : World) :
  GDP.transform_data df w = (w', Ok out) ->
  exists c l,
    out = [("Country"%string, c); ("GDP_USD_billion"%string, FloatS l)] /\
    Forall (fun x => Float64.is_nan x = false) l.
Proof.
  rewrite transform_data_run.
  destruct (GDP.transform_frame df) as [out'|e] eqn:Hframe; [|discriminate].
  intros [= _ <-].
  destruct (gdp_output_has_no_missing_value df out' Hframe) as (c & l & -> & Hl).
  exists c, l. split; [reflexivity | exact Hl].
Qed.

End GdpTransform.

Lemma transform_data_rows_witness :
  exists out,
    @GDP.transform_data Demo.library Further.raw_gdp BankPage.empty_world =
      (set_log (log_file BankPage.empty_world
                ++ [Further.transform_started_msg;
                    @Further.transform_done_msg Demo.library out])
               BankPage.empty_world, Ok out) /\
    Pandas.columns out = ["Country"; "GDP_USD_billion"]%string /\
    Pandas.rows_of out =
      map (@Further.billions_row Demo.library)
          (List.filter (@kept Demo.library)
                       (pairs Demo.countries Demo.gdp_millions)).
Proof.
  apply (@transform_data_rows Demo.library Further.raw_gdp
           "Country/Territory"%string Demo.countries
           "IMF estimate"%string Demo.gdp_millions); reflexivity.
Defined.

Lemma transform_data_raises_on_shape_only_witness :
  @GDP.transform_data Demo.library DemoBanks.frame BankPage.empty_world
  = (set_log (log_file BankPage.empty_world ++ [Further.transform_started_msg])
             BankPage.empty_world, Raise Further.index_error).
Proof.
  apply (proj1 (@transform_data_raises_on_shape_only Demo.library
                  DemoBanks.frame BankPage.empty_world)).
  vm_compute. lia.
Defined.

Lemma transform_data_output_not_missing_witness :
  exists c l,
    snd (@GDP.transform_data Demo.library Further.raw_gdp BankPage.empty_world)
    = Ok [("Country"%string, c); ("GDP_USD_billion"%string, FloatS l)] /\
    Forall (fun x => Float64.is_nan x = false) l.
Proof.
  destruct (@transform_data_output_not_missing Demo.library Further.raw_gdp
              (match snd (@GDP.transform_data Demo.library Further.raw_gdp
                            BankPage.empty_world) with
               | Ok out => out
               | Raise _ => []
               end)
              BankPage.empty_world
              (fst (@GDP.transform_data Demo.library Further.raw_gdp
                      BankPage.empty_world))
              ltac:(vm_compute; reflexivity))
    as (c & l & Hout & Hl).
  exists c, l. split; [|exact Hl].
  rewrite <- Hout. vm_compute. reflexivity.
Defined.

(* ===================================================================== *)
(** * Further properties: the run of the GDP script                      *)
(* ===================================================================== *)

Section GdpRun.
Import Pandas RunFacts Further.
Context `{Library} (env : Env).

Lemma scan_tables_keeps_sinks all_tables : keeps_sinks (GDP.scan_tables all_tables).
Proof.
  induction all_tables as [|t rest IH]; intros w; cbn [GDP.scan_tables].
  - auto.
  - destruct (GDP.caption_matches t); [auto | apply IH].
Qed.

Lemma extract_data_keeps_sinks url : keeps_sinks (GDP.extract_data env url).
Proof.
  intros w. unfold GDP.extract_data, GDP.log_step. run_unfold.
  cbn [fst snd]. destruct (http_get env url) as [response|e]; [|auto].
  destruct (negb (status_code response =? 200)%nat); [auto|].
  apply (scan_tables_keeps_sinks _ (set_log _ w)).
Qed.

Lemma load_to_csv_run (df : DataFrame) filename w :
  GDP.load_to_csv env df filename w =
  let w1 := set_log (log_file w
                     ++ [String.append "Saving data to CSV file: " filename]) w in
  if can_write env filename
  then (set_csv_files (<[filename := table_of df]> (csv_files w)) w1, Ok tt)
  else (w1, Raise (OSError "cannot write file")).
Proof.
  unfold GDP.load_to_csv, GDP.log_step, to_csv. run_unfold.
  cbn [fst snd csv_files set_log]. destruct (can_write env filename); reflexivity.
Qed.


Lemma tables_with_tables db t w : Sqlite.tables db (with_tables db t w) = t.
Proof.
  unfold Sqlite.tables, with_tables, set_databases. cbn [databases].
  rewrite lookup_insert_eq. reflexivity.
Qed.

Lemma with_tables_twice db t1 t2 w :
  with_tables db t2 (with_tables db t1 w) = with_tables db t2 w.
Proof.
  unfold with_tables, set_databases. cbn [databases log_file csv_files frames].
  rewrite insert_insert_eq. reflexivity.
Qed.

Lemma drop_table_run db name w :
  Sqlite.drop_table_if_exists db name w
  = (with_tables db (delete name (Sqlite.tables db w)) w, Ok tt).
Proof. reflexivity. Qed.

Lemma create_table_fresh db name cols w :
  Sqlite.tables db w !! name = None ->
  Sqlite.create_table db name cols w
  = (with_tables db (<[name := MkTable cols []]> (Sqlite.tables db w)) w, Ok tt).
Proof. intros Hnone. unfold Sqlite.create_table. rewrite Hnone. reflexivity. Qed.

Lemma to_sql_append_existing (df : DataFrame) name db old t w :
  Sqlite.tables db w !! name = Some old ->
  Sqlite.insert_rows old df = Ok t ->
  Sqlite.to_sql df name db Sqlite.IfAppend w
  = (with_tables db (<[name := t]> (Sqlite.tables db w)) w, Ok tt).
Proof.
  intros Hold Hins. unfold Sqlite.to_sql. rewrite Hold, Hins. reflexivity.
Qed.

Lemma to_sql_append_refused (df : DataFrame) name db old e w :
  Sqlite.tables db w !! name = Some old ->
  Sqlite.insert_rows old df = Raise e ->
  Sqlite.to_sql df name db Sqlite.IfAppend w = (w, Raise e).
Proof.
  intros Hold Hins. unfold Sqlite.to_sql. rewrite Hold, Hins. reflexivity.
Qed.

Lemma tables_recreated db w :
  Sqlite.tables db (recreated db w) !! gdp_table
  = Some (MkTable ["Country"; "GDP_USD_billion"]%string []).
Proof. unfold recreated. rewrite tables_with_tables. apply lookup_insert_eq. Qed.

(** [load_to_database], step by step. *)
Lemma load_to_database_run_any (df : DataFrame) db w :
  GDP.load_to_database env df db w =
  let w1 := set_log (log_file w
                     ++ [String.append "Saving data to database: " db]) w in
  if can_open env db
  then
    match Sqlite.insert_rows (MkTable ["Country"; "GDP_USD_billion"]%string []) df with
    | Ok t =>
        (set_log (log_file w1 ++ ["Data loaded into database."%string])
                 (with_tables db (<[gdp_table := t]> (Sqlite.tables db w)) w1),
         Ok db)
    | Raise e => (recreated db w1, Raise e)
    end
  else (w1, Raise cannot_open).
Proof.
  cbv zeta. unfold GDP.load_to_database, GDP.log_step.
  set (w1 := set_log (log_file w ++ [String.append "Saving data to database: " db]) w).
  rewrite (bind_ok _ _ w w1 tt) by reflexivity.
  unfold Sqlite.connect at 1. rewrite bind_run.
  destruct (can_open env db); [|reflexivity].
  rewrite (bind_ok _ _ w1 _ tt) by apply drop_table_run.
  rewrite (bind_ok _ _ _ (recreated db w1) tt).
  2:{ rewrite create_table_fresh
        by (rewrite tables_with_tables; apply lookup_delete_eq).
      rewrite tables_with_tables, with_tables_twice. reflexivity. }
  destruct (Sqlite.insert_rows _ df) as [t|e] eqn:Hins.
  - rewrite (bind_ok _ _ _ (with_tables db (<[gdp_table := t]> (Sqlite.tables db w)) w1) tt).
    + reflexivity.
    + etrans;
        [exact (to_sql_append_existing df _ db _ t _ (tables_recreated db w1) Hins)|].
      unfold recreated. rewrite tables_with_tables, with_tables_twice.
      rewrite insert_insert_eq, insert_delete_eq. reflexivity.
  - rewrite (bind_raise _ _ _ (recreated db w1) e); [reflexivity|].
    apply (to_sql_append_refused df _ db _ e _ (tables_recreated db w1) Hins).
Qed.



(** X8. A response with a status other than 200 ends the GDP script
    before the page is looked at: the log gets the start line, the
    extraction line and the failure line with the message "Failed to
    fetch webpage.", [main] returns, and no file or table is written. *)
Theorem bad_status_fails_cleanly (w : World) (response : Response) :
  http_get env GDP.url = Ok response ->
  status_code response <> 200%nat ->
  GDP.main env w =
  (set_log (log_file w
            ++ [started_msg; extraction_started_msg; failed_msg fetch_failed]) w,
   Ok tt).
Proof.
  intros Hget Hstatus. rewrite gdp_main_run.
  unfold GDP.etl, GDP.extract_data, GDP.log_step. run_unfold.
  cbn [fst snd]. rewrite Hget.
  apply Nat.eqb_neq in Hstatus. rewrite Hstatus. cbn [negb].
  unfold set_log. cbn [log_file csv_files databases frames].
  rewrite <- !app_assoc. reflexivity.
Qed.


(** X10. Nothing is rolled back.  When the extraction and the
    transformation return and the CSV file can be written but the database
    file cannot be opened, [main] still returns: the CSV file holds the
    transformed table, the databases are as the extraction left them, and
    the last line of the log is the failure line of the database. *)
Theorem database_failure_keeps_csv (w wa : World) (df_raw out : DataFrame) :
  GDP.extract_data env GDP.url (set_log (log_file w ++ [started_msg]) w)
  = (wa, Ok df_raw) ->
  GDP.transform_frame df_raw = Ok out ->
  can_write env gdp_csv = true ->
  can_open env gdp_db = false ->
  exists w',
    GDP.main env w = (w', Ok tt) /\
    csv_files w' !! gdp_csv = Some (table_of out) /\
    databases w' = databases w /\
    last (log_file w') = Some (failed_msg cannot_open).
Proof.
  intros Hex Hframe Hwrite Hopen. rewrite gdp_main_run. unfold GDP.etl.
  rewrite (bind_ok _ _ _ wa df_raw Hex).
  rewrite (bind_ok _ _ wa _ out)
    by (rewrite transform_data_run, Hframe; reflexivity).
  rewrite (bind_ok _ _ _ _ tt)
    by (rewrite load_to_csv_run; cbv zeta;
        change "Countries_by_GDP.csv"%string with gdp_csv;
        rewrite Hwrite; reflexivity).
  rewrite (bind_raise _ _ _ _ cannot_open)
    by (rewrite load_to_database_run_any; cbv zeta;
        change "World_Economies.db"%string with gdp_db;
        rewrite Hopen; reflexivity).
  eexists. split; [reflexivity|].
  cbn [csv_files databases log_file set_log set_csv_files].
  split; [apply lookup_insert_eq|]. split; [|apply last_snoc].
  pose proof (extract_data_keeps_sinks GDP.url
                (set_log (log_file w ++ [started_msg]) w)) as [_ Hd].
  rewrite Hex in Hd. exact Hd.
Qed.

(** X11. [load_to_database] touches one table of one database.  However
    the call ends, the CSV files, the frames, the other database files
    and the other tables of the database are as they were. *)
Theorem load_to_database_touches_one_table (df : DataFrame) (db : string)
        (w : World) :
  csv_files (fst (GDP.load_to_database env df db w)) = csv_files w /\
  frames (fst (GDP.load_to_database env df db w)) = frames w /\
  (forall db', db' <> db ->
     databases (fst (GDP.load_to_database env df db w)) !! db'
     = databases w !! db') /\
  (forall t, t <> gdp_table ->
     Sqlite.tables db (fst (GDP.load_to_database env df db w)) !! t
     = Sqlite.tables db w !! t).
Proof.
  rewrite load_to_database_run_any. cbv zeta.
  destruct (can_open env db).
  - destruct (Sqlite.insert_rows _ df) as [t|e]; cbn [fst].
    + unfold with_tables, set_databases, set_log, Sqlite.tables.
      cbn [csv_files frames databases log_file].
      repeat split; try reflexivity.
      * intros db' Hne. apply lookup_insert_ne. congruence.
      * intros t' Hne. rewrite lookup_insert_eq. cbn [from_option id].
        apply lookup_insert_ne. congruence.
    + unfold recreated, with_tables, set_databases, set_log, Sqlite.tables.
      cbn [csv_files frames databases log_file].
      repeat split; try reflexivity.
      * intros db' Hne. apply lookup_insert_ne. congruence.
      * intros t' Hne. rewrite lookup_insert_eq. cbn [from_option id].
        rewrite lookup_insert_ne by congruence.
        apply lookup_delete_ne. congruence.
  - cbn [fst]. unfold Sqlite.tables. cbn [csv_files frames databases set_log].
    auto.
Qed.

End GdpRun.

Lemma bad_status_fails_cleanly_witness :
  @GDP.main Further.gdp_library (Further.gdp_env 404 true) BankPage.empty_world =
  (set_log (log_file BankPage.empty_world
            ++ [started_msg; Further.extraction_started_msg;
                failed_msg Further.fetch_failed]) BankPage.empty_world,
   Ok tt).
Proof.
  apply (@bad_status_fails_cleanly Further.gdp_library (Further.gdp_env 404 true)
           BankPage.empty_world (MkResponse 404 Further.gdp_page));
    [reflexivity | discriminate].
Defined.


Lemma database_failure_keeps_csv_witness :
  exists w',
    @GDP.main Further.gdp_library (Further.gdp_env 200 false) BankPage.empty_world
    = (w', Ok tt) /\
    last (log_file w') = Some (failed_msg Further.cannot_open).
Proof.
  destruct (@database_failure_keeps_csv Further.gdp_library
              (Further.gdp_env 200 false) BankPage.empty_world
              (fst (@GDP.extract_data Further.gdp_library
                      (Further.gdp_env 200 false) GDP.url
                      (set_log (log_file BankPage.empty_world ++ [started_msg])
                               BankPage.empty_world)))
              Further.raw_gdp
              (match @GDP.transform_frame Further.gdp_library Further.raw_gdp with
               | Ok out => out
               | Raise _ => []
               end)
              ltac:(vm_compute; reflexivity) ltac:(vm_compute; reflexivity)
              eq_refl eq_refl)
    as (w' & Hmain & _ & _ & Hlast).
  exists w'. split; [exact Hmain | exact Hlast].
Defined.

Lemma load_to_database_touches_one_table_witness :
  Sqlite.tables Banks.DB_NAME
    (fst (GDP.load_to_database (Further.gdp_env 200 true) DemoBanks.frame
            Banks.DB_NAME BankPage.empty_world)) !! Banks.TABLE_NAME
  = Sqlite.tables Banks.DB_NAME BankPage.empty_world !! Banks.TABLE_NAME.
Proof.
  apply (proj2 (proj2 (proj2
           (load_to_database_touches_one_table (Further.gdp_env 200 true)
              DemoBanks.frame Banks.DB_NAME BankPage.empty_world)))).
  discriminate.
Defined.

(* ===================================================================== *)
(** * Further properties: [transform] and [extract] of the banks script  *)
(* ===================================================================== *)

Section BanksStages.
Import Pandas PandasFacts FrameFacts RunFacts BanksFacts Further.
Context `{Library} (env : Env).

Lemma add_converted_no_rate df rates name cur w d usd :
  frames w !! df = Some d ->
  getitem "MC_USD_Billion" d = Ok (FloatS usd) ->
  rates !! cur = None ->
  Banks.add_converted df rates name cur w = (w, Raise (KeyError cur)).
Proof.
  intros Hd Hu Hr.
  unfold Banks.add_converted, Banks.getitem_ref, Banks.setitem_ref, dict_get.
  run_unfold. rewrite Hd, Hu, Hr. reflexivity.
Qed.

Lemma add_converted_no_column df rates name cur w d :
  frames w !! df = Some d ->
  has_column "MC_USD_Billion" d = false ->
  Banks.add_converted df rates name cur w
  = (w, Raise (KeyError "MC_USD_Billion")).
Proof.
  intros Hd Hu.
  unfold Banks.add_converted, Banks.getitem_ref. run_unfold.
  rewrite Hd, (getitem_missing _ _ Hu). reflexivity.
Qed.

Lemma transform_after_rates df path w rates :
  rates_of env path = Ok rates ->
  Banks.transform env df path w =
  (Banks.add_converted df rates "MC_GBP_Billion" "GBP";;
   Banks.add_converted df rates "MC_EUR_Billion" "EUR";;
   Banks.add_converted df rates "MC_INR_Billion" "INR";;
   Banks.log_progress "Data transformation complete. Initiating Loading process";;
   mret df) w.
Proof.
  unfold rates_of, Banks.transform. result_simpl.
  destruct (read_csv env path) as [rates_df|] eqn:Hcsv; [|discriminate].
  cbn [rbind].
  destruct (getitem "Currency" rates_df) as [cur|] eqn:Hcur; [|discriminate].
  cbn [rbind].
  destruct (getitem "Rate" rates_df) as [rate|] eqn:Hrate; [|discriminate].
  cbn [rbind]. intros [= <-].
  run_unfold. rewrite Hcur, Hrate. reflexivity.
Qed.

(** X12. A missing rate is found out late.  When the file of rates has
    GBP but not EUR, [transform] raises [KeyError] for 'EUR' after the
    first assignment: the frame of the caller already has the column
    MC_GBP_Billion, nothing is logged, and nothing is undone. *)
Theorem transform_missing_rate_leaves_partial_frame
        df path w rates (d : DataFrame) usd gbp :
  rates_of env path = Ok rates ->
  rates !! "GBP"%string = Some (Num gbp) ->
  rates !! "EUR"%string = None ->
  frames w !! df = Some d ->
  getitem "MC_USD_Billion" d = Ok (FloatS usd) ->
  Banks.transform env df path w =
  (set_frames
     (<[df := setitem "MC_GBP_Billion" (converted usd gbp) d]> (frames w)) w,
   Raise (KeyError "EUR")).
Proof.
  intros Hrates Hg He Hd Hu. rewrite (transform_after_rates _ _ _ _ Hrates).
  rewrite (bind_ok _ _ w _ tt (add_converted_run df rates _ _ w d usd gbp Hd Hu Hg)).
  apply bind_raise.
  apply (add_converted_no_rate df rates _ _ _
           (setitem "MC_GBP_Billion" (converted usd gbp) d) usd).
  - cbn [frames set_frames]. apply lookup_insert_eq.
  - rewrite getitem_setitem_ne by discriminate. exact Hu.
  - exact He.
Qed.

(** X13. [transform] changes nothing when it fails at its start: when
    the file of rates cannot be read, when the frame has no column
    MC_USD_Billion, and when the rate of GBP is missing, the exception is
    raised with the frame, the log and the sinks as they were. *)
Theorem transform_early_failure_changes_nothing df path w :
  (forall e, read_csv env path = Raise e ->
             Banks.transform env df path w = (w, Raise e)) /\
  (forall rates (d : DataFrame),
      rates_of env path = Ok rates ->
      frames w !! df = Some d ->
      has_column "MC_USD_Billion" d = false ->
      Banks.transform env df path w = (w, Raise (KeyError "MC_USD_Billion"))) /\
  (forall rates (d : DataFrame) usd,
      rates_of env path = Ok rates ->
      frames w !! df = Some d ->
      getitem "MC_USD_Billion" d = Ok (FloatS usd) ->
      rates !! "GBP"%string = None ->
      Banks.transform env df path w = (w, Raise (KeyError "GBP"))).
Proof.
  split; [|split].
  - intros e Hcsv. unfold Banks.transform. run_unfold. rewrite Hcsv. reflexivity.
  - intros rates d Hrates Hd Hu. rewrite (transform_after_rates _ _ _ _ Hrates).
    apply bind_raise, (add_converted_no_column df rates _ _ w d Hd Hu).
  - intros rates d usd Hrates Hd Hu Hg.
    rewrite (transform_after_rates _ _ _ _ Hrates).
    apply bind_raise, (add_converted_no_rate df rates _ _ w d usd Hd Hu Hg).
Qed.

Lemma extract_run url w response t (raw : DataFrame) n0 c0 n2 c2 :
  http_get env url = Ok response ->
  Banks.locate_table (soup_of response) = Ok t ->
  read_html t = Ok raw ->
  nth_error raw 0 = Some (n0, c0) ->
  nth_error raw 2 = Some (n2, c2) ->
  Banks.extract env url Banks.ATTRIBUTES w =
  (MkWorld (log_file w ++ [extraction_done_msg]) (csv_files w) (databases w)
           (<[fresh (dom (frames w)) := extracted_frame c0 c2]> (frames w)),
   Ok (fresh (dom (frames w)))).
Proof.
  intros Hget Hloc Hread H0 H2. unfold Banks.extract.
  rewrite (bind_ok _ _ w w response) by (unfold lift; rewrite Hget; reflexivity).
  rewrite (bind_ok _ _ w w t) by (unfold lift; rewrite Hloc; reflexivity).
  rewrite (bind_ok _ _ w w raw) by (unfold lift; rewrite Hread; reflexivity).
  rewrite (bind_ok _ _ w w [(n0, c0); (n2, c2)])
    by (unfold lift; cbn [iloc_columns]; rewrite H0, H2; reflexivity).
  rewrite (bind_ok _ _ w w [("Name"%string, c0); ("MC_USD_Billion"%string, c2)])
    by reflexivity.
  rewrite (bind_ok _ _ w w
             [("Name"%string, series_mask (map negb (isna c2)) c0);
              ("MC_USD_Billion"%string, series_mask (map negb (isna c2)) c2)])
    by reflexivity.
  unfold new_frame at 1. rewrite bind_run.
  unfold Banks.getitem_ref, Banks.setitem_ref, Banks.log_progress.
  run_unfold. cbn [frames set_frames]. rewrite lookup_insert_eq.
  cbn [getitem String.eqb Ascii.eqb Bool.eqb].
  rewrite to_numeric_coerce. cbn [rbind frames set_frames].
  rewrite lookup_insert_eq.
  unfold set_log, set_frames. cbn [log_file csv_files databases frames].
  rewrite insert_insert_eq. reflexivity.
Qed.

(** An [extract] that returns has had the page, the table and a frame of
    at least three columns. *)
Lemma extract_ok_inv url w w1 r :
  Banks.extract env url Banks.ATTRIBUTES w = (w1, Ok r) ->
  exists c0 c2,
    r = fresh (dom (frames w)) /\
    w1 = MkWorld (log_file w ++ [extraction_done_msg]) (csv_files w)
                 (databases w)
                 (<[fresh (dom (frames w)) := extracted_frame c0 c2]> (frames w)).
Proof.
  intros Hrun. pose proof Hrun as Hrun'. unfold Banks.extract in Hrun'.
  apply bind_ok_inv in Hrun' as (wa & response & Hget & Hrun').
  apply lift_ok_inv in Hget as [-> Hget].
  apply bind_ok_inv in Hrun' as (wa & t & Hloc & Hrun').
  apply lift_ok_inv in Hloc as [-> Hloc].
  apply bind_ok_inv in Hrun' as (wa & raw & Hread & Hrun').
  apply lift_ok_inv in Hread as [-> Hread].
  apply bind_ok_inv in Hrun' as (wa & df1 & Hiloc & _).
  apply lift_ok_inv in Hiloc as [-> Hiloc].
  cbn [iloc_columns] in Hiloc.
  destruct (nth_error raw 0) as [[n0 c0]|] eqn:H0; [|discriminate].
  destruct (nth_error raw 2) as [[n2 c2]|] eqn:H2; [|discriminate].
  rewrite (extract_run url w response t raw n0 c0 n2 c2 Hget Hloc Hread H0 H2)
    in Hrun.
  injection Hrun as <- <-. exists c0, c2. auto.
Qed.

(** X15. [extract] end to end.  Whatever the status of the response,
    when the table is located and [read_html] gives a frame with at least
    three columns, [extract] returns a reference that was not in use, to
    a frame with the columns Name and MC_USD_Billion, and adds one line
    to the log; the sinks and the other frames are untouched.  The rows
    of the frame are, in order, the rows of the table whose third cell is
    not missing as read, the cell converted with [errors='coerce']: a
    cell that does not convert is kept, as NaN. *)
Theorem extract_returns_new_frame url w response t (raw : DataFrame) n0 c0 n2 c2 :
  http_get env url = Ok response ->
  Banks.locate_table (soup_of response) = Ok t ->
  read_html t = Ok raw ->
  nth_error raw 0 = Some (n0, c0) ->
  nth_error raw 2 = Some (n2, c2) ->
  frames w !! fresh (dom (frames w)) = None /\
  Banks.extract env url Banks.ATTRIBUTES w =
  (MkWorld (log_file w ++ [extraction_done_msg]) (csv_files w) (databases w)
           (<[fresh (dom (frames w)) := extracted_frame c0 c2]> (frames w)),
   Ok (fresh (dom (frames w)))) /\
  (length (cells c0) = length (cells c2) ->
   rows_of (extracted_frame c0 c2) =
   map extracted_row
       (List.filter (fun r => negb (isna_cell (snd r))) (pairs c0 c2))).
Proof.
  intros Hget Hloc Hread H0 H2. split; [|split].
  - apply not_elem_of_dom, is_fresh.
  - apply (extract_run url w response t raw n0 c0 n2 c2); assumption.
  - intros Hlen. unfold extracted_frame. cbv zeta.
    set (P := combine (cells c0) (cells c2)).
    set (p := fun r : cell * cell => negb (isna_cell (snd r))).
    assert (HC : cells c0 = map fst P) by (symmetry; apply map_fst_combine, Hlen).
    assert (HG : cells c2 = map snd P) by (symmetry; apply map_snd_combine, Hlen).
    assert (Hm : map negb (isna c2) = map p P).
    { unfold isna. rewrite HG, !map_map. reflexivity. }
    erewrite (rows_of_two _ _
                (map (fun r => (fst r, Num (coerced (snd r)))) (List.filter p P))).
    + unfold pairs. fold P. rewrite map_map. reflexivity.
    + rewrite cells_series_mask, Hm, HC, select_mask_map, select_mask_filter,
        map_map. reflexivity.
    + cbn [cells]. rewrite cells_series_mask, Hm, HG, select_mask_map,
        select_mask_filter, !map_map. reflexivity.
Qed.

End BanksStages.

(* ===================================================================== *)
(** * Further properties: a complete run of the banks script             *)
(* ===================================================================== *)

Section BanksRun.
Import Pandas PandasFacts FrameFacts RunFacts BanksFacts Further.
Context `{Library} (env : Env).

Lemma log_progress_ok_inv message w w' u :
  Banks.log_progress message w = (w', Ok u) ->
  w' = set_log (log_file w ++ [message]) w.
Proof. unfold Banks.log_progress, append_log. intros [= <-]. reflexivity. Qed.

Lemma load_to_csv_ok_inv r path w w' u :
  Banks.load_to_csv env r path w = (w', Ok u) ->
  exists d : DataFrame,
    frames w !! r = Some d /\
    w' = MkWorld (log_file w ++ ["Data saved to CSV file"%string])
                 (<[path := table_of d]> (csv_files w)) (databases w) (frames w).
Proof.
  unfold Banks.load_to_csv. intros Hrun.
  apply bind_ok_inv in Hrun as (wa & d & Hread & Hrun).
  apply read_frame_ok_inv in Hread as [-> Hd].
  apply bind_ok_inv in Hrun as (wb & [] & Hcsv & Hrun).
  unfold to_csv in Hcsv. destruct (can_write env path); [|discriminate].
  injection Hcsv as <-. apply log_progress_ok_inv in Hrun as ->.
  exists d. split; [exact Hd | reflexivity].
Qed.

Lemma load_to_db_ok_inv r conn name w w' u :
  Banks.load_to_db r conn name w = (w', Ok u) ->
  exists d : DataFrame,
    frames w !! r = Some d /\
    w' = MkWorld
           (log_file w
            ++ ["Data loaded to Database as a table, Executing queries"%string])
           (csv_files w)
           (<[conn := <[name := table_of d]> (Sqlite.tables conn w)]> (databases w))
           (frames w).
Proof.
  unfold Banks.load_to_db. intros Hrun.
  apply bind_ok_inv in Hrun as (wa & d & Hread & Hrun).
  apply read_frame_ok_inv in Hread as [-> Hd].
  apply bind_ok_inv in Hrun as (wb & [] & Hsql & Hrun).
  assert (Hwb : wb = set_databases
                       (<[conn := <[name := table_of d]> (Sqlite.tables conn w)]>
                          (databases w)) w).
  { unfold Sqlite.to_sql, Sqlite.set_tables in Hsql.
    destruct (Sqlite.tables conn w !! name); congruence. }
  subst wb. apply log_progress_ok_inv in Hrun as ->.
  exists d. split; [exact Hd | reflexivity].
Qed.

Lemma run_query_ok_inv query conn w w' u :
  Banks.run_query query conn w = (w', Ok u) ->
  w' = set_log (log_file w ++ ["Process Complete"%string]) w.
Proof.
  unfold Banks.run_query. intros Hrun.
  apply bind_ok_inv in Hrun as (wa & rows & Hex & Hrun).
  unfold Sqlite.execute in Hex. injection Hex as <- _.
  apply log_progress_ok_inv in Hrun. exact Hrun.
Qed.

Lemma connect_ok_inv db w w' conn :
  Sqlite.connect env db w = (w', Ok conn) -> w' = w /\ conn = db.
Proof.
  unfold Sqlite.connect. destruct (can_open env db); [|discriminate].
  intros [= <- <-]. auto.
Qed.

Lemma getitem_usd_extracted c0 c2 :
  getitem "MC_USD_Billion" (extracted_frame c0 c2)
  = Ok (FloatS (map coerced
                  (cells (series_mask (map negb (isna c2)) c2)))).
Proof. reflexivity. Qed.

Lemma setitem_usd_extracted c0 c2 :
  setitem "MC_USD_Billion"
    (FloatS (map coerced (cells (series_mask (map negb (isna c2)) c2))))
    (extracted_frame c0 c2)
  = extracted_frame c0 c2.
Proof. reflexivity. Qed.

Lemma columns_extracted_with_converted c0 c2 usd g e i :
  columns (with_converted (extracted_frame c0 c2) usd g e i) = banks_columns.
Proof. reflexivity. Qed.

Ltac world_simpl H :=
  try unfold set_log, set_csv_files, set_databases, set_frames,
    after_transform in H;
  cbn [log_file csv_files databases frames] in H.

(** X14. A run of the banks script that returns has added its ten
    progress lines to the log, in their order, and leaves the same table
    in both sinks: the CSV file and the table Largest_banks hold one
    frame, with the columns Name, MC_USD_Billion, MC_GBP_Billion,
    MC_EUR_Billion and MC_INR_Billion in this order. *)
Theorem banks_main_success_fills_both_sinks (w w' : World) (u : unit) :
  Banks.main env w = (w', Ok u) ->
  log_file w' = log_file w ++ banks_complete_log /\
  exists d : DataFrame,
    columns d = banks_columns /\
    csv_files w' !! Banks.OUTPUT_CSV = Some (table_of d) /\
    Sqlite.tables Banks.DB_NAME w' !! Banks.TABLE_NAME = Some (table_of d).
Proof.
  unfold Banks.main. intros Hrun.
  apply bind_ok_inv in Hrun as (w1 & [] & Hlog & Hrun).
  apply log_progress_ok_inv in Hlog as ->.
  apply bind_ok_inv in Hrun as (w2 & r & Hex & Hrun).
  apply extract_ok_inv in Hex as (c0 & c2 & -> & ->).
  world_simpl Hrun.
  set (r := fresh (dom (frames w))) in *.
  apply bind_ok_inv in Hrun as (w3 & col & Hcol & Hrun).
  unfold Banks.getitem_ref in Hcol.
  apply bind_ok_inv in Hcol as (w3' & d0 & Hread & Hcol).
  apply read_frame_ok_inv in Hread as [-> Hd0].
  world_simpl Hd0. rewrite lookup_insert_eq in Hd0. injection Hd0 as <-.
  apply lift_ok_inv in Hcol as [-> Hcol].
  rewrite getitem_usd_extracted in Hcol. injection Hcol as <-.
  apply bind_ok_inv in Hrun as (w4 & num & Hnum & Hrun).
  apply lift_ok_inv in Hnum as [-> Hnum].
  cbn [to_numeric] in Hnum. injection Hnum as <-.
  apply bind_ok_inv in Hrun as (w5 & [] & Hset & Hrun).
  unfold Banks.setitem_ref in Hset.
  apply bind_ok_inv in Hset as (w5' & d1 & Hread & Hset).
  apply read_frame_ok_inv in Hread as [-> Hd1].
  world_simpl Hd1. rewrite lookup_insert_eq in Hd1. injection Hd1 as <-.
  unfold write_frame in Hset. injection Hset as <-.
  rewrite setitem_usd_extracted in Hrun. world_simpl Hrun.
  rewrite insert_insert_eq in Hrun.
  apply bind_ok_inv in Hrun as (w6 & r' & Htr & Hrun).
  apply transform_ok_inv in Htr
    as (rates & d2 & usd & g & e & i & _ & _ & _ & _ & Hd2 & _ & -> & ->).
  world_simpl Hd2. rewrite lookup_insert_eq in Hd2.
  injection Hd2 as <-.
  world_simpl Hrun. rewrite insert_insert_eq in Hrun.
  set (d := with_converted (extracted_frame c0 c2) usd g e i) in *.
  apply bind_ok_inv in Hrun as (w7 & [] & Hcsv & Hrun).
  apply load_to_csv_ok_inv in Hcsv as (d3 & Hd3 & ->).
  world_simpl Hd3. rewrite lookup_insert_eq in Hd3. injection Hd3 as <-.
  world_simpl Hrun.
  apply bind_ok_inv in Hrun as (w8 & conn & Hconn & Hrun).
  apply connect_ok_inv in Hconn as [-> ->].
  apply bind_ok_inv in Hrun as (w9 & [] & Hlog & Hrun).
  apply log_progress_ok_inv in Hlog as ->.
  world_simpl Hrun.
  apply bind_ok_inv in Hrun as (w10 & [] & Hdb & Hrun).
  apply load_to_db_ok_inv in Hdb as (d4 & Hd4 & ->).
  world_simpl Hd4. rewrite lookup_insert_eq in Hd4. injection Hd4 as <-.
  world_simpl Hrun.
  apply bind_ok_inv in Hrun as (w11 & [] & Hq1 & Hrun).
  apply run_query_ok_inv in Hq1 as ->.
  world_simpl Hrun.
  apply bind_ok_inv in Hrun as (w12 & [] & Hq2 & Hrun).
  apply run_query_ok_inv in Hq2 as ->.
  world_simpl Hrun.
  apply bind_ok_inv in Hrun as (w13 & [] & Hq3 & Hrun).
  apply run_query_ok_inv in Hq3 as ->.
  world_simpl Hrun.
  apply log_progress_ok_inv in Hrun as ->.
  unfold Sqlite.tables, set_log.
  cbn [log_file csv_files databases frames].
  split.
  - rewrite <- !app_assoc. reflexivity.
  - exists d. split; [|split].
    + apply (columns_extracted_with_converted c0 c2 usd g e i).
    + apply lookup_insert_eq.
    + rewrite lookup_insert_eq. cbn [from_option id]. apply lookup_insert_eq.
Qed.

(** X17. Line 109 repeats a conversion that [extract] has made: run on
    the frame [extract] returned, it leaves the frame, the log and the
    sinks exactly as they were. *)
Theorem second_conversion_changes_nothing url (w w1 : World) (r : nat) :
  Banks.extract env url Banks.ATTRIBUTES w = (w1, Ok r) ->
  convert_again r w1 = (w1, Ok tt).
Proof.
  intros Hex. apply extract_ok_inv in Hex as (c0 & c2 & -> & ->).
  set (r := fresh (dom (frames w))).
  unfold convert_again, Banks.getitem_ref, Banks.setitem_ref.
  rewrite bind_run, bind_run.
  rewrite (read_frame_run r _ (extracted_frame c0 c2))
    by (cbn [frames]; apply lookup_insert_eq).
  unfold lift at 1. rewrite getitem_usd_extracted.
  rewrite bind_run. unfold lift at 1. cbn [to_numeric].
  rewrite bind_run.
  rewrite (read_frame_run r _ (extracted_frame c0 c2))
    by (cbn [frames]; apply lookup_insert_eq).
  unfold write_frame, set_frames. cbn [log_file csv_files databases frames].
  rewrite setitem_usd_extracted, insert_insert_eq. reflexivity.
Qed.

End BanksRun.

(* ===================================================================== *)
(** * Further properties: the stages that do not write                   *)
(* ===================================================================== *)

Section QuietStages.
Import Pandas RunFacts Further.
Context `{Library} (env : Env).

Lemma keeps_sinks_bind {A B : Type} (m : Run A) (k : A -> Run B) :
  keeps_sinks m -> (forall a, keeps_sinks (k a)) -> keeps_sinks (m ≫= k).
Proof.
  intros Hm Hk w. rewrite bind_run. specialize (Hm w).
  destruct (m w) as [w1 [a|e]]; cbn [fst] in *; [|exact Hm].
  destruct (Hk a w1) as [Hc Hd]. destruct Hm as [Hc1 Hd1].
  split; congruence.
Qed.

Lemma keeps_sinks_lift {A : Type} (r : result A) : keeps_sinks (lift r).
Proof. intros w. split; reflexivity. Qed.

Lemma keeps_sinks_ret {A : Type} (a : A) : keeps_sinks (mret a : Run A).
Proof. intros w. split; reflexivity. Qed.

Lemma keeps_sinks_append_log line : keeps_sinks (append_log line).
Proof. intros w. split; reflexivity. Qed.

Lemma keeps_sinks_new_frame (df : DataFrame) : keeps_sinks (new_frame df).
Proof. intros w. split; reflexivity. Qed.

Lemma keeps_sinks_read_frame r : keeps_sinks (read_frame r).
Proof. intros w. unfold read_frame. destruct (frames w !! r); split; reflexivity. Qed.

Lemma keeps_sinks_write_frame r (df : DataFrame) : keeps_sinks (write_frame r df).
Proof. intros w. split; reflexivity. Qed.

Lemma keeps_sinks_getitem_ref r name : keeps_sinks (Banks.getitem_ref r name).
Proof.
  apply keeps_sinks_bind; [apply keeps_sinks_read_frame|].
  intros d. apply keeps_sinks_lift.
Qed.

Lemma keeps_sinks_setitem_ref r name s : keeps_sinks (Banks.setitem_ref r name s).
Proof.
  apply keeps_sinks_bind; [apply keeps_sinks_read_frame|].
  intros d. apply keeps_sinks_write_frame.
Qed.

Lemma keeps_sinks_add_converted r rates name cur :
  keeps_sinks (Banks.add_converted r rates name cur).
Proof.
  unfold Banks.add_converted.
  apply keeps_sinks_bind; [apply keeps_sinks_getitem_ref | intros usd].
  apply keeps_sinks_bind; [apply keeps_sinks_lift | intros rate].
  apply keeps_sinks_bind; [apply keeps_sinks_lift | intros product].
  apply keeps_sinks_bind; [apply keeps_sinks_lift | intros rounded].
  apply keeps_sinks_setitem_ref.
Qed.

Lemma keeps_sinks_extract url attribs : keeps_sinks (Banks.extract env url attribs).
Proof.
  unfold Banks.extract, Banks.log_progress.
  do 6 (apply keeps_sinks_bind; [apply keeps_sinks_lift | intros ?]).
  apply keeps_sinks_bind; [apply keeps_sinks_new_frame | intros r].
  apply keeps_sinks_bind; [apply keeps_sinks_getitem_ref | intros col].
  apply keeps_sinks_bind; [apply keeps_sinks_lift | intros num].
  apply keeps_sinks_bind; [apply keeps_sinks_setitem_ref | intros _].
  apply keeps_sinks_bind; [apply keeps_sinks_append_log | intros _].
  apply keeps_sinks_ret.
Qed.

Lemma keeps_sinks_transform df path : keeps_sinks (Banks.transform env df path).
Proof.
  unfold Banks.transform, Banks.log_progress.
  do 3 (apply keeps_sinks_bind; [apply keeps_sinks_lift | intros ?]).
  do 3 (apply keeps_sinks_bind; [apply keeps_sinks_add_converted | intros _]).
  apply keeps_sinks_bind; [apply keeps_sinks_append_log | intros _].
  apply keeps_sinks_ret.
Qed.

Lemma keeps_sinks_transform_data (df : DataFrame) : keeps_sinks (GDP.transform_data df).
Proof.
  unfold GDP.transform_data, GDP.log_step.
  apply keeps_sinks_bind; [apply keeps_sinks_append_log | intros _].
  apply keeps_sinks_bind; [apply keeps_sinks_lift | intros out].
  apply keeps_sinks_bind; [apply keeps_sinks_append_log | intros _].
  apply keeps_sinks_ret.
Qed.

(** X16. The stages before the load write to no sink.  However they
    end, with a result or with an exception, [extract] and [transform] of
    the banks script and [extract_data] and [transform_data] of the GDP
    script leave every CSV file and every database as it was. *)
Theorem stages_before_load_write_nothing :
  (forall url attribs, keeps_sinks (Banks.extract env url attribs)) /\
  (forall df path, keeps_sinks (Banks.transform env df path)) /\
  (forall url, keeps_sinks (GDP.extract_data env url)) /\
  (forall df : DataFrame, keeps_sinks (GDP.transform_data df)).
Proof.
  split; [exact keeps_sinks_extract|].
  split; [exact keeps_sinks_transform|].
  split; [exact (extract_data_keeps_sinks env) | exact keeps_sinks_transform_data].
Qed.

End QuietStages.

(* ===================================================================== *)
(** * Further properties: instances                                      *)
(* ===================================================================== *)

Lemma transform_missing_rate_leaves_partial_frame_witness :
  Banks.transform Further.gbp_only_env 0 Banks.EXCHANGE_CSV DemoBanks.world =
  (set_frames
     (<[0%nat := Pandas.setitem "MC_GBP_Billion"
                   (converted [DemoBanks.hundred] DemoBanks.rate_gbp)
                   DemoBanks.frame]> (frames DemoBanks.world))
     DemoBanks.world,
   Raise (Pandas.KeyError "EUR")).
Proof.
  apply (transform_missing_rate_leaves_partial_frame Further.gbp_only_env
           0%nat Banks.EXCHANGE_CSV DemoBanks.world
           (Pandas.dict_zip [Str "GBP"] [Num DemoBanks.rate_gbp])
           DemoBanks.frame [DemoBanks.hundred] DemoBanks.rate_gbp);
    reflexivity.
Defined.

Lemma transform_early_failure_changes_nothing_witness :
  Banks.transform Further.no_rates_env 0 Banks.EXCHANGE_CSV DemoBanks.world =
  (DemoBanks.world, Raise Further.no_rates_file).
Proof.
  apply (proj1 (transform_early_failure_changes_nothing Further.no_rates_env
                  0%nat Banks.EXCHANGE_CSV DemoBanks.world)).
  reflexivity.
Defined.

Lemma extract_returns_new_frame_witness :
  frames BankPage.empty_world !! fresh (dom (frames BankPage.empty_world)) = None /\
  @Banks.extract BankPage.library (BankPage.env BankPage.page) Banks.URL
    Banks.ATTRIBUTES BankPage.empty_world =
  (MkWorld (log_file BankPage.empty_world ++ [Further.extraction_done_msg])
           (csv_files BankPage.empty_world) (databases BankPage.empty_world)
           (<[fresh (dom (frames BankPage.empty_world)) :=
                @Further.extracted_frame BankPage.library
                  (ObjectS [Str "Bank A"; Str "Bank B"])
                  (ObjectS [Str "12.3"; Str PyStr.em_dash])]>
              (frames BankPage.empty_world)),
   Ok (fresh (dom (frames BankPage.empty_world)))) /\
  Pandas.rows_of (@Further.extracted_frame BankPage.library
                    (ObjectS [Str "Bank A"; Str "Bank B"])
                    (ObjectS [Str "12.3"; Str PyStr.em_dash])) =
  map (@Further.extracted_row BankPage.library)
      (List.filter (fun r => negb (Pandas.isna_cell (snd r)))
         (pairs (ObjectS [Str "Bank A"; Str "Bank B"])
                (ObjectS [Str "12.3"; Str PyStr.em_dash]))).
Proof.
  destruct (@extract_returns_new_frame BankPage.library
              (BankPage.env BankPage.page) Banks.URL BankPage.empty_world
              (MkResponse 200 BankPage.page) BankPage.table BankPage.table_frame
              "Bank name"%string (ObjectS [Str "Bank A"; Str "Bank B"])
              "Market cap"%string (ObjectS [Str "12.3"; Str PyStr.em_dash]))
    as (Hfresh & Hrun & Hrows); try reflexivity.
  split; [exact Hfresh | split; [exact Hrun | apply Hrows; reflexivity]].
Defined.

Lemma banks_main_success_fills_both_sinks_witness :
  log_file (fst (@Banks.main BankPage.library (BankPage.env BankPage.page)
                   BankPage.empty_world))
  = log_file BankPage.empty_world ++ Further.banks_complete_log /\
  exists d : DataFrame,
    Pandas.columns d = Further.banks_columns /\
    csv_files (fst (@Banks.main BankPage.library (BankPage.env BankPage.page)
                      BankPage.empty_world)) !! Banks.OUTPUT_CSV
    = Some (Pandas.table_of d) /\
    Sqlite.tables Banks.DB_NAME
      (fst (@Banks.main BankPage.library (BankPage.env BankPage.page)
              BankPage.empty_world)) !! Banks.TABLE_NAME
    = Some (Pandas.table_of d).
Proof.
  apply (@banks_main_success_fills_both_sinks BankPage.library
           (BankPage.env BankPage.page) BankPage.empty_world _ tt).
  vm_compute. reflexivity.
Defined.

Lemma second_conversion_changes_nothing_witness :
  @Further.convert_again BankPage.library
    (fresh (dom (frames BankPage.empty_world)))
    (fst (@Banks.extract BankPage.library (BankPage.env BankPage.page)
            Banks.URL Banks.ATTRIBUTES BankPage.empty_world))
  = (fst (@Banks.extract BankPage.library (BankPage.env BankPage.page)
            Banks.URL Banks.ATTRIBUTES BankPage.empty_world),
     Ok tt).
Proof.
  apply (@second_conversion_changes_nothing BankPage.library
           (BankPage.env BankPage.page) Banks.URL BankPage.empty_world).
  vm_compute. reflexivity.
Defined.
